(** * doris-mcp-server: the transport bridge and dispatch layer

    A shallow embedding of [src/doris_mcp_server/main.py]: the six MCP
    operation handlers registered by [DorisServer._setup_handlers], the
    HTTP bridge [mcp_app] built inside [start_http], [start_stdio],
    [shutdown], the command-line resolution of the configuration and the
    top-level [main].

    Python values are modelled as follows.
    - [str] is the text as its UTF-8 encoding (a [string] of octets);
      [bytes] is a [string] of octets with no constraint.  Under this
      representation [bytes.decode('utf-8')] is the strict validity check
      and [str.encode('utf-8')] is the identity.
    - Exceptions are records of a class, the text [str(e)] and, for
      exception groups, the [exceptions] attribute.
    - Coroutines run sequentially in a state-and-exception monad over the
      state of the collaborators and a journal of what the server did
      (log records, collaborator calls calls_in, HTTP responses rendered). *)

From Stdlib Require Import ZArith NArith List String Ascii Bool Lia.
From Stdlib Require Import DecimalString DecimalNat DecimalZ.
Import ListNotations.

Open Scope list_scope.
Open Scope string_scope.

(* ================================================================== *)
(** ** Python text and octets *)

Module Py.

Definition str := string.
Definition bytes := string.

(** [s.startswith(p)]. *)
Fixpoint startswith (s p : str) {struct p} : bool :=
  match p with
  | EmptyString => true
  | String a p' =>
      match s with
      | EmptyString => false
      | String b s' => Ascii.eqb a b && startswith s' p'
      end
  end.

(** [needle in hay] for two [str]. *)
Fixpoint contains (needle hay : str) : bool :=
  startswith hay needle
  || match hay with
     | EmptyString => false
     | String _ hay' => contains needle hay'
     end.

Definition octet (c : ascii) : N := N_of_ascii c.

Definition in_range (lo hi : N) (c : ascii) : bool :=
  (lo <=? octet c)%N && (octet c <=? hi)%N.

(** Continuation octet [80..BF]. *)
Definition is_cont (c : ascii) : bool := in_range 128 191 c.

(** The strict UTF-8 decoder accepts exactly the well-formed sequences:
    no overlong form, no surrogate, nothing above U+10FFFF, no truncated
    sequence. *)
Fixpoint utf8_valid (b : bytes) : bool :=
  match b with
  | EmptyString => true
  | String c0 r0 =>
      if in_range 0 127 c0 then utf8_valid r0
      else
        match r0 with
        | EmptyString => false
        | String c1 r1 =>
            if in_range 194 223 c0 then is_cont c1 && utf8_valid r1
            else
              match r1 with
              | EmptyString => false
              | String c2 r2 =>
                  if in_range 224 224 c0
                  then in_range 160 191 c1 && is_cont c2 && utf8_valid r2
                  else if in_range 225 236 c0 || in_range 238 239 c0
                  then is_cont c1 && is_cont c2 && utf8_valid r2
                  else if in_range 237 237 c0
                  then in_range 128 159 c1 && is_cont c2 && utf8_valid r2
                  else
                    match r2 with
                    | EmptyString => false
                    | String c3 r3 =>
                        if in_range 240 240 c0
                        then in_range 144 191 c1 && is_cont c2 && is_cont c3
                             && utf8_valid r3
                        else if in_range 241 243 c0
                        then is_cont c1 && is_cont c2 && is_cont c3
                             && utf8_valid r3
                        else if in_range 244 244 c0
                        then in_range 128 143 c1 && is_cont c2 && is_cont c3
                             && utf8_valid r3
                        else false
                    end
              end
        end
  end.

(** [b.decode('utf-8')]: [None] stands for [UnicodeDecodeError]. *)
Definition decode_utf8 (b : bytes) : option str :=
  if utf8_valid b then Some b else None.

(** [s.encode('utf-8')]. *)
Definition encode_utf8 (s : str) : bytes := s.

(** [dict(pairs).get(key, default)]: building a dict from a list of pairs
    keeps, for a repeated key, the value of its last occurrence. *)
Fixpoint dict_get {V : Type} (key : bytes) (pairs : list (bytes * V)) (default : V) : V :=
  match pairs with
  | [] => default
  | (k, v) :: rest => dict_get key rest (if String.eqb k key then v else default)
  end.

(** [str(n)] for a length. *)
Definition str_of_nat (n : nat) : str := NilZero.string_of_uint (Nat.to_uint n).

(** [str(z)] for an [int]. *)
Definition str_of_int (z : Z) : str := NilZero.string_of_int (Z.to_int z).

(** The exception classes the server tells apart.  [except Exception]
    catches the classes derived from [Exception]; [KeyboardInterrupt],
    [SystemExit], [asyncio.CancelledError] and [GeneratorExit] derive from
    [BaseException] only. *)
Inductive exc_class : Type :=
| KeyboardInterrupt
| SystemExit
| CancelledError
| GeneratorExit
| ExceptionClass (qualname : str).

Record BaseException : Type := mkException {
  exc_type : exc_class;
  (** [str(e)] *)
  exc_str : str;
  (** [e.exceptions] when the attribute exists (an exception group):
      [type(exc).__name__] and [str(exc)] of each member. *)
  exc_exceptions : option (list (str * str))
}.

Definition type_name (c : exc_class) : str :=
  match c with
  | KeyboardInterrupt => "KeyboardInterrupt"
  | SystemExit => "SystemExit"
  | CancelledError => "CancelledError"
  | GeneratorExit => "GeneratorExit"
  | ExceptionClass q => q
  end.

(** [isinstance(e, Exception)]. *)
Definition isinstance_Exception (e : BaseException) : bool :=
  match exc_type e with
  | ExceptionClass _ => true
  | _ => false
  end.

(** [isinstance(e, KeyboardInterrupt)]. *)
Definition isinstance_KeyboardInterrupt (e : BaseException) : bool :=
  match exc_type e with
  | KeyboardInterrupt => true
  | _ => false
  end.

(** [Cls(message)] for a class derived from [Exception]. *)
Definition Exception (qualname message : str) : BaseException :=
  mkException (ExceptionClass qualname) message None.

Definition RuntimeError (message : str) : BaseException :=
  Exception "RuntimeError" message.

End Py.
Import Py.

(* ================================================================== *)
(** ** JSON text: [json.dumps(obj, ensure_ascii=False, indent=2)] and a
       reader for it *)

Module Json.

(** The values a JSON-RPC argument mapping is made of: [None], [bool],
    [int], [str], [list] and [dict] with [str] keys in insertion order.
    ([float] is left out of the model.) *)
#[local] Unset Elimination Schemes.
Inductive json : Type :=
| JNull
| JBool (b : bool)
| JInt (z : Z)
| JStr (s : str)
| JList (items : list json)
| JDict (members : list (str * json)).
#[local] Set Elimination Schemes.

Definition dquote : ascii := "034"%char.
Definition backslash : ascii := "092"%char.
Definition newline : ascii := "010"%char.

Definition hex_digit (n : N) : ascii :=
  if (n <? 10)%N then ascii_of_N (48 + n) else ascii_of_N (87 + n).

(** [ESCAPE_DCT]: the replacement of one character of a string. *)
Definition escape_char (c : ascii) : str :=
  if Ascii.eqb c dquote then String backslash (String dquote "")
  else if Ascii.eqb c backslash then String backslash (String backslash "")
  else if Ascii.eqb c "008"%char then String backslash "b"
  else if Ascii.eqb c "012"%char then String backslash "f"
  else if Ascii.eqb c "010"%char then String backslash "n"
  else if Ascii.eqb c "013"%char then String backslash "r"
  else if Ascii.eqb c "009"%char then String backslash "t"
  else if (octet c <? 32)%N
  then String backslash
         (String "u" (String "0" (String "0"
            (String (hex_digit (octet c / 16)) (String (hex_digit (octet c mod 16)) "")))))
  else String c "".

Fixpoint escape (s : str) : str :=
  match s with
  | EmptyString => ""
  | String c r => escape_char c ++ escape r
  end.

(** [encode_basestring(s)]. *)
Definition encode_basestring (s : str) : str :=
  String dquote (escape s ++ String dquote "").

Fixpoint spaces (n : nat) : str :=
  match n with
  | O => ""
  | S n' => String " " (spaces n')
  end.

(** ['\n' + ' ' * (indent * level)] with [indent = 2]. *)
Definition newline_indent (level : nat) : str :=
  String newline (spaces (2 * level)).

(** [_iterencode(o, _current_indent_level)], its chunks concatenated. *)
Fixpoint iterencode (level : nat) (o : json) : str :=
  match o with
  | JNull => "null"
  | JBool true => "true"
  | JBool false => "false"
  | JInt z => str_of_int z
  | JStr s => encode_basestring s
  | JList [] => "[]"
  | JList (x :: xs) =>
      "[" ++ newline_indent (S level) ++ iterencode (S level) x
      ++ (fix items (l : list json) : str :=
            match l with
            | [] => ""
            | y :: ys =>
                "," ++ newline_indent (S level) ++ iterencode (S level) y ++ items ys
            end) xs
      ++ newline_indent level ++ "]"
  | JDict [] => "{}"
  | JDict ((k, x) :: xs) =>
      "{" ++ newline_indent (S level) ++ encode_basestring k ++ ": "
      ++ iterencode (S level) x
      ++ (fix items (l : list (str * json)) : str :=
            match l with
            | [] => ""
            | (k', y) :: ys =>
                "," ++ newline_indent (S level) ++ encode_basestring k' ++ ": "
                ++ iterencode (S level) y ++ items ys
            end) xs
      ++ newline_indent level ++ "}"
  end.

(** [json.dumps(obj, ensure_ascii=False, indent=2)]. *)
Definition dumps (obj : json) : str := iterencode 0 obj.

(** *** Reading JSON text back *)

Definition is_ws (c : ascii) : bool :=
  Ascii.eqb c " " || Ascii.eqb c newline || Ascii.eqb c "013"%char
  || Ascii.eqb c "009"%char.

Fixpoint skip_ws (s : str) : str :=
  match s with
  | String c r => if is_ws c then skip_ws r else s
  | EmptyString => s
  end.

Definition is_digit (c : ascii) : bool := in_range 48 57 c.

Definition hex_value (c : ascii) : option N :=
  if in_range 48 57 c then Some (octet c - 48)%N
  else if in_range 97 102 c then Some (octet c - 87)%N
  else if in_range 65 70 c then Some (octet c - 55)%N
  else None.

Definition hex4 (a b c d : ascii) : option N :=
  match hex_value a, hex_value b, hex_value c, hex_value d with
  | Some x, Some y, Some z, Some w => Some (((x * 16 + y) * 16 + z) * 16 + w)%N
  | _, _, _, _ => None
  end.

(** The UTF-8 form of a code point of the basic plane given by a
    [\uXXXX] escape; a surrogate half has none. *)
Definition utf8_of_bmp (cp : N) : option str :=
  if (cp <? 128)%N then Some (String (ascii_of_N cp) "")
  else if (cp <? 2048)%N
  then Some (String (ascii_of_N (192 + cp / 64))
               (String (ascii_of_N (128 + cp mod 64)) ""))
  else if (55296 <=? cp)%N && (cp <=? 57343)%N then None
  else Some (String (ascii_of_N (224 + cp / 4096))
               (String (ascii_of_N (128 + (cp / 64) mod 64))
                  (String (ascii_of_N (128 + cp mod 64)) ""))).

Definition unescape (c : ascii) : option ascii :=
  if Ascii.eqb c dquote then Some dquote
  else if Ascii.eqb c backslash then Some backslash
  else if Ascii.eqb c "/" then Some "/"%char
  else if Ascii.eqb c "b" then Some "008"%char
  else if Ascii.eqb c "f" then Some "012"%char
  else if Ascii.eqb c "n" then Some "010"%char
  else if Ascii.eqb c "r" then Some "013"%char
  else if Ascii.eqb c "t" then Some "009"%char
  else None.

Definition prepend (p : str) (r : option (str * str)) : option (str * str) :=
  match r with
  | Some (s, rest) => Some (p ++ s, rest)
  | None => None
  end.

(** The characters of a string literal after its opening quote, up to
    and including the closing quote: the text denoted and what follows. *)
Fixpoint scan_string (s : str) : option (str * str) :=
  match s with
  | EmptyString => None
  | String c r =>
      if Ascii.eqb c dquote then Some ("", r)
      else if Ascii.eqb c backslash then
        match r with
        | EmptyString => None
        | String e r1 =>
            match unescape e with
            | Some ch => prepend (String ch "") (scan_string r1)
            | None =>
                if Ascii.eqb e "u" then
                  match r1 with
                  | String h1 (String h2 (String h3 (String h4 r2))) =>
                      match hex4 h1 h2 h3 h4 with
                      | Some cp =>
                          match utf8_of_bmp cp with
                          | Some u => prepend u (scan_string r2)
                          | None => None
                          end
                      | None => None
                      end
                  | _ => None
                  end
                else None
            end
        end
      else if (octet c <? 32)%N then None
      else prepend (String c "") (scan_string r)
  end.

(** The longest run of decimal digits at the head of a text. *)
Fixpoint span_digits (s : str) : str * str :=
  match s with
  | String c r =>
      if is_digit c then let (d, rest) := span_digits r in (String c d, rest)
      else ("", s)
  | EmptyString => ("", "")
  end.

Definition starts_fraction (s : str) : bool :=
  match s with
  | String c _ => Ascii.eqb c "." || Ascii.eqb c "e" || Ascii.eqb c "E"
  | EmptyString => false
  end.

(** The digits of an integer literal, not followed by a fraction or an
    exponent. *)
Definition scan_digits (negative : bool) (body : str) : option (Z * str) :=
  let (digits, rest) := span_digits body in
  if starts_fraction rest then None
  else
    match digits with
    | EmptyString => None
    | _ =>
        match NilEmpty.uint_of_string digits with
        | Some u =>
            Some (Z.of_int (if negative then Decimal.Neg u else Decimal.Pos u), rest)
        | None => None
        end
    end.

(** An integer literal: an optional minus sign, then digits. *)
Definition scan_int (s : str) : option (Z * str) :=
  match s with
  | String c r => if Ascii.eqb c "-" then scan_digits true r else scan_digits false s
  | EmptyString => None
  end.

(** [s] without its prefix [p], when it starts with [p]. *)
Fixpoint strip_prefix (p s : str) {struct p} : option str :=
  match p with
  | EmptyString => Some s
  | String a p' =>
      match s with
      | EmptyString => None
      | String b s' => if Ascii.eqb a b then strip_prefix p' s' else None
      end
  end.

Definition literal (p : str) (v : json) (s : str) : option (json * str) :=
  match strip_prefix p s with
  | Some rest => Some (v, rest)
  | None => None
  end.

(** A recursive-descent reader; [fuel] bounds the number of values and
    separators read. *)
Fixpoint parse_value (fuel : nat) (s : str) : option (json * str) :=
  match fuel with
  | O => None
  | S fuel' =>
      match skip_ws s with
      | EmptyString => None
      | String c r =>
          if Ascii.eqb c "n" then literal "ull" JNull r
          else if Ascii.eqb c "t" then literal "rue" (JBool true) r
          else if Ascii.eqb c "f" then literal "alse" (JBool false) r
          else if Ascii.eqb c dquote then
            match scan_string r with
            | Some (t, rest) => Some (JStr t, rest)
            | None => None
            end
          else if Ascii.eqb c "[" then
            match skip_ws r with
            | String c' r' =>
                if Ascii.eqb c' "]" then Some (JList [], r')
                else
                  match parse_elements fuel' r with
                  | Some (items, rest) => Some (JList items, rest)
                  | None => None
                  end
            | EmptyString => None
            end
          else if Ascii.eqb c "{" then
            match skip_ws r with
            | String c' r' =>
                if Ascii.eqb c' "}" then Some (JDict [], r')
                else
                  match parse_members fuel' r with
                  | Some (members, rest) => Some (JDict members, rest)
                  | None => None
                  end
            | EmptyString => None
            end
          else
            match scan_int (String c r) with
            | Some (z, rest) => Some (JInt z, rest)
            | None => None
            end
      end
  end

with parse_elements (fuel : nat) (s : str) : option (list json * str) :=
  match fuel with
  | O => None
  | S fuel' =>
      match parse_value fuel' s with
      | Some (v, rest) =>
          match skip_ws rest with
          | String c r =>
              if Ascii.eqb c "," then
                match parse_elements fuel' r with
                | Some (vs, rest') => Some (v :: vs, rest')
                | None => None
                end
              else if Ascii.eqb c "]" then Some ([v], r)
              else None
          | EmptyString => None
          end
      | None => None
      end
  end

with parse_members (fuel : nat) (s : str) : option (list (str * json) * str) :=
  match fuel with
  | O => None
  | S fuel' =>
      match skip_ws s with
      | String q r =>
          if Ascii.eqb q dquote then
            match scan_string r with
            | Some (k, after_key) =>
                match skip_ws after_key with
                | String colon after_colon =>
                    if Ascii.eqb colon ":" then
                      match parse_value fuel' after_colon with
                      | Some (v, rest) =>
                          match skip_ws rest with
                          | String c r' =>
                              if Ascii.eqb c "," then
                                match parse_members fuel' r' with
                                | Some (ms, rest') => Some ((k, v) :: ms, rest')
                                | None => None
                                end
                              else if Ascii.eqb c "}" then Some ([(k, v)], r')
                              else None
                          | EmptyString => None
                          end
                      | None => None
                      end
                    else None
                | EmptyString => None
                end
            | None => None
            end
          else None
      | EmptyString => None
      end
  end.

(** [json.loads(text)] on the subset above: one value, then only white
    space. *)
Definition loads (text : str) : option json :=
  match parse_value (S (String.length text)) text with
  | Some (v, rest) =>
      match skip_ws rest with
      | EmptyString => Some v
      | String _ _ => None
      end
  | None => None
  end.

(** *** Measures and pieces of the text used to reason about the reader *)

(** The number of values in a value, each element of a list or dict
    counted with its separator: the fuel the reader needs. *)
Fixpoint size (v : json) : nat :=
  match v with
  | JList items => S (list_sum (map (fun x => S (size x)) items))
  | JDict members => S (list_sum (map (fun m => S (size (snd m))) members))
  | _ => 1
  end.

(** The text of the elements of a list after the first. *)
Definition items_text (level : nat) (l : list json) : str :=
  (fix items (l : list json) : str :=
     match l with
     | [] => ""
     | y :: ys => "," ++ newline_indent (S level) ++ iterencode (S level) y ++ items ys
     end) l.

(** The text of the members of a dict after the first. *)
Definition members_text (level : nat) (l : list (str * json)) : str :=
  (fix items (l : list (str * json)) : str :=
     match l with
     | [] => ""
     | (k', y) :: ys =>
         "," ++ newline_indent (S level) ++ encode_basestring k' ++ ": "
         ++ iterencode (S level) y ++ items ys
     end) l.

(** What may follow a number: not a digit, a fraction or an exponent. *)
Definition number_end (s : str) : bool :=
  match s with
  | EmptyString => true
  | String c _ => negb (is_digit c) && negb (starts_fraction s)
  end.

(** A text that starts with a character that is neither white space nor
    a closing bracket, as the text of every value does. *)
Definition opens_value (s : str) : Prop :=
  exists c r, s = String c r /\ is_ws c = false
              /\ Ascii.eqb c "]" = false /\ Ascii.eqb c "}" = false.

(** The reader returns a value from its own text, whatever follows. *)
Definition reads_back (v : json) : Prop :=
  forall level tail fuel,
    size v <= fuel -> number_end tail = true ->
    parse_value fuel (iterencode level v ++ tail) = Some (v, tail).

End Json.
Import Json.

(* ================================================================== *)
(** ** Coroutines: state, journal and exceptions *)

Inductive outcome (A : Type) : Type :=
| Returned (a : A)
| Raised (e : BaseException).
Arguments Returned {A} a.
Arguments Raised {A} e.

(** An ASGI connection scope: the keys [mcp_app] reads, each possibly
    absent except [type], and the remaining keys. *)
Record Scope : Type := mkScope {
  scope_type : str;
  scope_path : option str;
  scope_method : option str;
  scope_headers : option (list (bytes * bytes));
  scope_rest : list (str * bytes)
}.

(** [scope = dict(scope); scope["headers"] = new_headers]. *)
Definition set_headers (scope : Scope) (new_headers : list (bytes * bytes)) : Scope :=
  mkScope (scope_type scope) (scope_path scope) (scope_method scope)
          (Some new_headers) (scope_rest scope).

(** [d.get(key, default)] on a key that may be absent. *)
Definition get {A : Type} (field : option A) (default : A) : A :=
  match field with
  | Some v => v
  | None => default
  end.

Inductive log_level : Type := DEBUG | INFO | WARNING | ERROR.

(** [logger] is the module's logger, [self.logger] the server's. *)
Inductive logger_name : Type := module_logger | server_logger.

(** What the server calls outside this file: the coroutines of the
    collaborators it awaits, the context managers it enters and leaves,
    and the session manager it creates. *)
Inductive call : Type :=
| resources_list_resources
| resources_read_resource (uri : str)
| tools_list_tools
| tools_call_tool (name : str) (arguments : list (str * json))
| prompts_list_prompts
| prompts_get_prompt (name : str) (arguments : list (str * json))
| connection_initialize
| connection_close
| stdio_server_enter
| stdio_server_exit
| server_get_capabilities (prompts_changed resources_changed tools_changed : bool)
| server_run (server_name server_version : str)
| session_manager_new (json_response stateless : bool)
| session_manager_run_enter
| session_manager_run_exit
| session_manager_handle_request (scope : Scope)
| starlette_app_call (scope : Scope)
| uvicorn_serve (host : str) (port : Z).

Inductive event : Type :=
| Logged (logger : logger_name) (level : log_level) (message : str)
| Called (c : call)
| Responded (status_code : Z) (content : str).

(** What the interpreter and the standard library supply: the text of a
    traceback, the [repr] of a header dict, the message of a
    [UnicodeDecodeError], the process environment, [int(s)] on a text
    ([None] stands for [ValueError]), and the effect of
    [logging.getLogger().setLevel(getattr(logging, name))]. *)
Record Runtime : Type := mkRuntime {
  format_exc : BaseException -> str;
  repr_headers : list (bytes * bytes) -> str;
  decode_error : bytes -> str;
  getenv : str -> option str;
  int_of_str : str -> option Z;
  set_root_level : str -> option BaseException
}.

Definition UnicodeDecodeError (rt : Runtime) (b : bytes) : BaseException :=
  Exception "UnicodeDecodeError" (decode_error rt b).

(** [content = TextContent(type="text", text=...)]. *)
Record TextContent : Type := mkTextContent {
  type : str;
  text : str
}.

(* ================================================================== *)
(** ** Configuration and command line *)

(** [config.database]; [database_name] is its [database] attribute. *)
Record DatabaseConfig : Type := mkDatabaseConfig {
  host : str;
  port : Z;
  user : str;
  password : str;
  database_name : str
}.

Record LoggingConfig : Type := mkLoggingConfig {
  level : str
}.

Record DorisConfig : Type := mkDorisConfig {
  database : DatabaseConfig;
  logging : LoggingConfig;
  transport : str;
  server_port : Z;
  server_version : str
}.

(** The options written on the command line, after [argparse] has split
    them and applied [type=]; [None] is an option that was not given. *)
Record CommandLine : Type := mkCommandLine {
  cli_transport : option str;
  cli_host : option str;
  cli_port : option Z;
  cli_db_host : option str;
  cli_db_port : option Z;
  cli_db_user : option str;
  cli_db_password : option str;
  cli_db_database : option str;
  cli_log_level : option str
}.

(** A [default=] of an integer option: [os.getenv(NAME, n)] is the
    variable's text when it is set and the integer [n] otherwise. *)
Inductive int_default : Type :=
| EnvText (s : str)
| IntValue (n : Z).

(** The parser [create_arg_parser] returns: the default of each option. *)
Record ArgumentParser : Type := mkArgumentParser {
  default_transport : str;
  default_host : str;
  default_port : int_default;
  default_db_host : str;
  default_db_port : int_default;
  default_db_user : str;
  default_db_password : str;
  default_db_database : str;
  default_log_level : str
}.

(** [args = parser.parse_args()]. *)
Record Namespace : Type := mkNamespace {
  args_transport : str;
  args_host : str;
  args_port : Z;
  args_db_host : str;
  args_db_port : Z;
  args_db_user : str;
  args_db_password : str;
  args_db_database : str;
  args_log_level : str
}.

Definition mem (x : str) (choices : list str) : bool :=
  existsb (String.eqb x) choices.

(** [os.getenv(name, default)] with a text default. *)
Definition getenv_or (rt : Runtime) (name default : str) : str :=
  get (getenv rt name) default.

(** [os.getenv(name, default)] with an integer default. *)
Definition getenv_or_int (rt : Runtime) (name : str) (default : Z) : int_default :=
  match getenv rt name with
  | Some s => EnvText s
  | None => IntValue default
  end.

(** [argparse] exits with status 2 on an argument it refuses. *)
Definition argparse_error (message : str) : BaseException :=
  mkException SystemExit message None.

(** An option of [type=str]: the value given, checked against [choices]
    when the option has some, or else the default (which is not checked). *)
Definition str_option (given : option str) (choices : option (list str)) (default : str)
  : outcome str :=
  match given with
  | Some v =>
      match choices with
      | Some cs => if mem v cs then Returned v else Raised (argparse_error "2")
      | None => Returned v
      end
  | None => Returned default
  end.

(** An option of [type=int]: the value given, or else the default, a
    text default being converted by [int]. *)
Definition int_option (rt : Runtime) (given : option Z) (default : int_default)
  : outcome Z :=
  match given with
  | Some v => Returned v
  | None =>
      match default with
      | IntValue n => Returned n
      | EnvText s =>
          match int_of_str rt s with
          | Some n => Returned n
          | None => Raised (argparse_error "2")
          end
      end
  end.

(* ================================================================== *)
(** ** The server *)

Section Server.

(** The state of everything outside this file: the database, the
    network, the peers. *)
Context {W : Type}.

(** [mcp.types.Resource], [Tool] and [Prompt]. *)
Context {Resource Tool Prompt : Type}.

Variable rt : Runtime.

Record state : Type := mkState {
  world : W;
  journal : list event
}.

(** A coroutine of a collaborator: it returns or raises, and moves the
    outside state. *)
Definition action (A : Type) : Type := W -> outcome A * W.

(** A coroutine of the server. *)
Definition M (A : Type) : Type := state -> outcome A * state.

Definition ret {A : Type} (a : A) : M A := fun s => (Returned a, s).

Definition bind {A B : Type} (m : M A) (k : A -> M B) : M B :=
  fun s =>
    match m s with
    | (Returned a, s') => k a s'
    | (Raised e, s') => (Raised e, s')
    end.

Definition raise {A : Type} (e : BaseException) : M A := fun s => (Raised e, s).

Definition lift {A : Type} (o : outcome A) : M A := fun s => (o, s).

Definition emit (ev : event) : M unit :=
  fun s => (Returned tt, mkState (world s) (journal s ++ [ev])%list).

(** [await f(...)], and entering or leaving a context manager: the call
    is journalled, then the collaborator runs. *)
Definition await {A : Type} (c : call) (f : action A) : M A :=
  fun s =>
    let (r, w) := f (world s) in
    (r, mkState w (journal s ++ [Called c])%list).

Notation "x <- m ;; k" := (bind m (fun x => k))
  (at level 61, m at next level, right associativity).
Notation "m ;; k" := (bind m (fun _ => k))
  (at level 61, right associativity).

(** [try: body / except <class> as e: handler e]. *)
Definition try_except {A : Type} (body : M A) (caught : BaseException -> bool)
    (handler : BaseException -> M A) : M A :=
  fun s =>
    match body s with
    | (Returned a, s') => (Returned a, s')
    | (Raised e, s') => if caught e then handler e s' else (Raised e, s')
    end.

(** [try: body / except <class1>: handler1 / except <class2> as e:
    handler2 e]: the first clause that matches handles the exception, and
    what a handler raises is not handled by the other clause. *)
Definition try_except2 {A : Type} (body : M A)
    (caught1 : BaseException -> bool) (handler1 : BaseException -> M A)
    (caught2 : BaseException -> bool) (handler2 : BaseException -> M A) : M A :=
  fun s =>
    match body s with
    | (Returned a, s') => (Returned a, s')
    | (Raised e, s') =>
        if caught1 e then handler1 e s'
        else if caught2 e then handler2 e s'
        else (Raised e, s')
    end.

(** [try: body / finally: final]: [final] always runs; what it raises
    replaces the outcome of [body]. *)
Definition try_finally {A : Type} (body : M A) (final : M unit) : M A :=
  fun s =>
    let (r, s1) := body s in
    match final s1 with
    | (Returned _, s2) => (r, s2)
    | (Raised e, s2) => (Raised e, s2)
    end.

(** [async with cm: body]: [__aexit__] runs on every exit of [body] and
    may swallow the exception it is handed. *)
Definition async_with (enter exit : call) (aenter : action unit)
    (aexit : option BaseException -> action bool) (body : M unit) : M unit :=
  await enter aenter ;;
  fun s =>
    match body s with
    | (Returned _, s1) => (await exit (aexit None) ;; ret tt) s1
    | (Raised e, s1) =>
        (swallowed <- await exit (aexit (Some e)) ;;
         if (swallowed : bool) then ret tt else raise e) s1
    end.

Record DorisConnectionManager : Type := mkConnectionManager {
  initialize : action unit;
  close : action unit
}.

Record DorisResourcesManager : Type := mkResourcesManager {
  list_resources : action (list Resource);
  read_resource : str -> action str
}.

Record DorisToolsManager : Type := mkToolsManager {
  list_tools : action (list Tool);
  call_tool : str -> list (str * json) -> action str
}.

Record DorisPromptsManager : Type := mkPromptsManager {
  list_prompts : action (list Prompt);
  get_prompt : str -> list (str * json) -> action str
}.

(** The [mcp], [starlette] and [uvicorn] objects the two transports are
    built from. *)
Record Libraries : Type := mkLibraries {
  stdio_server_aenter : action unit;
  stdio_server_aexit : option BaseException -> action bool;
  get_capabilities : action unit;
  run : action unit;
  session_run_aenter : action unit;
  session_run_aexit : option BaseException -> action bool;
  handle_request : Scope -> action unit;
  starlette_app : Scope -> action unit;
  serve : action unit
}.

Record DorisServer : Type := mkDorisServer {
  config : DorisConfig;
  server : Libraries;
  connection_manager : DorisConnectionManager;
  resources_manager : DorisResourcesManager;
  tools_manager : DorisToolsManager;
  prompts_manager : DorisPromptsManager
}.

(** What the module imports from the rest of the package and from the
    libraries: the built-in configuration [DorisConfig()] kept in
    [_default_config], the configuration [DorisConfig.from_env()] loads
    from the [.env] file and the environment, the classes
    [DorisServer.__init__] instantiates, and the library objects. *)
Record Package : Type := mkPackage {
  _default_config : DorisConfig;
  from_env : DorisConfig;
  SecurityManager : Type;
  DorisSecurityManager_new : DorisConfig -> SecurityManager;
  DorisConnectionManager_new : DorisConfig -> SecurityManager -> DorisConnectionManager;
  DorisResourcesManager_new : DorisConnectionManager -> DorisResourcesManager;
  DorisToolsManager_new : DorisConnectionManager -> DorisToolsManager;
  DorisPromptsManager_new : DorisConnectionManager -> DorisPromptsManager;
  libraries : Libraries
}.

Variable pkg : Package.

Definition self_logger_info (message : str) : M unit :=
  emit (Logged server_logger INFO message).

Definition self_logger_warning (message : str) : M unit :=
  emit (Logged server_logger WARNING message).

Definition self_logger_error (message : str) : M unit :=
  emit (Logged server_logger ERROR message).

Definition logger_info (message : str) : M unit :=
  emit (Logged module_logger INFO message).

Definition logger_error (message : str) : M unit :=
  emit (Logged module_logger ERROR message).

(** *** [_setup_handlers] *)

Definition handle_list_resources (self : DorisServer) : M (list Resource) :=
  try_except
    (self_logger_info "Handling resource list request" ;;
     resources <- await resources_list_resources
                    (list_resources (resources_manager self)) ;;
     self_logger_info ("Returning " ++ str_of_nat (List.length resources) ++ " resources") ;;
     ret resources)
    isinstance_Exception
    (fun e =>
       self_logger_error ("Failed to handle resource list request: " ++ exc_str e) ;;
       ret []).

Definition handle_read_resource (self : DorisServer) (uri : str) : M str :=
  try_except
    (self_logger_info ("Handling resource read request: " ++ uri) ;;
     content <- await (resources_read_resource uri)
                  (read_resource (resources_manager self) uri) ;;
     ret content)
    isinstance_Exception
    (fun e =>
       self_logger_error ("Failed to handle resource read request: " ++ exc_str e) ;;
       ret (dumps (JDict [("error", JStr ("Failed to read resource: " ++ exc_str e));
                          ("uri", JStr uri)]))).

Definition handle_list_tools (self : DorisServer) : M (list Tool) :=
  try_except
    (self_logger_info "Handling tool list request" ;;
     tools <- await tools_list_tools (list_tools (tools_manager self)) ;;
     self_logger_info ("Returning " ++ str_of_nat (List.length tools) ++ " tools") ;;
     ret tools)
    isinstance_Exception
    (fun e =>
       self_logger_error ("Failed to handle tool list request: " ++ exc_str e) ;;
       ret []).

Definition handle_call_tool (self : DorisServer) (name : str)
    (arguments : list (str * json)) : M (list TextContent) :=
  try_except
    (self_logger_info ("Handling tool call request: " ++ name) ;;
     result <- await (tools_call_tool name arguments)
                 (call_tool (tools_manager self) name arguments) ;;
     ret [mkTextContent "text" result])
    isinstance_Exception
    (fun e =>
       self_logger_error ("Failed to handle tool call request: " ++ exc_str e) ;;
       let error_result :=
         dumps (JDict [("error", JStr ("Tool call failed: " ++ exc_str e));
                       ("tool_name", JStr name);
                       ("arguments", JDict arguments)]) in
       ret [mkTextContent "text" error_result]).

Definition handle_list_prompts (self : DorisServer) : M (list Prompt) :=
  try_except
    (self_logger_info "Handling prompt list request" ;;
     prompts <- await prompts_list_prompts (list_prompts (prompts_manager self)) ;;
     self_logger_info ("Returning " ++ str_of_nat (List.length prompts) ++ " prompts") ;;
     ret prompts)
    isinstance_Exception
    (fun e =>
       self_logger_error ("Failed to handle prompt list request: " ++ exc_str e) ;;
       ret []).

Definition handle_get_prompt (self : DorisServer) (name : str)
    (arguments : list (str * json)) : M str :=
  try_except
    (self_logger_info ("Handling prompt get request: " ++ name) ;;
     result <- await (prompts_get_prompt name arguments)
                 (get_prompt (prompts_manager self) name arguments) ;;
     ret result)
    isinstance_Exception
    (fun e =>
       self_logger_error ("Failed to handle prompt get request: " ++ exc_str e) ;;
       let error_result :=
         dumps (JDict [("error", JStr ("Failed to get prompt: " ++ exc_str e));
                       ("prompt_name", JStr name);
                       ("arguments", JDict arguments)]) in
       ret error_result).

(** *** Diagnostics shared by the two transports *)

(** [f"{type(e)}"]. *)
Definition type_repr (e : BaseException) : str :=
  "<class '" ++ type_name (exc_type e) ++ "'>".

(** [for i, exc in enumerate(e.exceptions): self.logger.error(...)]. *)
Fixpoint log_members (i : nat) (members : list (str * str)) : M unit :=
  match members with
  | [] => ret tt
  | (name, message) :: rest =>
      self_logger_error ("  Exception " ++ str_of_nat (i + 1) ++ ": " ++ name
                         ++ ": " ++ message) ;;
      log_members (S i) rest
  end.

(** [if hasattr(e, 'exceptions'): ...]. *)
Definition log_exception_group (e : BaseException) : M unit :=
  match exc_exceptions e with
  | Some members =>
      self_logger_error ("ExceptionGroup contains " ++ str_of_nat (List.length members)
                         ++ " exceptions:") ;;
      log_members 0 members
  | None => ret tt
  end.

(** *** [start_stdio] *)

(** The inner [try] statement of [start_stdio]: the server runs on the
    streams of [stdio_server()]; a failure is logged in full and raised
    again. *)
Definition start_stdio_session (self : DorisServer) : M unit :=
  try_except
    (async_with stdio_server_enter stdio_server_exit
       (stdio_server_aenter (server self)) (stdio_server_aexit (server self))
       (self_logger_info "stdio_server streams created successfully" ;;
        await (server_get_capabilities true true true)
          (get_capabilities (server self)) ;;
        let server_version :=
          getenv_or rt "SERVER_VERSION" (server_version (_default_config pkg)) in
        self_logger_info "Initialization options created successfully" ;;
        self_logger_info "Starting to run MCP server..." ;;
        await (server_run "doris-mcp-server" server_version) (run (server self))))
    isinstance_Exception
    (fun inner_e =>
       self_logger_error ("stdio_server internal error: " ++ exc_str inner_e) ;;
       self_logger_error ("Error type: " ++ type_repr inner_e) ;;
       self_logger_error "Complete error stack:" ;;
       self_logger_error (format_exc rt inner_e) ;;
       log_exception_group inner_e ;;
       raise inner_e).

Definition start_stdio (self : DorisServer) : M unit :=
  self_logger_info "Starting Doris MCP Server (stdio mode)" ;;
  try_except
    (await connection_initialize (initialize (connection_manager self)) ;;
     self_logger_info "Connection manager initialization completed" ;;
     self_logger_info "Creating stdio_server transport..." ;;
     start_stdio_session self)
    isinstance_Exception
    (fun e =>
       self_logger_error ("stdio server startup failed: " ++ exc_str e) ;;
       self_logger_error ("Error type: " ++ type_repr e) ;;
       raise e).

(** *** [start_http] and its ASGI application [mcp_app] *)

(** [await Response(content, status_code=...)(scope, receive, send)]. *)
Definition respond (content : str) (status_code : Z) : M unit :=
  emit (Responded status_code content).

(** The loop that builds [new_headers]: every [accept] entry gets
    [', application/json'] appended to its decoded value; [new_value] is
    the variable the loop leaves behind. *)
Fixpoint rewrite_accept (headers new_headers : list (bytes * bytes))
    (new_value : option str) : outcome (list (bytes * bytes) * option str) :=
  match headers with
  | [] => Returned (new_headers, new_value)
  | (name, value) :: rest =>
      if String.eqb name "accept" then
        match decode_utf8 value with
        | Some decoded =>
            let new_value := decoded ++ ", application/json" in
            rewrite_accept rest
              (new_headers ++ [(name, encode_utf8 new_value)])%list (Some new_value)
        | None => Raised (UnicodeDecodeError rt value)
        end
      else rewrite_accept rest (new_headers ++ [(name, value)])%list new_value
  end.

(** [value.decode('utf-8')] inside a coroutine. *)
Definition decode (value : bytes) : M str :=
  match decode_utf8 value with
  | Some decoded => ret decoded
  | None => raise (UnicodeDecodeError rt value)
  end.

(** The scope handed to the session manager for a request on [/mcp]. *)
Definition forwarded_scope (scope : Scope) : M Scope :=
  let method := get (scope_method scope) "UNKNOWN" in
  let headers := get (scope_headers scope) [] in
  self_logger_info ("MCP Request - Method: " ++ method) ;;
  self_logger_info ("MCP Request - Headers: " ++ repr_headers rt headers) ;;
  if String.eqb method "GET" then
    accept_header <- decode (dict_get "accept" headers "") ;;
    user_agent <- decode (dict_get "user-agent" headers "") ;;
    if contains "text/event-stream" accept_header
       && negb (contains "application/json" accept_header)
    then
      self_logger_info "Adding application/json to Accept header for GET request" ;;
      result <- lift (rewrite_accept (get (scope_headers scope) []) [] None) ;;
      let (new_headers, new_value) := result : list (bytes * bytes) * option str in
      match new_value with
      | Some v =>
          self_logger_info ("Modified Accept header to: " ++ v) ;;
          ret (set_headers scope new_headers)
      | None =>
          raise (Exception "UnboundLocalError"
                   "cannot access local variable 'new_value' where it is not associated with a value")
      end
    else ret scope
  else ret scope.

(** The body of the [try] statement of [mcp_app]: the routing table. *)
Definition route_http (self : DorisServer) (scope : Scope) (path : str) : M unit :=
  if startswith path "/health" then
    await (starlette_app_call scope) (starlette_app (server self) scope)
  else if String.eqb path "/mcp" || startswith path "/mcp/" then
    self_logger_info ("Handling MCP request for path: " ++ path) ;;
    scope' <- forwarded_scope scope ;;
    await (session_manager_handle_request scope') (handle_request (server self) scope')
  else
    self_logger_info ("Path not found: " ++ path) ;;
    respond "Not Found" 404.

Definition mcp_app (self : DorisServer) (scope : Scope) : M unit :=
  if String.eqb (scope_type scope) "lifespan" then
    await (starlette_app_call scope) (starlette_app (server self) scope)
  else if String.eqb (scope_type scope) "http" then
    let path := get (scope_path scope) "" in
    self_logger_info ("Received request for path: " ++ path) ;;
    try_except (route_http self scope path)
      isinstance_Exception
      (fun e =>
         self_logger_error ("Error handling request for " ++ path ++ ": " ++ exc_str e) ;;
         self_logger_error (format_exc rt e) ;;
         respond "Internal Server Error" 500)
  else
    self_logger_warning ("Unsupported scope type: " ++ scope_type scope).

(** The body of the [try] statement of [start_http]: the connection
    manager is initialized, the session manager is created, and the
    listener is served inside the session manager's [run()] scope. *)
Definition start_http_body (self : DorisServer) (host : str) (port : Z) : M unit :=
  await connection_initialize (initialize (connection_manager self)) ;;
  emit (Called (session_manager_new true false)) ;;
  self_logger_info ("StreamableHTTP session manager created, will start at http://"
                    ++ host ++ ":" ++ str_of_int port) ;;
  async_with session_manager_run_enter session_manager_run_exit
    (session_run_aenter (server self)) (session_run_aexit (server self))
    (self_logger_info "Session manager started, now starting HTTP server" ;;
     await (uvicorn_serve host port) (serve (server self))).

Definition start_http (self : DorisServer) (host : str) (port : Z) : M unit :=
  self_logger_info ("Starting Doris MCP Server (Streamable HTTP mode) - " ++ host
                    ++ ":" ++ str_of_int port) ;;
  try_except (start_http_body self host port)
    isinstance_Exception
    (fun e =>
       self_logger_error ("Streamable HTTP server startup failed: " ++ exc_str e) ;;
       self_logger_error "Complete error stack:" ;;
       self_logger_error (format_exc rt e) ;;
       log_exception_group e ;;
       raise e).

(** *** [shutdown] *)

Definition shutdown (self : DorisServer) : M unit :=
  self_logger_info "Shutting down Doris MCP Server" ;;
  try_except
    (await connection_close (close (connection_manager self)) ;;
     self_logger_info "Doris MCP Server has been shut down")
    isinstance_Exception
    (fun e =>
       self_logger_error ("Error occurred while shutting down server: " ++ exc_str e)).

(** *** [create_arg_parser] and [main] *)

Definition create_arg_parser : ArgumentParser :=
  {| default_transport := getenv_or rt "TRANSPORT" (transport (_default_config pkg));
     default_host := getenv_or rt "SERVER_HOST" (host (database (_default_config pkg)));
     default_port := getenv_or_int rt "SERVER_PORT" (server_port (_default_config pkg));
     default_db_host := getenv_or rt "DB_HOST" (host (database (_default_config pkg)));
     default_db_port := getenv_or_int rt "DB_PORT" (port (database (_default_config pkg)));
     default_db_user := getenv_or rt "DB_USER" (user (database (_default_config pkg)));
     default_db_password := "";
     default_db_database :=
       getenv_or rt "DB_DATABASE" (database_name (database (_default_config pkg)));
     default_log_level := getenv_or rt "LOG_LEVEL" (level (logging (_default_config pkg))) |}.

(** [parser.parse_args()] on the options of the command line. *)
Definition parse_args (parser : ArgumentParser) (cli : CommandLine) : M Namespace :=
  a_transport <- lift (str_option (cli_transport cli) (Some ["stdio"; "http"])
                         (default_transport parser)) ;;
  a_host <- lift (str_option (cli_host cli) None (default_host parser)) ;;
  a_port <- lift (int_option rt (cli_port cli) (default_port parser)) ;;
  a_db_host <- lift (str_option (cli_db_host cli) None (default_db_host parser)) ;;
  a_db_port <- lift (int_option rt (cli_db_port cli) (default_db_port parser)) ;;
  a_db_user <- lift (str_option (cli_db_user cli) None (default_db_user parser)) ;;
  a_db_password <- lift (str_option (cli_db_password cli) None
                           (default_db_password parser)) ;;
  a_db_database <- lift (str_option (cli_db_database cli) None
                           (default_db_database parser)) ;;
  a_log_level <- lift (str_option (cli_log_level cli)
                         (Some ["DEBUG"; "INFO"; "WARNING"; "ERROR"])
                         (default_log_level parser)) ;;
  ret (mkNamespace a_transport a_host a_port a_db_host a_db_port a_db_user
         a_db_password a_db_database a_log_level).

(** The six [if] statements of [main] that put command-line values into
    the configuration loaded by [from_env]. *)
Definition override_config (args : Namespace) (config : DorisConfig) : DorisConfig :=
  let db := database config in
  let default_db := database (_default_config pkg) in
  let db_host :=
    if negb (String.eqb (args_db_host args) (host default_db))
    then args_db_host args else host db in
  let db_port :=
    if negb (Z.eqb (args_db_port args) (port default_db))
    then args_db_port args else port db in
  let db_user :=
    if negb (String.eqb (args_db_user args) (user default_db))
    then args_db_user args else user db in
  let db_password :=
    if negb (String.eqb (args_db_password args) "")
    then args_db_password args else password db in
  let db_database :=
    if negb (String.eqb (args_db_database args) (database_name default_db))
    then args_db_database args else database_name db in
  let log_level :=
    if negb (String.eqb (args_log_level args) (level (logging (_default_config pkg))))
    then args_log_level args else level (logging config) in
  mkDorisConfig (mkDatabaseConfig db_host db_port db_user db_password db_database)
    (mkLoggingConfig log_level) (transport config) (server_port config)
    (server_version config).

(** [DorisServer(config)]. *)
Definition DorisServer_init (config : DorisConfig) : DorisServer :=
  let security_manager := DorisSecurityManager_new pkg config in
  let connection_manager := DorisConnectionManager_new pkg config security_manager in
  mkDorisServer config (libraries pkg) connection_manager
    (DorisResourcesManager_new pkg connection_manager)
    (DorisToolsManager_new pkg connection_manager)
    (DorisPromptsManager_new pkg connection_manager).

(** [try: await server.shutdown() / except Exception as shutdown_error: ...]. *)
Definition guarded_shutdown (self : DorisServer) : M unit :=
  try_except (shutdown self) isinstance_Exception
    (fun shutdown_error =>
       logger_error ("Error occurred while shutting down server: "
                     ++ exc_str shutdown_error)).

(** The [try] statement of [main] and the [return 0] after it.  The
    statement yields [Some code] when one of its [return] statements ran
    and [None] when control falls out of it. *)
Definition serve_transport (self : DorisServer) (args : Namespace) : M Z :=
  returned <-
    try_finally
      (try_except2
         (if String.eqb (args_transport args) "stdio" then
            start_stdio self ;; ret None
          else if String.eqb (args_transport args) "http" then
            start_http self (args_host args) (args_port args) ;; ret None
          else
            logger_error ("Unsupported transport protocol: " ++ args_transport args) ;;
            shutdown self ;;
            ret (Some 1%Z))
         isinstance_KeyboardInterrupt
         (fun _ =>
            logger_info "Received interrupt signal, shutting down server..." ;;
            ret None)
         isinstance_Exception
         (fun e =>
            logger_error ("Server runtime error: " ++ exc_str e) ;;
            guarded_shutdown self ;;
            ret (Some 1%Z)))
      (guarded_shutdown self) ;;
  match returned with
  | Some code => ret code
  | None => ret 0%Z
  end.

Definition main (cli : CommandLine) : M Z :=
  let parser := create_arg_parser in
  args <- parse_args parser cli ;;
  match set_root_level rt (args_log_level args) with
  | Some e => raise e
  | None => ret tt
  end ;;
  let config := from_env pkg in
  let config := override_config args config in
  let server := DorisServer_init config in
  serve_transport server args.

(** How the process ends: [exit(exit_code)] in [main_sync], or an
    exception that [asyncio.run(main())] lets through. *)
Inductive process_end : Type :=
| Exit (exit_code : Z)
| Uncaught (e : BaseException).

Definition main_sync (cli : CommandLine) (s : state) : process_end * state :=
  match main cli s with
  | (Returned exit_code, s') => (Exit exit_code, s')
  | (Raised e, s') => (Uncaught e, s')
  end.

End Server.

(* ================================================================== *)
(** ** Vocabulary of the properties *)

(** The state after the collaborators have moved to [w] and the server
    has journalled [events]. *)
Definition after {W : Type} (s : @state W) (w : W) (events : list event) : state :=
  mkState w (journal s ++ events)%list.

(** The Error Envelopes of the three point operations. *)
Definition read_resource_envelope (e : BaseException) (uri : str) : json :=
  JDict [("error", JStr ("Failed to read resource: " ++ exc_str e));
         ("uri", JStr uri)].

Definition call_tool_envelope (e : BaseException) (name : str)
    (arguments : list (str * json)) : json :=
  JDict [("error", JStr ("Tool call failed: " ++ exc_str e));
         ("tool_name", JStr name);
         ("arguments", JDict arguments)].

Definition get_prompt_envelope (e : BaseException) (name : str)
    (arguments : list (str * json)) : json :=
  JDict [("error", JStr ("Failed to get prompt: " ++ exc_str e));
         ("prompt_name", JStr name);
         ("arguments", JDict arguments)].

(** [path == "/mcp" or path.startswith("/mcp/")]. *)
Definition is_mcp_path (path : str) : bool :=
  String.eqb path "/mcp" || startswith path "/mcp/".

(** What the rewrite does to one header. *)
Definition add_json (header : bytes * bytes) : bytes * bytes :=
  if String.eqb (fst header) "accept"
  then (fst header, snd header ++ ", application/json")
  else header.

(** Every [accept] entry of the headers decodes as UTF-8. *)
Definition accept_decodable (headers : list (bytes * bytes)) : bool :=
  forallb (fun h => negb (String.eqb (fst h) "accept") || utf8_valid (snd h)) headers.

(** The test of the compatibility rewrite on the decoded [Accept] value. *)
Definition wants_rewrite (accept_header : str) : bool :=
  contains "text/event-stream" accept_header
  && negb (contains "application/json" accept_header).

(** The [Accept] value and the [User-Agent] value [mcp_app] looks up. *)
Definition accept_of (scope : Scope) : bytes :=
  dict_get "accept" (get (scope_headers scope) []) "".

Definition user_agent_of (scope : Scope) : bytes :=
  dict_get "user-agent" (get (scope_headers scope) []) "".

(** The state in which [mcp_app] starts to prepare the scope of a
    request under [/mcp]. *)
Definition mcp_request_logged {W : Type} (s : @state W) (scope : Scope) : state :=
  after s (world s)
    [Logged server_logger INFO
       ("Received request for path: " ++ get (scope_path scope) "");
     Logged server_logger INFO
       ("Handling MCP request for path: " ++ get (scope_path scope) "")].

(** The collaborator calls of a journal, in order. *)
Fixpoint calls_in (events : list event) : list call :=
  match events with
  | [] => []
  | Called c :: rest => c :: calls_in rest
  | _ :: rest => calls_in rest
  end.

(** The calls of a complete run of [start_http], in order. *)
Definition http_calls (host : str) (port : Z) : list call :=
  [connection_initialize; session_manager_new true false;
   session_manager_run_enter; uvicorn_serve host port; session_manager_run_exit].

(** A collaborator coroutine whose failures are all instances of
    [Exception]. *)
Definition raises_only_Exception {W A : Type} (f : @action W A) : Prop :=
  forall w e w', f w = (Raised e, w') -> isinstance_Exception e = true.

(** The transport [main] starts for [args.transport], if it supports it. *)
Definition selected_start {W Resource Tool Prompt : Type} (rt : Runtime)
    (pkg : @Package W Resource Tool Prompt) (self : @DorisServer W Resource Tool Prompt)
    (args : Namespace) : option (@M W unit) :=
  if String.eqb (args_transport args) "stdio" then Some (start_stdio rt pkg self)
  else if String.eqb (args_transport args) "http"
  then Some (start_http rt self (args_host args) (args_port args))
  else None.


(** A coroutine that, whatever the state, ends with the journal
    extended and without a call to the connection manager's
    [initialize()]. *)
Definition never_initializes {W A : Type} (m : @M W A) : Prop :=
  forall s, exists r w events,
    m s = (r, after s w events)
    /\ ~ In connection_initialize (calls_in events).

(** A character that [json.dumps(..., ensure_ascii=False)] writes as it
    is inside a string: anything but the quote, the backslash and the
    control characters below U+0020.  The octets of a character outside
    ASCII are all of this kind. *)
Definition plain (c : ascii) : bool :=
  negb (Ascii.eqb c dquote) && negb (Ascii.eqb c backslash) && (32 <=? octet c)%N.

Fixpoint all_plain (s : str) : bool :=
  match s with
  | EmptyString => true
  | String c r => plain c && all_plain r
  end.

(** The text between two quotes. *)
Definition quoted (s : str) : str := String dquote (s ++ String dquote "").

(** A handler ends in the state its collaborator left, having called
    the collaborator once and nothing else. *)
Definition calls_only {W A B : Type} (c : call) (collaborator : @action W B)
    (handler : @M W A) (s : @state W) : Prop :=
  exists events,
    snd (handler s) = after s (snd (collaborator (world s))) events
    /\ calls_in events = [c].

(** The responses rendered by [mcp_app] itself in a journal, in order. *)
Fixpoint responses_in (events : list event) : list (Z * str) :=
  match events with
  | [] => []
  | Responded status_code content :: rest => (status_code, content) :: responses_in rest
  | _ :: rest => responses_in rest
  end.

(** Whether everything [mcp_app] decodes on a GET request under [/mcp]
    is UTF-8: the [Accept] and [User-Agent] values it looks up, and
    every [accept] entry when the rewrite applies. *)
Definition headers_decode (scope : Scope) : bool :=
  utf8_valid (accept_of scope)
  && utf8_valid (user_agent_of scope)
  && (negb (wants_rewrite (accept_of scope))
      || accept_decodable (get (scope_headers scope) [])).

(** The events of the [except] clause of [mcp_app]. *)
Definition rendered_500 (rt : Runtime) (scope : Scope) (e : BaseException) : list event :=
  [Logged server_logger ERROR
     ("Error handling request for " ++ get (scope_path scope) "" ++ ": " ++ exc_str e);
   Logged server_logger ERROR (format_exc rt e);
   Responded 500 "Internal Server Error"].

(** The scope with the compatibility rewrite applied to its headers. *)
Definition rewritten (scope : Scope) : Scope :=
  set_headers scope (map add_json (get (scope_headers scope) [])).



(** The state in which the [try] statement of [start_http] starts. *)
Definition http_starting {W : Type} (s : @state W) (host : str) (port : Z) : state :=
  after s (world s)
    [Logged server_logger INFO
       ("Starting Doris MCP Server (Streamable HTTP mode) - " ++ host ++ ":"
        ++ str_of_int port)].

(** The calls of a run of [start_stdio] in which the server ran. *)
Definition stdio_calls (server_version : str) : list call :=
  [connection_initialize; stdio_server_enter; server_get_capabilities true true true;
   server_run "doris-mcp-server" server_version; stdio_server_exit].

(** The calls of a run of [start_stdio] in which [get_capabilities]
    failed. *)
Definition stdio_calls_without_run : list call :=
  [connection_initialize; stdio_server_enter; server_get_capabilities true true true;
   stdio_server_exit].

(** Since the state [from], the connection manager's [close()] has been
    called [n] times, and nothing else. *)
Definition closes {W A : Type} (n : nat) (from : @state W) (result : A * @state W) : Prop :=
  exists events,
    journal (snd result) = (journal from ++ events)%list
    /\ calls_in events = repeat connection_close n.

(** [argparse] refuses a value given for an option with [choices] that
    is not one of them. *)
Definition refuses_choice (given : option str) (choices : list str) : bool :=
  match given with
  | Some v => negb (mem v choices)
  | None => false
  end.

(** [argparse] refuses the text default of an integer option that is
    not given, when [int] does not accept the text. *)
Definition refuses_default (rt : Runtime) (given : option Z) (name : str) : bool :=
  match given, getenv rt name with
  | None, Some text =>
      match int_of_str rt text with
      | Some _ => false
      | None => true
      end
  | _, _ => false
  end.

Definition command_line_refused (rt : Runtime) (cli : CommandLine) : bool :=
  refuses_choice (cli_transport cli) ["stdio"; "http"]
  || refuses_default rt (cli_port cli) "SERVER_PORT"
  || refuses_default rt (cli_db_port cli) "DB_PORT"
  || refuses_choice (cli_log_level cli) ["DEBUG"; "INFO"; "WARNING"; "ERROR"].


(* ================================================================== *)
(** ** Sample collaborators

    Concrete collaborators over a trivial outside state, on which the
    properties below are exercised. *)

Definition boom : BaseException := RuntimeError "boom".

(** A coroutine that raises [RuntimeError("boom")]. *)
Definition raising {A : Type} : unit -> outcome A * unit :=
  fun w => (Raised boom, w).

(** A coroutine that returns [a]. *)
Definition returning {A : Type} (a : A) : unit -> outcome A * unit :=
  fun w => (Returned a, w).

Definition sample_runtime : Runtime :=
  mkRuntime (fun _ => "Traceback (most recent call last): ...")
            (fun _ => "{...}")
            (fun _ => "'utf-8' codec can't decode byte: invalid start byte")
            (fun _ => None)
            (fun s => option_map Z.of_int (NilZero.int_of_string s))
            (fun _ => None).

Definition sample_default_config : DorisConfig :=
  mkDorisConfig (mkDatabaseConfig "localhost" 9030 "root" "" "information_schema")
                (mkLoggingConfig "INFO") "stdio" 3000 "0.3.0".

(** Libraries whose every coroutine returns; no context manager swallows
    an exception. *)
Definition quiet_libraries : @Libraries unit :=
  mkLibraries (returning tt) (fun _ => returning false) (returning tt) (returning tt)
              (returning tt) (fun _ => returning false) (fun _ => returning tt)
              (fun _ => returning tt) (returning tt).

(** Libraries whose session manager fails on every request. *)
Definition failing_libraries : @Libraries unit :=
  mkLibraries (returning tt) (fun _ => returning false) (returning tt) (returning tt)
              (returning tt) (fun _ => returning false) (fun _ => raising)
              (fun _ => returning tt) (returning tt).

(** A server whose managers raise on every call. *)
Definition failing_server : @DorisServer unit unit unit unit :=
  mkDorisServer sample_default_config failing_libraries
    (mkConnectionManager raising raising)
    (mkResourcesManager raising (fun _ => raising))
    (mkToolsManager raising (fun _ _ => raising))
    (mkPromptsManager raising (fun _ _ => raising)).

(** A server whose managers return on every call. *)
Definition quiet_server : @DorisServer unit unit unit unit :=
  mkDorisServer sample_default_config quiet_libraries
    (mkConnectionManager (returning tt) (returning tt))
    (mkResourcesManager (returning []) (fun _ => returning "content"))
    (mkToolsManager (returning []) (fun _ _ => returning "result"))
    (mkPromptsManager (returning []) (fun _ _ => returning "prompt")).

Definition initial_state : @state unit := mkState tt [].

(** A GET request on [/mcp] that accepts only an event stream and whose
    [User-Agent] is the single octet E9 (Latin-1 for e-acute), which is
    not UTF-8. *)
Definition latin1_agent_scope : Scope :=
  mkScope "http" (Some "/mcp") (Some "GET")
    (Some [("accept", "text/event-stream"); ("user-agent", String "233" "")]) [].

(** A GET request on [/mcp] that accepts only an event stream. *)
Definition event_stream_scope : Scope :=
  mkScope "http" (Some "/mcp") (Some "GET")
    (Some [("host", "localhost:3000"); ("accept", "text/event-stream");
           ("user-agent", "Dify")]) [].

(** A request for a path that is not registered. *)
Definition nope_scope : Scope :=
  mkScope "http" (Some "/nope") (Some "GET") (Some []) [].

Definition keyboard_interrupt : BaseException := mkException KeyboardInterrupt "" None.


(** A server whose tools manager is interrupted from the keyboard. *)
Definition interrupted_server : @DorisServer unit unit unit unit :=
  mkDorisServer sample_default_config quiet_libraries
    (mkConnectionManager (returning tt) (returning tt))
    (mkResourcesManager (returning []) (fun _ => returning "content"))
    (mkToolsManager (returning []) (fun _ _ w => (Raised keyboard_interrupt, w)))
    (mkPromptsManager (returning []) (fun _ _ => returning "prompt")).

(** A package over the sample configuration whose collaborators return
    on every call. *)
Definition sample_package (from_env : DorisConfig) (libraries : @Libraries unit)
  : @Package unit unit unit unit :=
  mkPackage sample_default_config from_env unit (fun _ => tt)
    (fun _ _ => mkConnectionManager (returning tt) (returning tt))
    (fun _ => mkResourcesManager (returning []) (fun _ => returning "content"))
    (fun _ => mkToolsManager (returning []) (fun _ _ => returning "result"))
    (fun _ => mkPromptsManager (returning []) (fun _ _ => returning "prompt"))
    libraries.

(** [--transport http]. *)
Definition http_command_line : CommandLine :=
  mkCommandLine (Some "http") None None None None None None None None.

(** A deployment whose [.env] file and environment name the database
    host [prod-db], the built-in default being [localhost]. *)
Definition production_config : DorisConfig :=
  mkDorisConfig (mkDatabaseConfig "prod-db" 9030 "root" "" "information_schema")
                (mkLoggingConfig "INFO") "stdio" 3000 "0.3.0".

Definition production_runtime : Runtime :=
  mkRuntime (format_exc sample_runtime) (repr_headers sample_runtime)
            (decode_error sample_runtime)
            (fun name => if String.eqb name "DB_HOST" then Some "prod-db" else None)
            (int_of_str sample_runtime)
            (fun _ => None).

Definition production_package : @Package unit unit unit unit :=
  sample_package production_config quiet_libraries.

(** [--db-host localhost]. *)
Definition localhost_command_line : CommandLine :=
  mkCommandLine None None None (Some "localhost") None None None None None.

(** A server whose resources manager fails with a message in Chinese
    (the UTF-8 octets of U+8FDE U+63A5 U+5931 U+8D25, "connection
    failed"). *)
Definition chinese_failure : BaseException :=
  RuntimeError (String "232" (String "191" (String "158"
               (String "230" (String "142" (String "165"
               (String "229" (String "164" (String "177"
               (String "232" (String "180" (String "165" "")))))))))))).

Definition chinese_server : @DorisServer unit unit unit unit :=
  mkDorisServer sample_default_config quiet_libraries
    (mkConnectionManager (returning tt) (returning tt))
    (mkResourcesManager (returning []) (fun _ w => (Raised chinese_failure, w)))
    (mkToolsManager (returning []) (fun _ _ => returning "result"))
    (mkPromptsManager (returning []) (fun _ _ => returning "prompt")).




(** A POST request on [/mcp] whose [User-Agent] is not UTF-8. *)
Definition latin1_post_scope : Scope :=
  mkScope "http" (Some "/mcp") (Some "POST")
    (Some [("content-type", "application/json"); ("user-agent", String "233" "")]) [].

(** A GET request on [/mcp/] that carries no headers at all. *)
Definition bare_get_scope : Scope :=
  mkScope "http" (Some "/mcp/") (Some "GET") None [].




(** Libraries whose listener fails while it serves, and whose server
    fails while it runs on the stdio streams. *)
Definition crashing_libraries : @Libraries unit :=
  mkLibraries (returning tt) (fun _ => returning false) (returning tt) raising
              (returning tt) (fun _ => returning false) (fun _ => returning tt)
              (fun _ => returning tt) raising.

Definition crashing_server : @DorisServer unit unit unit unit :=
  mkDorisServer sample_default_config crashing_libraries
    (mkConnectionManager (returning tt) (returning tt))
    (mkResourcesManager (returning []) (fun _ => returning "content"))
    (mkToolsManager (returning []) (fun _ _ => returning "result"))
    (mkPromptsManager (returning []) (fun _ _ => returning "prompt")).

(** [--transport sse]. *)
Definition sse_command_line : CommandLine :=
  mkCommandLine (Some "sse") None None None None None None None None.

(** A process environment in which [TRANSPORT] is [sse]. *)
Definition sse_runtime : Runtime :=
  mkRuntime (format_exc sample_runtime) (repr_headers sample_runtime)
            (decode_error sample_runtime)
            (fun name => if String.eqb name "TRANSPORT" then Some "sse" else None)
            (int_of_str sample_runtime)
            (fun _ => None).

(** The command line with no option. *)
Definition empty_command_line : CommandLine :=
  mkCommandLine None None None None None None None None None.

(** [--transport http --db-port 9031 --db-user admin --db-password secret
    --log-level DEBUG]. *)
Definition override_command_line : CommandLine :=
  mkCommandLine (Some "http") None None None (Some 9031%Z) (Some "admin")
    (Some "secret") None (Some "DEBUG").

(** A package whose connection manager is interrupted from the keyboard
    while it closes. *)
Definition interrupted_close_package : @Package unit unit unit unit :=
  mkPackage sample_default_config sample_default_config unit (fun _ => tt)
    (fun _ _ => mkConnectionManager (returning tt)
                  (fun w => (Raised keyboard_interrupt, w)))
    (fun _ => mkResourcesManager (returning []) (fun _ => returning "content"))
    (fun _ => mkToolsManager (returning []) (fun _ _ => returning "result"))
    (fun _ => mkPromptsManager (returning []) (fun _ _ => returning "prompt"))
    quiet_libraries.

(* ================================================================== *)
(** * Properties *)


(** ** Text *)

Module PyFacts.

Lemma append_assoc (a b c : string) : (a ++ b) ++ c = a ++ (b ++ c).
Proof. induction a as [|x a IH]; simpl; [reflexivity | now rewrite IH]. Qed.

Lemma append_nil_r (s : string) : s ++ "" = s.
Proof. induction s as [|c s IH]; simpl; [reflexivity | now rewrite IH]. Qed.

Lemma length_append (a b : string) :
  String.length (a ++ b) = String.length a + String.length b.
Proof. induction a as [|c a IH]; simpl; [reflexivity | now rewrite IH]. Qed.

End PyFacts.
Import PyFacts.

(** ** Reading back the text [dumps] writes *)

Module JsonFacts.

Lemma skip_ws_spaces (n : nat) (s : str) : skip_ws (spaces n ++ s) = skip_ws s.
Proof. induction n as [|n IH]; simpl; auto. Qed.

Lemma skip_ws_newline_indent (level : nat) (s : str) :
  skip_ws (newline_indent level ++ s) = skip_ws s.
Proof. unfold newline_indent. simpl. apply skip_ws_spaces. Qed.

Lemma scan_escape_char (c : ascii) (tail : str) :
  scan_string (escape_char c ++ tail) = prepend (String c "") (scan_string tail).
Proof.
  destruct c as [b0 b1 b2 b3 b4 b5 b6 b7].
  destruct b0, b1, b2, b3, b4, b5, b6, b7; reflexivity.
Qed.

Lemma scan_escape (s tail : str) :
  scan_string (escape s ++ String dquote tail) = Some (s, tail).
Proof.
  induction s as [|c s IH]; simpl.
  - reflexivity.
  - rewrite append_assoc, scan_escape_char, IH. reflexivity.
Qed.

Lemma scan_basestring (s tail : str) :
  exists body, encode_basestring s ++ tail = String dquote body
               /\ scan_string body = Some (s, tail).
Proof.
  exists (escape s ++ String dquote tail). split.
  - unfold encode_basestring. simpl. now rewrite append_assoc.
  - apply scan_escape.
Qed.

Lemma span_digits_uint (d : Decimal.uint) (tail : str) :
  number_end tail = true ->
  span_digits (NilEmpty.string_of_uint d ++ tail) = (NilEmpty.string_of_uint d, tail).
Proof.
  intros Htail.
  induction d; simpl; try (rewrite IHd; reflexivity).
  destruct tail as [|c t]; simpl in *; [reflexivity|].
  apply andb_true_iff in Htail as [Hd _].
  apply negb_true_iff in Hd. now rewrite Hd.
Qed.

Lemma scan_uint (negative : bool) (d : Decimal.uint) (tail : str) :
  number_end tail = true -> d <> Decimal.Nil ->
  scan_digits negative (NilEmpty.string_of_uint d ++ tail)
  = Some (Z.of_int (if negative then Decimal.Neg d else Decimal.Pos d), tail).
Proof.
  intros Htail Hd. unfold scan_digits. rewrite span_digits_uint by assumption.
  assert (Hf : starts_fraction tail = false).
  { destruct tail as [|c t]; [reflexivity|]. simpl in Htail.
    apply andb_true_iff in Htail as [_ H]. now apply negb_true_iff in H. }
  rewrite Hf, NilEmpty.usu.
  destruct d; try reflexivity. congruence.
Qed.

Lemma head_not_minus (d : Decimal.uint) (tail : str) :
  d <> Decimal.Nil ->
  exists c r, NilEmpty.string_of_uint d ++ tail = String c r /\ Ascii.eqb c "-" = false
              /\ is_ws c = false /\ is_digit c = true.
Proof.
  intros Hd. destruct d; try congruence; simpl; eexists _, _; repeat split.
Qed.

Lemma scan_int_str_of_int (z : Z) (tail : str) :
  number_end tail = true ->
  scan_int (str_of_int z ++ tail) = Some (z, tail).
Proof.
  intros Htail. unfold str_of_int.
  rewrite <- (DecimalZ.of_to z) at 2.
  destruct (Z.to_int z) as [d|d]; unfold NilZero.string_of_int, NilZero.string_of_uint.
  - destruct (Decimal.uint_eq_dec d Decimal.Nil) as [->|Hd].
    + apply (scan_uint false (Decimal.D0 Decimal.Nil)); [assumption | discriminate].
    + replace (match d with Decimal.Nil => "0" | _ => NilEmpty.string_of_uint d end)
        with (NilEmpty.string_of_uint d) by (destruct d; congruence).
      destruct (head_not_minus d tail Hd) as (c & r & E & Hc & _).
      unfold scan_int. rewrite E, Hc, <- E.
      now apply (scan_uint false).
  - destruct (Decimal.uint_eq_dec d Decimal.Nil) as [->|Hd].
    + apply (scan_uint true (Decimal.D0 Decimal.Nil)); [assumption | discriminate].
    + replace (match d with Decimal.Nil => "0" | _ => NilEmpty.string_of_uint d end)
        with (NilEmpty.string_of_uint d) by (destruct d; congruence).
      unfold scan_int. simpl. now apply (scan_uint true).
Qed.

(** Induction on a value, with the property assumed of every element of
    a list and of every member of a dict. *)
Lemma json_induction (P : json -> Prop) :
  P JNull ->
  (forall b, P (JBool b)) ->
  (forall z, P (JInt z)) ->
  (forall s, P (JStr s)) ->
  (forall items, Forall P items -> P (JList items)) ->
  (forall members, Forall (fun m => P (snd m)) members -> P (JDict members)) ->
  forall v, P v.
Proof.
  intros HNull HBool HInt HStr HList HDict.
  exact (fix prove (v : json) : P v :=
           match v with
           | JNull => HNull
           | JBool b => HBool b
           | JInt z => HInt z
           | JStr s => HStr s
           | JList items =>
               HList items
                 ((fix all (l : list json) : Forall P l :=
                     match l with
                     | [] => Forall_nil P
                     | x :: r => Forall_cons x (prove x) (all r)
                     end) items)
           | JDict members =>
               HDict members
                 ((fix all (l : list (str * json)) : Forall (fun m => P (snd m)) l :=
                     match l with
                     | [] => Forall_nil _
                     | m :: r => Forall_cons m (prove (snd m)) (all r)
                     end) members)
           end).
Qed.

Lemma iterencode_list (level : nat) (x : json) (xs : list json) :
  iterencode level (JList (x :: xs))
  = "[" ++ newline_indent (S level) ++ iterencode (S level) x
    ++ items_text level xs ++ newline_indent level ++ "]".
Proof. reflexivity. Qed.

Lemma iterencode_dict (level : nat) (k : str) (x : json) (xs : list (str * json)) :
  iterencode level (JDict ((k, x) :: xs))
  = "{" ++ newline_indent (S level) ++ encode_basestring k ++ ": "
    ++ iterencode (S level) x ++ members_text level xs ++ newline_indent level ++ "}".
Proof. reflexivity. Qed.

Lemma items_text_cons (level : nat) (y : json) (ys : list json) :
  items_text level (y :: ys)
  = "," ++ newline_indent (S level) ++ iterencode (S level) y ++ items_text level ys.
Proof. reflexivity. Qed.

Lemma members_text_cons (level : nat) (k : str) (y : json) (ys : list (str * json)) :
  members_text level ((k, y) :: ys)
  = "," ++ newline_indent (S level) ++ encode_basestring k ++ ": "
    ++ iterencode (S level) y ++ members_text level ys.
Proof. reflexivity. Qed.

Lemma opens_value_skip_ws (s : str) : opens_value s -> skip_ws s = s.
Proof. intros (c & r & -> & Hws & _). simpl. now rewrite Hws. Qed.

Lemma iterencode_opens (level : nat) (v : json) (tail : str) :
  opens_value (iterencode level v ++ tail).
Proof.
  destruct v as [|[|]|z|s|[|x xs]|[|[k x] xs]];
    try (simpl; eexists _, _; repeat split; reflexivity).
  simpl. unfold str_of_int.
  destruct (Z.to_int z) as [d|d]; [destruct d|]; simpl;
    eexists _, _; repeat split; reflexivity.
Qed.

Lemma parse_value_eq (fuel : nat) (s : str) :
  parse_value (S fuel) s =
      match skip_ws s with
      | EmptyString => None
      | String c r =>
          if Ascii.eqb c "n" then literal "ull" JNull r
          else if Ascii.eqb c "t" then literal "rue" (JBool true) r
          else if Ascii.eqb c "f" then literal "alse" (JBool false) r
          else if Ascii.eqb c dquote then
            match scan_string r with
            | Some (t, rest) => Some (JStr t, rest)
            | None => None
            end
          else if Ascii.eqb c "[" then
            match skip_ws r with
            | String c' r' =>
                if Ascii.eqb c' "]" then Some (JList [], r')
                else
                  match parse_elements fuel r with
                  | Some (items, rest) => Some (JList items, rest)
                  | None => None
                  end
            | EmptyString => None
            end
          else if Ascii.eqb c "{" then
            match skip_ws r with
            | String c' r' =>
                if Ascii.eqb c' "}" then Some (JDict [], r')
                else
                  match parse_members fuel r with
                  | Some (members, rest) => Some (JDict members, rest)
                  | None => None
                  end
            | EmptyString => None
            end
          else
            match scan_int (String c r) with
            | Some (z, rest) => Some (JInt z, rest)
            | None => None
            end
      end.
Proof. reflexivity. Qed.

Lemma parse_elements_eq (fuel : nat) (s : str) :
  parse_elements (S fuel) s =
      match parse_value fuel s with
      | Some (v, rest) =>
          match skip_ws rest with
          | String c r =>
              if Ascii.eqb c "," then
                match parse_elements fuel r with
                | Some (vs, rest') => Some (v :: vs, rest')
                | None => None
                end
              else if Ascii.eqb c "]" then Some ([v], r)
              else None
          | EmptyString => None
          end
      | None => None
      end.
Proof. reflexivity. Qed.

Lemma parse_members_eq (fuel : nat) (s : str) :
  parse_members (S fuel) s =
      match skip_ws s with
      | String q r =>
          if Ascii.eqb q dquote then
            match scan_string r with
            | Some (k, after_key) =>
                match skip_ws after_key with
                | String colon after_colon =>
                    if Ascii.eqb colon ":" then
                      match parse_value fuel after_colon with
                      | Some (v, rest) =>
                          match skip_ws rest with
                          | String c r' =>
                              if Ascii.eqb c "," then
                                match parse_members fuel r' with
                                | Some (ms, rest') => Some ((k, v) :: ms, rest')
                                | None => None
                                end
                              else if Ascii.eqb c "}" then Some ([(k, v)], r')
                              else None
                          | EmptyString => None
                          end
                      | None => None
                      end
                    else None
                | EmptyString => None
                end
            | None => None
            end
          else None
      | EmptyString => None
      end.
Proof. reflexivity. Qed.

Lemma parse_value_skip (fuel : nat) (s t : str) :
  skip_ws s = skip_ws t -> parse_value fuel s = parse_value fuel t.
Proof. intros H. destruct fuel; [reflexivity|]. now rewrite !parse_value_eq, H. Qed.

Lemma parse_members_skip (fuel : nat) (s t : str) :
  skip_ws s = skip_ws t -> parse_members fuel s = parse_members fuel t.
Proof. intros H. destruct fuel; [reflexivity|]. now rewrite !parse_members_eq, H. Qed.

Lemma number_end_items (level : nat) (xs : list json) (close tail : str) :
  number_end (items_text level xs ++ newline_indent level ++ close ++ tail) = true.
Proof. destruct xs; reflexivity. Qed.

Lemma number_end_members (level : nat) (xs : list (str * json)) (close tail : str) :
  number_end (members_text level xs ++ newline_indent level ++ close ++ tail) = true.
Proof. destruct xs as [|[k y] xs]; reflexivity. Qed.

Lemma skip_ws_sep (c : ascii) (s : str) :
  is_ws c = false -> skip_ws (String c s) = String c s.
Proof. intros H. simpl. now rewrite H. Qed.

Lemma parse_elements_items (level : nat) (tail : str) (xs : list json) :
  Forall reads_back xs ->
  forall x fuel,
    reads_back x ->
    S (size x) + list_sum (map (fun y => S (size y)) xs) <= fuel ->
    parse_elements fuel
      (newline_indent (S level) ++ iterencode (S level) x
       ++ items_text level xs ++ newline_indent level ++ "]" ++ tail)
    = Some (x :: xs, tail).
Proof.
  induction 1 as [|y ys Hy Hys IH]; intros x fuel Hx Hfuel;
    (destruct fuel as [|fuel]; [simpl in Hfuel; lia|]);
    rewrite parse_elements_eq;
    rewrite (parse_value_skip fuel _ _ (skip_ws_newline_indent _ _)).
  - rewrite Hx; [| simpl in Hfuel; lia | apply (number_end_items level [])].
    change (items_text level [] ++ newline_indent level ++ "]" ++ tail)
      with (newline_indent level ++ "]" ++ tail).
    rewrite skip_ws_newline_indent. reflexivity.
  - rewrite Hx; [| simpl in Hfuel; lia | apply number_end_items].
    rewrite items_text_cons, !append_assoc.
    change ("," ++ ?s) with (String "," s).
    rewrite skip_ws_sep by reflexivity.
    change (Ascii.eqb "," ",") with true. cbv iota.
    rewrite IH; [reflexivity | assumption | simpl in Hfuel |- *; lia].
Qed.

Lemma parse_members_step (indent : str) (level : nat) (k : str) (x : json)
    (fuel : nat) (after : str) :
  skip_ws indent = "" ->
  reads_back x -> size x <= fuel -> number_end after = true ->
  parse_members (S fuel)
    (indent ++ encode_basestring k ++ ": " ++ iterencode level x ++ after)
  = match skip_ws after with
    | String c r' =>
        if Ascii.eqb c "," then
          match parse_members fuel r' with
          | Some (ms, rest') => Some ((k, x) :: ms, rest')
          | None => None
          end
        else if Ascii.eqb c "}" then Some ([(k, x)], r')
        else None
    | EmptyString => None
    end.
Proof.
  intros Hindent Hx Hfuel Hafter.
  rewrite parse_members_eq.
  assert (Hskip : forall t, skip_ws (indent ++ encode_basestring k ++ t)
                            = encode_basestring k ++ t).
  { intros t. clear -Hindent. induction indent as [|c i IH]; simpl in *.
    - reflexivity.
    - destruct (is_ws c); [now apply IH | discriminate]. }
  rewrite Hskip.
  destruct (scan_basestring k (": " ++ iterencode level x ++ after))
    as (body & Ebody & Hscan).
  rewrite Ebody.
  change (Ascii.eqb dquote dquote) with true. cbv iota.
  rewrite Hscan.
  change (": " ++ ?s) with (String ":" (String " " s)).
  rewrite (skip_ws_sep ":") by reflexivity.
  change (Ascii.eqb ":" ":") with true. cbv iota.
  rewrite (parse_value_skip fuel (String " " (iterencode level x ++ after))
             (iterencode level x ++ after) eq_refl).
  now rewrite Hx.
Qed.

Lemma skip_ws_only_indent (level : nat) : skip_ws (newline_indent level) = "".
Proof.
  unfold newline_indent.
  assert (H : forall n, skip_ws (spaces n) = "") by (induction n; simpl; auto).
  exact (H (2 * level)).
Qed.

Lemma parse_members_items (level : nat) (tail : str) (xs : list (str * json)) :
  Forall (fun m => reads_back (snd m)) xs ->
  forall k x fuel,
    reads_back x ->
    S (size x) + list_sum (map (fun m => S (size (snd m))) xs) <= fuel ->
    parse_members fuel
      (newline_indent (S level) ++ encode_basestring k ++ ": " ++ iterencode (S level) x
       ++ members_text level xs ++ newline_indent level ++ "}" ++ tail)
    = Some ((k, x) :: xs, tail).
Proof.
  induction 1 as [|[k' y] ys Hy Hys IH]; intros k x fuel Hx Hfuel;
    (destruct fuel as [|fuel]; [simpl in Hfuel; lia|]);
    (rewrite parse_members_step;
     [| apply skip_ws_only_indent | assumption | simpl in Hfuel; lia
      | apply number_end_members]).
  - change (members_text level [] ++ newline_indent level ++ "}" ++ tail)
      with (newline_indent level ++ "}" ++ tail).
    rewrite skip_ws_newline_indent. reflexivity.
  - rewrite members_text_cons, !append_assoc.
    change ("," ++ ?s) with (String "," s).
    rewrite skip_ws_sep by reflexivity.
    change (Ascii.eqb "," ",") with true. cbv iota.
    simpl in Hy.
    rewrite IH; [reflexivity | assumption | simpl in Hfuel |- *; lia].
Qed.

Lemma literal_prefix (p : str) (v : json) (tail : str) :
  literal p v (p ++ tail) = Some (v, tail).
Proof.
  unfold literal.
  assert (H : strip_prefix p (p ++ tail) = Some tail).
  { induction p as [|c p IH]; simpl; [reflexivity|]. now rewrite Ascii.eqb_refl. }
  now rewrite H.
Qed.

Theorem parse_iterencode (v : json) : reads_back v.
Proof.
  induction v as [|b|z|s|items IH|members IH] using json_induction;
    intros level tail fuel Hfuel Htail;
    (destruct fuel as [|fuel]; [simpl in Hfuel; lia|]);
    rewrite parse_value_eq, (opens_value_skip_ws _ (iterencode_opens level _ tail)).
  - apply (literal_prefix "ull").
  - destruct b; [apply (literal_prefix "rue") | apply (literal_prefix "alse")].
  - destruct (iterencode_opens level (JInt z) tail) as (c & r & E & _).
    simpl iterencode in *. rewrite E.
    assert (Hscan := scan_int_str_of_int z tail Htail). rewrite E in Hscan.
    unfold str_of_int in E.
    destruct (Z.to_int z) as [d|d]; [destruct d|]; simpl in E;
      injection E as <- <-; cbn [Ascii.eqb Bool.eqb]; cbv iota; now rewrite Hscan.
  - destruct (scan_basestring s tail) as (body & E & Hscan).
    simpl iterencode. rewrite E. change (Ascii.eqb dquote "n") with false.
    cbn [Ascii.eqb Bool.eqb dquote]. cbv iota. now rewrite Hscan.
  - destruct items as [|x xs]; [reflexivity|].
    rewrite iterencode_list, !append_assoc.
    change ("[" ++ ?s) with (String "[" s).
    cbn [Ascii.eqb Bool.eqb]. cbv iota.
    rewrite skip_ws_newline_indent.
    destruct (iterencode_opens (S level) x
                (items_text level xs ++ newline_indent level ++ "]" ++ tail))
      as (c & r & E & Hws & Hc & _).
    rewrite E, skip_ws_sep, Hc, <- E by assumption.
    inversion IH as [|? ? Hx Hxs]; subst.
    rewrite (parse_elements_items level tail xs Hxs x fuel Hx); [reflexivity|].
    simpl in Hfuel. lia.
  - destruct members as [|[k x] xs]; [reflexivity|].
    rewrite iterencode_dict, !append_assoc.
    change ("{" ++ ?s) with (String "{" s).
    cbn [Ascii.eqb Bool.eqb]. cbv iota.
    rewrite skip_ws_newline_indent.
    destruct (scan_basestring k
                (": " ++ iterencode (S level) x ++ members_text level xs
                 ++ newline_indent level ++ "}" ++ tail)) as (body & E & _).
    rewrite E, (skip_ws_sep dquote) by reflexivity.
    change (Ascii.eqb dquote "}") with false. cbv iota. rewrite <- E.
    inversion IH as [|? ? Hx Hxs]; subst. simpl in Hx.
    rewrite (parse_members_items level tail xs Hxs k x fuel Hx); [reflexivity|].
    simpl in Hfuel. lia.
Qed.

Lemma length_newline_indent (level : nat) : 1 <= String.length (newline_indent level).
Proof. unfold newline_indent. simpl. lia. Qed.

Lemma size_le_length (v : json) :
  forall level, size v <= String.length (iterencode level v).
Proof.
  induction v as [|b|z|s|items IH|members IH] using json_induction; intros level.
  - simpl. lia.
  - destruct b; simpl; lia.
  - destruct (iterencode_opens level (JInt z) "") as (c & r & E & _).
    rewrite append_nil_r in E. rewrite E. simpl. lia.
  - simpl. lia.
  - destruct items as [|x xs]; [simpl; lia|].
    rewrite iterencode_list. rewrite !length_append.
    inversion IH as [|? ? Hx Hxs]; subst.
    assert (Hrest : list_sum (map (fun y => S (size y)) xs)
                    <= String.length (items_text level xs)).
    { clear -Hxs. induction Hxs as [|y ys Hy _ IHys]; [simpl; lia|].
      rewrite items_text_cons, !length_append.
      pose proof (length_newline_indent (S level)).
      specialize (Hy (S level)). simpl in *. lia. }
    pose proof (length_newline_indent (S level)).
    specialize (Hx (S level)). simpl in *. lia.
  - destruct members as [|[k x] xs]; [simpl; lia|].
    rewrite iterencode_dict. rewrite !length_append.
    inversion IH as [|? ? Hx Hxs]; subst.
    assert (Hrest : list_sum (map (fun m => S (size (snd m))) xs)
                    <= String.length (members_text level xs)).
    { clear -Hxs. induction Hxs as [|[k' y] ys Hy _ IHys]; [simpl; lia|].
      rewrite members_text_cons, !length_append.
      pose proof (length_newline_indent (S level)).
      specialize (Hy (S level)). simpl in *. lia. }
    pose proof (length_newline_indent (S level)).
    specialize (Hx (S level)). simpl in *. lia.
Qed.

Theorem loads_dumps (v : json) : loads (dumps v) = Some v.
Proof.
  unfold loads, dumps.
  pose proof (parse_iterencode v 0 "" (S (String.length (iterencode 0 v)))) as H.
  rewrite append_nil_r in H. rewrite H; [reflexivity | | reflexivity].
  pose proof (size_le_length v 0). lia.
Qed.

End JsonFacts.
Import JsonFacts.

(** ** Substrings *)

Module ContainsFacts.

Lemma startswith_append (h p t : str) :
  startswith h p = true -> startswith (h ++ t) p = true.
Proof.
  revert h. induction p as [|c p IH]; intros h H; [reflexivity|].
  destruct h as [|d h]; simpl in *; [discriminate|].
  apply andb_true_iff in H as [Hc Hp]. rewrite Hc. now apply IH.
Qed.

Lemma contains_unfold (needle hay : str) :
  contains needle hay
  = startswith hay needle
    || match hay with
       | EmptyString => false
       | String _ hay' => contains needle hay'
       end.
Proof. destruct hay; reflexivity. Qed.

(** Appending text keeps what the text contains. *)
Lemma contains_append_l (needle hay t : str) :
  contains needle hay = true -> contains needle (hay ++ t) = true.
Proof.
  induction hay as [|c hay IH]; intros H.
  - simpl in H. rewrite orb_false_r in H.
    rewrite contains_unfold. apply orb_true_iff. left.
    now apply (startswith_append "" needle t).
  - rewrite contains_unfold in H. apply orb_true_iff in H as [H|H].
    + rewrite contains_unfold. apply orb_true_iff. left.
      now apply (startswith_append (String c hay) needle t).
    + change (String c hay ++ t) with (String c (hay ++ t)).
      rewrite contains_unfold. apply orb_true_iff. right. now apply IH.
Qed.

(** Appended text is contained. *)
Lemma contains_append_r (needle hay t : str) :
  contains needle t = true -> contains needle (hay ++ t) = true.
Proof.
  intros H. induction hay as [|c hay IH]; [exact H|].
  change (String c hay ++ t) with (String c (hay ++ t)).
  rewrite contains_unfold. apply orb_true_iff. now right.
Qed.

End ContainsFacts.
Import ContainsFacts.

(** ** Coroutines *)

(** Unfold the coroutine combinators and the logging helpers. *)
Ltac run :=
  cbv [try_except try_except2 try_finally async_with bind ret raise lift emit await
       self_logger_info self_logger_warning self_logger_error logger_info logger_error
       respond decode];
  cbn [world journal].

Ltac journal_eq :=
  unfold after; cbn [world journal]; rewrite <- ?app_assoc; reflexivity.

Lemma calls_in_app (a b : list event) :
  calls_in (a ++ b)%list = (calls_in a ++ calls_in b)%list.
Proof.
  induction a as [|[?|?|?] a IH]; simpl; [reflexivity | assumption | | assumption].
  now rewrite IH.
Qed.

Section Coroutines.

Context {W : Type}.
Implicit Types (s : @state W) (e : BaseException) (w : W).

Lemma bind_returned {A B : Type} (m : @M W A) (k : A -> M B) s a s' :
  m s = (Returned a, s') -> bind m k s = k a s'.
Proof. intros H. unfold bind. now rewrite H. Qed.

Lemma bind_raised {A B : Type} (m : @M W A) (k : A -> M B) s e s' :
  m s = (Raised e, s') -> bind m k s = (Raised e, s').
Proof. intros H. unfold bind. now rewrite H. Qed.

Lemma bind_eq {A B : Type} (m : @M W A) (k : A -> M B) s :
  bind m k s
  = match m s with
    | (Returned a, s') => k a s'
    | (Raised e, s') => (Raised e, s')
    end.
Proof. reflexivity. Qed.

Lemma await_run {A : Type} (c : call) (f : @action W A) s r w :
  f (world s) = (r, w) -> await c f s = (r, after s w [Called c]).
Proof. intros H. unfold await. now rewrite H. Qed.

Lemma log_run (level : log_level) (message : str) s :
  emit (Logged server_logger level message) s
  = (Returned tt, after s (world s) [Logged server_logger level message]).
Proof. reflexivity. Qed.

Lemma after_after s w1 ev1 w2 ev2 :
  after (after s w1 ev1) w2 ev2 = after s w2 (ev1 ++ ev2)%list.
Proof. unfold after. cbn [world journal]. now rewrite <- app_assoc. Qed.

Lemma after_nil s : after s (world s) [] = s.
Proof. unfold after. rewrite app_nil_r. now destruct s. Qed.

End Coroutines.

(** ** The operation dispatcher *)

Section Dispatcher.

Context {W Resource Tool Prompt : Type}.
Implicit Types (self : @DorisServer W Resource Tool Prompt) (s : @state W).
Implicit Types (e : BaseException) (w : W).

Lemma handle_list_resources_raised self s e w :
  isinstance_Exception e = true ->
  list_resources (resources_manager self) (world s) = (Raised e, w) ->
  handle_list_resources self s
  = (Returned [],
     after s w
       [Logged server_logger INFO "Handling resource list request";
        Called resources_list_resources;
        Logged server_logger ERROR
          ("Failed to handle resource list request: " ++ exc_str e)]).
Proof.
  intros He Hcall. unfold handle_list_resources. run.
  rewrite Hcall, He. journal_eq.
Qed.

Lemma handle_list_tools_raised self s e w :
  isinstance_Exception e = true ->
  list_tools (tools_manager self) (world s) = (Raised e, w) ->
  handle_list_tools self s
  = (Returned [],
     after s w
       [Logged server_logger INFO "Handling tool list request";
        Called tools_list_tools;
        Logged server_logger ERROR
          ("Failed to handle tool list request: " ++ exc_str e)]).
Proof.
  intros He Hcall. unfold handle_list_tools. run.
  rewrite Hcall, He. journal_eq.
Qed.

Lemma handle_list_prompts_raised self s e w :
  isinstance_Exception e = true ->
  list_prompts (prompts_manager self) (world s) = (Raised e, w) ->
  handle_list_prompts self s
  = (Returned [],
     after s w
       [Logged server_logger INFO "Handling prompt list request";
        Called prompts_list_prompts;
        Logged server_logger ERROR
          ("Failed to handle prompt list request: " ++ exc_str e)]).
Proof.
  intros He Hcall. unfold handle_list_prompts. run.
  rewrite Hcall, He. journal_eq.
Qed.

Lemma handle_read_resource_raised self s e w uri :
  isinstance_Exception e = true ->
  read_resource (resources_manager self) uri (world s) = (Raised e, w) ->
  handle_read_resource self uri s
  = (Returned (dumps (read_resource_envelope e uri)),
     after s w
       [Logged server_logger INFO ("Handling resource read request: " ++ uri);
        Called (resources_read_resource uri);
        Logged server_logger ERROR
          ("Failed to handle resource read request: " ++ exc_str e)]).
Proof.
  intros He Hcall. unfold handle_read_resource. run.
  rewrite Hcall, He. journal_eq.
Qed.

Lemma handle_call_tool_raised self s e w name arguments :
  isinstance_Exception e = true ->
  call_tool (tools_manager self) name arguments (world s) = (Raised e, w) ->
  handle_call_tool self name arguments s
  = (Returned [mkTextContent "text" (dumps (call_tool_envelope e name arguments))],
     after s w
       [Logged server_logger INFO ("Handling tool call request: " ++ name);
        Called (tools_call_tool name arguments);
        Logged server_logger ERROR
          ("Failed to handle tool call request: " ++ exc_str e)]).
Proof.
  intros He Hcall. unfold handle_call_tool. run.
  rewrite Hcall, He. journal_eq.
Qed.

Lemma handle_get_prompt_raised self s e w name arguments :
  isinstance_Exception e = true ->
  get_prompt (prompts_manager self) name arguments (world s) = (Raised e, w) ->
  handle_get_prompt self name arguments s
  = (Returned (dumps (get_prompt_envelope e name arguments)),
     after s w
       [Logged server_logger INFO ("Handling prompt get request: " ++ name);
        Called (prompts_get_prompt name arguments);
        Logged server_logger ERROR
          ("Failed to handle prompt get request: " ++ exc_str e)]).
Proof.
  intros He Hcall. unfold handle_get_prompt. run.
  rewrite Hcall, He. journal_eq.
Qed.

(** An exception that does not derive from [Exception] is not caught:
    the handler lets it through. *)
Lemma handle_call_tool_lets_through self s e w name arguments :
  isinstance_Exception e = false ->
  call_tool (tools_manager self) name arguments (world s) = (Raised e, w) ->
  fst (handle_call_tool self name arguments s) = Raised e.
Proof.
  intros He Hcall. unfold handle_call_tool. run.
  now rewrite Hcall, He.
Qed.

(** C1.  Whatever exception (an instance of [Exception], the class the
    handlers catch) the collaborator of one of the six handlers raises,
    the handler returns: [list_resources], [list_tools] and
    [list_prompts] return the empty list; [read_resource], [call_tool]
    and [get_prompt] return the serialized Error Envelope, which reads
    back as the object with the fields [error] and [uri], respectively
    [error], [tool_name], [arguments] and [error], [prompt_name],
    [arguments].  In each case the failure is logged. *)
Theorem handlers_never_propagate self s e w :
  isinstance_Exception e = true ->
  (list_resources (resources_manager self) (world s) = (Raised e, w) ->
   fst (handle_list_resources self s) = Returned []
   /\ In (Logged server_logger ERROR
            ("Failed to handle resource list request: " ++ exc_str e))
         (journal (snd (handle_list_resources self s))))
  /\ (list_tools (tools_manager self) (world s) = (Raised e, w) ->
      fst (handle_list_tools self s) = Returned []
      /\ In (Logged server_logger ERROR
               ("Failed to handle tool list request: " ++ exc_str e))
            (journal (snd (handle_list_tools self s))))
  /\ (list_prompts (prompts_manager self) (world s) = (Raised e, w) ->
      fst (handle_list_prompts self s) = Returned []
      /\ In (Logged server_logger ERROR
               ("Failed to handle prompt list request: " ++ exc_str e))
            (journal (snd (handle_list_prompts self s))))
  /\ (forall uri,
        read_resource (resources_manager self) uri (world s) = (Raised e, w) ->
        exists body,
          fst (handle_read_resource self uri s) = Returned body
          /\ loads body
             = Some (JDict [("error", JStr ("Failed to read resource: " ++ exc_str e));
                            ("uri", JStr uri)])
          /\ In (Logged server_logger ERROR
                   ("Failed to handle resource read request: " ++ exc_str e))
                (journal (snd (handle_read_resource self uri s))))
  /\ (forall name arguments,
        call_tool (tools_manager self) name arguments (world s) = (Raised e, w) ->
        exists body,
          fst (handle_call_tool self name arguments s)
          = Returned [mkTextContent "text" body]
          /\ loads body
             = Some (JDict [("error", JStr ("Tool call failed: " ++ exc_str e));
                            ("tool_name", JStr name);
                            ("arguments", JDict arguments)])
          /\ In (Logged server_logger ERROR
                   ("Failed to handle tool call request: " ++ exc_str e))
                (journal (snd (handle_call_tool self name arguments s))))
  /\ (forall name arguments,
        get_prompt (prompts_manager self) name arguments (world s) = (Raised e, w) ->
        exists body,
          fst (handle_get_prompt self name arguments s) = Returned body
          /\ loads body
             = Some (JDict [("error", JStr ("Failed to get prompt: " ++ exc_str e));
                            ("prompt_name", JStr name);
                            ("arguments", JDict arguments)])
          /\ In (Logged server_logger ERROR
                   ("Failed to handle prompt get request: " ++ exc_str e))
                (journal (snd (handle_get_prompt self name arguments s)))).
Proof.
  intros He.
  assert (Hlast : forall (j : list event) a b c, In c (j ++ [a; b; c])%list).
  { intros j a b c. apply in_or_app. right. simpl. auto. }
  split; [|split; [|split; [|split; [|split]]]].
  - intros Hcall. rewrite (handle_list_resources_raised _ _ _ _ He Hcall).
    split; [reflexivity | apply Hlast].
  - intros Hcall. rewrite (handle_list_tools_raised _ _ _ _ He Hcall).
    split; [reflexivity | apply Hlast].
  - intros Hcall. rewrite (handle_list_prompts_raised _ _ _ _ He Hcall).
    split; [reflexivity | apply Hlast].
  - intros uri Hcall. rewrite (handle_read_resource_raised _ _ _ _ _ He Hcall).
    eexists. split; [reflexivity|]. split; [apply loads_dumps | apply Hlast].
  - intros name arguments Hcall.
    rewrite (handle_call_tool_raised _ _ _ _ _ _ He Hcall).
    eexists. split; [reflexivity|]. split; [apply loads_dumps | apply Hlast].
  - intros name arguments Hcall.
    rewrite (handle_get_prompt_raised _ _ _ _ _ _ He Hcall).
    eexists. split; [reflexivity|]. split; [apply loads_dumps | apply Hlast].
Qed.

(** C2.  When the tools manager's [call_tool] raises an exception whose
    text is [exc_str e], for any tool name and argument mapping,
    [handle_call_tool] returns exactly one content item, of type [text],
    whose text parses as the JSON object with [error] equal to
    ["Tool call failed: "] followed by that text, [tool_name] the name
    and [arguments] the mapping. *)
Theorem call_tool_failure_envelope self s e w name arguments :
  isinstance_Exception e = true ->
  call_tool (tools_manager self) name arguments (world s) = (Raised e, w) ->
  exists item,
    fst (handle_call_tool self name arguments s) = Returned [item]
    /\ type item = "text"
    /\ loads (text item)
       = Some (JDict [("error", JStr ("Tool call failed: " ++ exc_str e));
                      ("tool_name", JStr name);
                      ("arguments", JDict arguments)]).
Proof.
  intros He Hcall.
  rewrite (handle_call_tool_raised _ _ _ _ _ _ He Hcall).
  eexists. split; [reflexivity|]. split; [reflexivity|].
  apply loads_dumps.
Qed.

(** When the collaborator returns, each handler returns what it
    returned; [call_tool] wraps the text in one content item of type
    [text]. *)
Theorem handlers_return_results self s w :
  (forall resources,
     list_resources (resources_manager self) (world s) = (Returned resources, w) ->
     fst (handle_list_resources self s) = Returned resources)
  /\ (forall content uri,
        read_resource (resources_manager self) uri (world s) = (Returned content, w) ->
        fst (handle_read_resource self uri s) = Returned content)
  /\ (forall tools,
        list_tools (tools_manager self) (world s) = (Returned tools, w) ->
        fst (handle_list_tools self s) = Returned tools)
  /\ (forall result name arguments,
        call_tool (tools_manager self) name arguments (world s) = (Returned result, w) ->
        fst (handle_call_tool self name arguments s)
        = Returned [mkTextContent "text" result])
  /\ (forall prompts,
        list_prompts (prompts_manager self) (world s) = (Returned prompts, w) ->
        fst (handle_list_prompts self s) = Returned prompts)
  /\ (forall result name arguments,
        get_prompt (prompts_manager self) name arguments (world s) = (Returned result, w) ->
        fst (handle_get_prompt self name arguments s) = Returned result).
Proof.
  repeat split; intros;
    unfold handle_list_resources, handle_read_resource, handle_list_tools,
      handle_call_tool, handle_list_prompts, handle_get_prompt;
    run;
    match goal with H : _ = (Returned _, _) |- _ => rewrite H end;
    reflexivity.
Qed.

End Dispatcher.

Lemma handlers_never_propagate_witness :
  isinstance_Exception boom = true
  /\ fst (handle_list_resources failing_server initial_state) = Returned []
  /\ fst (handle_list_tools failing_server initial_state) = Returned []
  /\ fst (handle_list_prompts failing_server initial_state) = Returned []
  /\ (exists body,
        fst (handle_read_resource failing_server "doris://tables" initial_state)
        = Returned body
        /\ loads body
           = Some (JDict [("error", JStr "Failed to read resource: boom");
                          ("uri", JStr "doris://tables")])).
Proof.
  pose proof (handlers_never_propagate failing_server initial_state boom tt eq_refl)
    as (Hr & Ht & Hp & Hread & _).
  split; [reflexivity|].
  split; [exact (proj1 (Hr eq_refl))|].
  split; [exact (proj1 (Ht eq_refl))|].
  split; [exact (proj1 (Hp eq_refl))|].
  destruct (Hread "doris://tables" eq_refl) as (body & Hbody & Hloads & _).
  exists body. split; assumption.
Defined.

Lemma handle_call_tool_lets_through_witness :
  fst (handle_call_tool interrupted_server "x" [] initial_state)
  = Raised keyboard_interrupt.
Proof.
  exact (handle_call_tool_lets_through interrupted_server initial_state
           keyboard_interrupt tt "x" [] eq_refl eq_refl).
Defined.

Lemma handlers_return_results_witness :
  fst (handle_call_tool quiet_server "x" [("a", JInt 1)] initial_state)
  = Returned [mkTextContent "text" "result"].
Proof.
  exact (proj1 (proj2 (proj2 (proj2 (handlers_return_results quiet_server
                                        initial_state tt))))
           "result" "x" [("a", JInt 1)] eq_refl).
Defined.

Lemma call_tool_failure_envelope_witness :
  exists item,
    fst (handle_call_tool failing_server "x" [("a", JInt 1)] initial_state)
    = Returned [item]
    /\ type item = "text"
    /\ loads (text item)
       = Some (JDict [("error", JStr "Tool call failed: boom");
                      ("tool_name", JStr "x");
                      ("arguments", JDict [("a", JInt 1)])]).
Proof.
  exact (call_tool_failure_envelope failing_server initial_state boom tt "x"
           [("a", JInt 1)] eq_refl eq_refl).
Defined.

(** ** The HTTP bridge *)

Lemma mcp_path_not_health (path : str) :
  is_mcp_path path = true -> startswith path "/health" = false.
Proof.
  unfold is_mcp_path, startswith. intros H.
  apply orb_true_iff in H as [H|H].
  - apply String.eqb_eq in H. subst path. reflexivity.
  - destruct path as [|c1 [|c2 r]]; cbn [startswith] in H.
    + discriminate.
    + rewrite andb_false_r in H. discriminate.
    + apply andb_true_iff in H as [H1 H]. apply andb_true_iff in H as [H2 _].
      apply Ascii.eqb_eq in H1, H2. subst. reflexivity.
Qed.

Section Bridge.

Context {W Resource Tool Prompt : Type}.
Variable rt : Runtime.
Implicit Types (self : @DorisServer W Resource Tool Prompt) (s : @state W).
Implicit Types (e : BaseException) (w : W) (scope : Scope).
Implicit Types (headers : list (bytes * bytes)).

Lemma dict_get_absent (key : bytes) headers (default : bytes) :
  existsb (fun h => String.eqb (fst h) key) headers = false ->
  dict_get key headers default = default.
Proof.
  revert default. induction headers as [|[name value] rest IH]; intros default H.
  - reflexivity.
  - cbn [existsb fst] in H. apply orb_false_iff in H as [Hn Hrest].
    cbn [dict_get]. rewrite Hn. now apply IH.
Qed.

(** The loop rewrites every [accept] entry in place and leaves in
    [new_value] the rewritten value of the last one, which is the value
    the lookup in the dict returns. *)
Lemma rewrite_accept_decodable headers :
  accept_decodable headers = true ->
  forall new_headers new_value default,
    rewrite_accept rt headers new_headers new_value
    = Returned
        ((new_headers ++ map add_json headers)%list,
         if existsb (fun h => String.eqb (fst h) "accept") headers
         then Some (dict_get "accept" headers default ++ ", application/json")
         else new_value).
Proof.
  induction headers as [|[name value] rest IH]; intros Hdec acc nv default.
  - simpl. now rewrite app_nil_r.
  - cbn [accept_decodable forallb fst snd] in Hdec.
    apply andb_true_iff in Hdec as [Hhead Hrest].
    cbn [rewrite_accept map existsb dict_get fst snd]. unfold add_json at 1.
    cbn [fst snd].
    destruct (String.eqb name "accept") eqn:Hname.
    + cbn [negb orb] in Hhead. unfold decode_utf8. rewrite Hhead.
      rewrite (IH Hrest _ _ value). unfold encode_utf8.
      rewrite <- app_assoc. cbn [app orb].
      destruct (existsb (fun h => String.eqb (fst h) "accept") rest) eqn:E;
        [reflexivity|].
      now rewrite (dict_get_absent _ _ _ E).
    + rewrite (IH Hrest _ _ default). rewrite <- app_assoc. reflexivity.
Qed.

Lemma accept_decodable_lookup headers (default : bytes) :
  accept_decodable headers = true -> utf8_valid default = true ->
  utf8_valid (dict_get "accept" headers default) = true.
Proof.
  revert default. induction headers as [|[name value] rest IH]; intros default Hdec Hd.
  - exact Hd.
  - simpl in *. apply andb_true_iff in Hdec as [Hhead Hrest].
    apply IH; [assumption|].
    destruct (String.eqb name "accept"); [exact Hhead | exact Hd].
Qed.

Lemma wants_rewrite_has_accept headers :
  wants_rewrite (dict_get "accept" headers "") = true ->
  existsb (fun h => String.eqb (fst h) "accept") headers = true.
Proof.
  intros H.
  destruct (existsb (fun h => String.eqb (fst h) "accept") headers) eqn:E;
    [reflexivity|].
  rewrite (dict_get_absent _ _ _ E) in H. discriminate.
Qed.

(** When every value it decodes is UTF-8 and the test holds,
    [forwarded_scope] returns the scope with the rewritten headers. *)
Lemma forwarded_scope_rewritten scope s :
  scope_method scope = Some "GET" ->
  accept_decodable (get (scope_headers scope) []) = true ->
  utf8_valid (user_agent_of scope) = true ->
  wants_rewrite (accept_of scope) = true ->
  forwarded_scope rt scope s
  = (Returned (set_headers scope (map add_json (get (scope_headers scope) []))),
     after s (world s)
       [Logged server_logger INFO "MCP Request - Method: GET";
        Logged server_logger INFO
          ("MCP Request - Headers: " ++ repr_headers rt (get (scope_headers scope) []));
        Logged server_logger INFO
          "Adding application/json to Accept header for GET request";
        Logged server_logger INFO
          ("Modified Accept header to: " ++ accept_of scope ++ ", application/json")]).
Proof.
  intros Hmethod Hdec Hua Hwant.
  unfold forwarded_scope. rewrite Hmethod. cbn [get]. rewrite String.eqb_refl. run.
  unfold decode_utf8.
  fold (accept_of scope). fold (user_agent_of scope).
  rewrite (accept_decodable_lookup _ "" Hdec eq_refl : utf8_valid (accept_of scope) = true).
  rewrite Hua. fold (wants_rewrite (accept_of scope)). rewrite Hwant.
  rewrite (rewrite_accept_decodable _ Hdec [] None "").
  rewrite (wants_rewrite_has_accept _ Hwant).
  cbn [app]. journal_eq.
Qed.

(** When the two values it decodes are UTF-8 and the test fails,
    [forwarded_scope] returns the scope it was given. *)
Lemma forwarded_scope_unchanged scope s :
  scope_method scope = Some "GET" ->
  utf8_valid (accept_of scope) = true ->
  utf8_valid (user_agent_of scope) = true ->
  wants_rewrite (accept_of scope) = false ->
  forwarded_scope rt scope s
  = (Returned scope,
     after s (world s)
       [Logged server_logger INFO "MCP Request - Method: GET";
        Logged server_logger INFO
          ("MCP Request - Headers: " ++ repr_headers rt (get (scope_headers scope) []))]).
Proof.
  intros Hmethod Hacc Hua Hwant.
  unfold forwarded_scope. rewrite Hmethod. cbn [get]. rewrite String.eqb_refl. run.
  unfold decode_utf8.
  fold (accept_of scope). fold (user_agent_of scope).
  rewrite Hacc, Hua. fold (wants_rewrite (accept_of scope)). rewrite Hwant.
  journal_eq.
Qed.

(** [mcp_app] on an [http] scope: log the path, route, and turn an
    exception into a response. *)
Lemma mcp_app_http self scope s :
  scope_type scope = "http" ->
  mcp_app rt self scope s
  = try_except
      (route_http rt self scope (get (scope_path scope) ""))
      isinstance_Exception
      (fun e =>
         bind (self_logger_error
                 ("Error handling request for " ++ get (scope_path scope) "" ++ ": "
                  ++ exc_str e))
           (fun _ =>
              bind (self_logger_error (format_exc rt e))
                (fun _ => respond "Internal Server Error" 500)))
      (after s (world s)
         [Logged server_logger INFO
            ("Received request for path: " ++ get (scope_path scope) "")]).
Proof.
  intros Htype. unfold mcp_app. rewrite Htype.
  change (String.eqb "http" "lifespan") with false.
  change (String.eqb "http" "http") with true. cbv iota.
  reflexivity.
Qed.

(** [route_http] on a path under [/mcp]: the scope is prepared and
    handed to the session manager. *)
Lemma route_http_mcp self scope s :
  is_mcp_path (get (scope_path scope) "") = true ->
  route_http rt self scope (get (scope_path scope) "") s
  = bind (forwarded_scope rt scope)
      (fun scope' =>
         await (session_manager_handle_request scope')
           (handle_request (server self) scope'))
      (after s (world s)
         [Logged server_logger INFO
            ("Handling MCP request for path: " ++ get (scope_path scope) "")]).
Proof.
  intros Hpath. unfold route_http.
  rewrite (mcp_path_not_health _ Hpath).
  unfold is_mcp_path in Hpath. rewrite Hpath. reflexivity.
Qed.

(** C8.  A request whose path is neither under [/health] nor [/mcp] nor
    under [/mcp/] gets the response 404 with the body [Not Found], and
    nothing else is called. *)
Theorem unregistered_path_is_404 self scope s :
  scope_type scope = "http" ->
  startswith (get (scope_path scope) "") "/health" = false ->
  is_mcp_path (get (scope_path scope) "") = false ->
  mcp_app rt self scope s
  = (Returned tt,
     after s (world s)
       [Logged server_logger INFO
          ("Received request for path: " ++ get (scope_path scope) "");
        Logged server_logger INFO ("Path not found: " ++ get (scope_path scope) "");
        Responded 404 "Not Found"]).
Proof.
  intros Htype Hhealth Hmcp.
  rewrite (mcp_app_http _ _ _ Htype). unfold route_http.
  rewrite Hhealth. unfold is_mcp_path in Hmcp. rewrite Hmcp.
  run. journal_eq.
Qed.

(** Whatever the path, an exception (an instance of [Exception]) raised
    by the routing is rendered as the response 500. *)
Lemma route_exception_is_500 self scope s e s1 :
  scope_type scope = "http" ->
  isinstance_Exception e = true ->
  route_http rt self scope (get (scope_path scope) "")
    (after s (world s)
       [Logged server_logger INFO
          ("Received request for path: " ++ get (scope_path scope) "")])
  = (Raised e, s1) ->
  mcp_app rt self scope s
  = (Returned tt,
     after s1 (world s1)
       [Logged server_logger ERROR
          ("Error handling request for " ++ get (scope_path scope) "" ++ ": "
           ++ exc_str e);
        Logged server_logger ERROR (format_exc rt e);
        Responded 500 "Internal Server Error"]).
Proof.
  intros Htype He Hroute.
  rewrite (mcp_app_http _ _ _ Htype).
  unfold try_except. rewrite Hroute, He. run. journal_eq.
Qed.

Lemma route_http_mcp_logged self scope s :
  is_mcp_path (get (scope_path scope) "") = true ->
  route_http rt self scope (get (scope_path scope) "")
    (after s (world s)
       [Logged server_logger INFO
          ("Received request for path: " ++ get (scope_path scope) "")])
  = bind (forwarded_scope rt scope)
      (fun scope' =>
         await (session_manager_handle_request scope')
           (handle_request (server self) scope'))
      (mcp_request_logged s scope).
Proof.
  intros Hpath. rewrite (route_http_mcp _ _ _ Hpath).
  f_equal. unfold mcp_request_logged. journal_eq.
Qed.


(** An exception that does not derive from [Exception] is not rendered:
    [mcp_app] lets it through. *)
Lemma mcp_app_lets_through self scope s e s1 :
  scope_type scope = "http" ->
  isinstance_Exception e = false ->
  route_http rt self scope (get (scope_path scope) "")
    (after s (world s)
       [Logged server_logger INFO
          ("Received request for path: " ++ get (scope_path scope) "")])
  = (Raised e, s1) ->
  mcp_app rt self scope s = (Raised e, s1).
Proof.
  intros Htype He Hroute.
  rewrite (mcp_app_http _ _ _ Htype).
  unfold try_except. now rewrite Hroute, He.
Qed.

(** C3, on a request whose [User-Agent] is not UTF-8.  A GET request on
    [/mcp] that accepts only an event stream and carries such a
    [User-Agent] is not forwarded at all: decoding the unused
    [user_agent] raises, and the request is answered with status 500. *)
Theorem latin1_user_agent_not_forwarded self s :
  mcp_app rt self latin1_agent_scope s
  = (Returned tt,
     after s (world s)
       [Logged server_logger INFO "Received request for path: /mcp";
        Logged server_logger INFO "Handling MCP request for path: /mcp";
        Logged server_logger INFO "MCP Request - Method: GET";
        Logged server_logger INFO
          ("MCP Request - Headers: "
           ++ repr_headers rt [("accept", "text/event-stream");
                               ("user-agent", String "233" "")]);
        Logged server_logger ERROR
          ("Error handling request for /mcp: " ++ decode_error rt (String "233" ""));
        Logged server_logger ERROR
          (format_exc rt (UnicodeDecodeError rt (String "233" "")));
        Responded 500 "Internal Server Error"]).
Proof.
  assert (Hfwd : forall s0 : @state W,
             forwarded_scope rt latin1_agent_scope s0
             = (Raised (UnicodeDecodeError rt (String "233" "")),
                after s0 (world s0)
                  [Logged server_logger INFO "MCP Request - Method: GET";
                   Logged server_logger INFO
                     ("MCP Request - Headers: "
                      ++ repr_headers rt [("accept", "text/event-stream");
                                          ("user-agent", String "233" "")])])).
  { intros s0. unfold forwarded_scope. cbn [latin1_agent_scope scope_method scope_headers get].
    change (String.eqb "GET" "GET") with true. cbv iota. run.
    change (decode_utf8 (dict_get "accept" [("accept", "text/event-stream");
                                            ("user-agent", String "233" "")] ""))
      with (Some "text/event-stream").
    change (decode_utf8 (dict_get "user-agent" [("accept", "text/event-stream");
                                                ("user-agent", String "233" "")] ""))
      with (@None str).
    cbv iota beta. journal_eq. }
  rewrite (route_exception_is_500 self latin1_agent_scope s
             (UnicodeDecodeError rt (String "233" ""))
             (after (mcp_request_logged s latin1_agent_scope) (world s)
                [Logged server_logger INFO "MCP Request - Method: GET";
                 Logged server_logger INFO
                   ("MCP Request - Headers: "
                    ++ repr_headers rt [("accept", "text/event-stream");
                                        ("user-agent", String "233" "")])])
             eq_refl eq_refl).
  - unfold mcp_request_logged. journal_eq.
  - rewrite (route_http_mcp_logged self latin1_agent_scope s eq_refl).
    unfold bind. now rewrite Hfwd.
Qed.

(** Whatever the session manager does with it, the scope [mcp_app]
    prepared is the one it was handed. *)
Lemma mcp_app_forwards self scope s scope' s1 :
  scope_type scope = "http" ->
  is_mcp_path (get (scope_path scope) "") = true ->
  forwarded_scope rt scope (mcp_request_logged s scope) = (Returned scope', s1) ->
  exists post,
    journal (snd (mcp_app rt self scope s))
    = (journal s1 ++ Called (session_manager_handle_request scope') :: post)%list
    /\ forall c, ~ In (Called c) post.
Proof.
  intros Htype Hpath Hfwd.
  rewrite (mcp_app_http _ _ _ Htype). unfold try_except.
  rewrite (route_http_mcp_logged _ _ _ Hpath). unfold bind at 1. rewrite Hfwd.
  unfold await.
  destruct (handle_request (server self) scope' (world s1)) as [[[]|e] w].
  - exists []. split; [reflexivity | intros c []].
  - destruct (isinstance_Exception e).
    + run.
      exists [Logged server_logger ERROR
                ("Error handling request for " ++ get (scope_path scope) "" ++ ": "
                 ++ exc_str e);
              Logged server_logger ERROR (format_exc rt e);
              Responded 500 "Internal Server Error"].
      split.
      * cbn [snd journal]. rewrite <- !app_assoc. reflexivity.
      * intros c [H|[H|[H|[]]]]; discriminate.
    + exists []. split; [reflexivity | intros c []].
Qed.



Lemma dict_get_add_json headers (default other : bytes) :
  dict_get "accept" (map add_json headers) default
  = if existsb (fun h => String.eqb (fst h) "accept") headers
    then dict_get "accept" headers other ++ ", application/json"
    else default.
Proof.
  revert default other.
  induction headers as [|[name value] rest IH]; intros default other.
  - reflexivity.
  - cbn [map existsb dict_get fst]. unfold add_json at 1. cbn [fst snd].
    destruct (String.eqb name "accept") eqn:Hname; cbn [orb fst snd dict_get].
    + rewrite Hname, (IH _ value).
      destruct (existsb (fun h => String.eqb (fst h) "accept") rest) eqn:E.
      * reflexivity.
      * now rewrite (dict_get_absent _ _ _ E).
    + rewrite Hname. apply IH.
Qed.

(** The statement of C3 where every value decoded is UTF-8: a GET
    request under [/mcp] whose [Accept] value contains
    [text/event-stream] and not [application/json] is forwarded with an
    [Accept] value that contains both; one whose [Accept] value contains
    both is forwarded as it came. *)
Theorem accept_rewrite_when_decodable self scope s :
  scope_type scope = "http" ->
  is_mcp_path (get (scope_path scope) "") = true ->
  scope_method scope = Some "GET" ->
  accept_decodable (get (scope_headers scope) []) = true ->
  utf8_valid (user_agent_of scope) = true ->
  (contains "text/event-stream" (accept_of scope) = true ->
   contains "application/json" (accept_of scope) = false ->
   exists scope',
     In (Called (session_manager_handle_request scope'))
        (journal (snd (mcp_app rt self scope s)))
     /\ contains "text/event-stream" (accept_of scope') = true
     /\ contains "application/json" (accept_of scope') = true)
  /\ (contains "text/event-stream" (accept_of scope) = true ->
      contains "application/json" (accept_of scope) = true ->
      In (Called (session_manager_handle_request scope))
         (journal (snd (mcp_app rt self scope s)))).
Proof.
  intros Htype Hpath Hmethod Hdec Hua. split.
  - intros Hes Hjson.
    assert (Hwant : wants_rewrite (accept_of scope) = true).
    { unfold wants_rewrite. now rewrite Hes, Hjson. }
    exists (set_headers scope (map add_json (get (scope_headers scope) []))).
    split; [|split].
    + destruct (mcp_app_forwards self scope s _ _ Htype Hpath
                  (forwarded_scope_rewritten scope _ Hmethod Hdec Hua Hwant))
        as (post & Hj & _).
      rewrite Hj. apply in_or_app. right. now left.
    + unfold accept_of at 1. cbn [set_headers scope_headers get].
      rewrite (dict_get_add_json _ _ ""), (wants_rewrite_has_accept _ Hwant).
      now apply contains_append_l.
    + unfold accept_of at 1. cbn [set_headers scope_headers get].
      rewrite (dict_get_add_json _ _ ""), (wants_rewrite_has_accept _ Hwant).
      now apply contains_append_r.
  - intros Hes Hjson.
    assert (Hwant : wants_rewrite (accept_of scope) = false).
    { unfold wants_rewrite. now rewrite Hes, Hjson. }
    destruct (mcp_app_forwards self scope s _ _ Htype Hpath
                (forwarded_scope_unchanged scope _ Hmethod
                   (accept_decodable_lookup _ "" Hdec eq_refl) Hua Hwant))
      as (post & Hj & _).
    rewrite Hj. apply in_or_app. right. now left.
Qed.

End Bridge.

Lemma unregistered_path_is_404_witness :
  mcp_app sample_runtime quiet_server nope_scope initial_state
  = (Returned tt,
     mkState tt
       [Logged server_logger INFO "Received request for path: /nope";
        Logged server_logger INFO "Path not found: /nope";
        Responded 404 "Not Found"]).
Proof.
  exact (unregistered_path_is_404 sample_runtime quiet_server nope_scope initial_state
           eq_refl eq_refl eq_refl).
Defined.


Lemma accept_rewrite_when_decodable_witness :
  exists scope',
    In (Called (session_manager_handle_request scope'))
       (journal (snd (mcp_app sample_runtime quiet_server event_stream_scope
                        initial_state)))
    /\ contains "text/event-stream" (accept_of scope') = true
    /\ contains "application/json" (accept_of scope') = true.
Proof.
  exact (proj1 (accept_rewrite_when_decodable sample_runtime quiet_server
                  event_stream_scope initial_state
                  eq_refl eq_refl eq_refl eq_refl eq_refl)
           eq_refl eq_refl).
Defined.


(** ** Startup and shutdown *)

Section Lifecycle.

Context {W Resource Tool Prompt : Type}.
Variable rt : Runtime.
Implicit Types (self : @DorisServer W Resource Tool Prompt) (s : @state W).
Implicit Types (e : BaseException) (w : W).

Lemma log_members_run (members : list (str * str)) :
  forall i s,
  exists logs,
    @log_members W i members s = (Returned tt, after s (world s) logs)
    /\ calls_in logs = [].
Proof.
  induction members as [|[name message] rest IH]; intros i s.
  - exists []. split; [|reflexivity]. unfold after. rewrite app_nil_r.
    now destruct s.
  - cbn [log_members]. run.
    destruct (IH (S i) (after s (world s)
                          [Logged server_logger ERROR
                             ("  Exception " ++ str_of_nat (i + 1) ++ ": " ++ name
                              ++ ": " ++ message)])) as (logs & Hrun & Hlogs).
    unfold after in Hrun at 1. cbn [world journal] in Hrun. rewrite Hrun.
    eexists. rewrite after_after. split; [reflexivity|]. exact Hlogs.
Qed.

Lemma log_exception_group_run e s :
  exists logs,
    @log_exception_group W e s = (Returned tt, after s (world s) logs)
    /\ calls_in logs = [].
Proof.
  unfold log_exception_group. destruct (exc_exceptions e) as [members|].
  - run.
    destruct (log_members_run members 0
                (after s (world s)
                   [Logged server_logger ERROR
                      ("ExceptionGroup contains " ++ str_of_nat (List.length members)
                       ++ " exceptions:")])) as (logs & Hrun & Hlogs).
    unfold after in Hrun at 1. cbn [world journal] in Hrun. rewrite Hrun.
    eexists. rewrite after_after. split; [reflexivity|]. exact Hlogs.
  - exists []. split; [|reflexivity]. unfold ret, after. rewrite app_nil_r.
    now destruct s.
Qed.

(** What the [try] body of [start_http] does: its calls are the first
    [n >= 1] calls of a complete run; when [initialize] raises, it is
    the only call and its exception is the outcome. *)
Lemma start_http_body_calls self host port s :
  exists r events w n,
    start_http_body self host port s = (r, after s w events)
    /\ calls_in events = firstn n (http_calls host port)
    /\ 1 <= n
    /\ (forall e w', initialize (connection_manager self) (world s) = (Raised e, w') ->
        r = Raised e /\ n = 1).
Proof.
  unfold start_http_body. run.
  destruct (initialize (connection_manager self) (world s)) as [[[]|e0] w0];
    cbn [world journal].
  2:{ exists (Raised e0), [Called connection_initialize], w0, 1.
      split; [reflexivity|]. split; [reflexivity|]. split; [lia|].
      intros e w' [= <- <-]. split; reflexivity. }
  destruct (session_run_aenter (server self) w0) as [[[]|e1] w1];
    cbn [world journal].
  2:{ eexists _, _, w1, 3. split; [journal_eq|].
      split; [reflexivity|]. split; [lia|]. intros e w' [=]. }
  destruct (serve (server self) w1) as [[[]|e2] w2]; cbn [world journal].
  - destruct (session_run_aexit (server self) None w2) as [[b|e3] w3];
      cbn [world journal];
      (eexists _, _, w3, 5; split; [journal_eq|];
       split; [reflexivity|]; split; [lia|]; intros e w' [=]).
  - destruct (session_run_aexit (server self) (Some e2) w2) as [[[|]|e3] w3];
      cbn [world journal];
      (eexists _, _, w3, 5; split; [journal_eq|];
       split; [reflexivity|]; split; [lia|]; intros e w' [=]).
Qed.

(** The [except] clause of [start_http]: it logs and raises again. *)
Lemma start_http_handler_run e s :
  exists logs,
    bind (self_logger_error ("Streamable HTTP server startup failed: " ++ exc_str e))
      (fun _ =>
         bind (self_logger_error "Complete error stack:")
           (fun _ =>
              bind (self_logger_error (format_exc rt e))
                (fun _ => bind (log_exception_group e) (fun _ => raise e)))) s
    = (@Raised unit e, after s (world s) logs)
    /\ calls_in logs = [].
Proof.
  run.
  destruct (log_exception_group_run e
              (after s (world s)
                 [Logged server_logger ERROR
                    ("Streamable HTTP server startup failed: " ++ exc_str e);
                  Logged server_logger ERROR "Complete error stack:";
                  Logged server_logger ERROR (format_exc rt e)]))
    as (logs & Hrun & Hlogs).
  unfold after in Hrun at 1. cbn [world journal] in Hrun.
  rewrite <- !app_assoc. cbn [app]. rewrite Hrun.
  eexists. rewrite after_after. split; [reflexivity|]. exact Hlogs.
Qed.

Lemma start_http_eq self host port s :
  start_http rt self host port s
  = try_except (start_http_body self host port) isinstance_Exception
      (fun e =>
         bind (self_logger_error
                 ("Streamable HTTP server startup failed: " ++ exc_str e))
           (fun _ =>
              bind (self_logger_error "Complete error stack:")
                (fun _ =>
                   bind (self_logger_error (format_exc rt e))
                     (fun _ => bind (log_exception_group e) (fun _ => raise e)))))
      (after s (world s)
         [Logged server_logger INFO
            ("Starting Doris MCP Server (Streamable HTTP mode) - "
             ++ host ++ ":" ++ str_of_int port)]).
Proof. reflexivity. Qed.

(** C4.  In every run of [start_http] the collaborator calls are
    [initialize()] of the connection manager followed by the first few
    of: creating the session manager, entering its [run()] scope, serving
    the listener, leaving the scope.  So [initialize()] is calls_in
    exactly once, before the scope is entered and before the listener
    is served.  When [initialize()] raises, it is the only call (the
    listener is never started) and its exception comes out of
    [start_http]. *)
Theorem start_http_initializes_first self host port s :
  exists events m,
    journal (snd (start_http rt self host port s)) = (journal s ++ events)%list
    /\ calls_in events
       = connection_initialize
         :: firstn m [session_manager_new true false; session_manager_run_enter;
                      uvicorn_serve host port; session_manager_run_exit]
    /\ (forall e w, initialize (connection_manager self) (world s) = (Raised e, w) ->
        fst (start_http rt self host port s) = Raised e
        /\ calls_in events = [connection_initialize]).
Proof.
  rewrite start_http_eq. unfold try_except.
  set (s0 := after s (world s)
               [Logged server_logger INFO
                  ("Starting Doris MCP Server (Streamable HTTP mode) - "
                   ++ host ++ ":" ++ str_of_int port)]).
  destruct (start_http_body_calls self host port s0)
    as (r & events & w & n & Hbody & Hcalls & Hn & Hinit).
  rewrite Hbody.
  assert (Hshape : calls_in events
                   = connection_initialize
                     :: firstn (n - 1)
                          [session_manager_new true false; session_manager_run_enter;
                           uvicorn_serve host port; session_manager_run_exit]).
  { rewrite Hcalls. destruct n as [|n]; [lia|].
    cbn [http_calls firstn]. now replace (S n - 1) with n by lia. }
  destruct r as [[]|e].
  - eexists _, (n - 1). split; [|split].
    + cbn [snd]. unfold s0, after. cbn [journal world]. rewrite <- ?app_assoc. reflexivity.
    + cbn [app calls_in]. exact Hshape.
    + intros e w' He. destruct (Hinit e w' He) as [[=] _].
  - destruct (isinstance_Exception e).
    + destruct (start_http_handler_run e (after s0 w events)) as (logs & Hrun & Hlogs).
      rewrite Hrun.
      eexists _, (n - 1). split; [|split].
      * cbn [snd]. unfold s0, after. cbn [journal world].
        rewrite <- ?app_assoc. reflexivity.
      * cbn [app calls_in]. rewrite calls_in_app, Hlogs, app_nil_r. exact Hshape.
      * intros e' w' He. destruct (Hinit e' w' He) as [[= ->] ->]. split; [reflexivity|].
        cbn [app calls_in]. rewrite calls_in_app, Hlogs, app_nil_r, Hcalls. reflexivity.
    + eexists _, (n - 1). split; [|split].
      * cbn [snd]. unfold s0, after. cbn [journal world]. rewrite <- ?app_assoc. reflexivity.
      * cbn [app calls_in]. exact Hshape.
      * intros e' w' He. destruct (Hinit e' w' He) as [[= ->] ->]. split; [reflexivity|].
        cbn [app calls_in]. rewrite Hcalls. reflexivity.
Qed.

End Lifecycle.

Lemma start_http_initializes_first_witness :
  fst (start_http sample_runtime failing_server "localhost" 3000 initial_state)
  = Raised boom
  /\ calls_in (journal (snd (start_http sample_runtime failing_server "localhost" 3000
                              initial_state)))
     = [connection_initialize].
Proof.
  destruct (start_http_initializes_first sample_runtime failing_server "localhost"
              3000 initial_state) as (events & m & Hjournal & _ & Hinit).
  destruct (Hinit boom tt eq_refl) as [Hraised Hcalls].
  split; [exact Hraised|]. rewrite Hjournal. exact Hcalls.
Defined.

(** ** The stdio transport *)

Section Stdio.

Context {W Resource Tool Prompt : Type}.
Variable rt : Runtime.
Variable pkg : @Package W Resource Tool Prompt.
Implicit Types (self : @DorisServer W Resource Tool Prompt) (s : @state W).
Implicit Types (e : BaseException) (w : W).

Lemma never_initializes_ret {A : Type} (a : A) : never_initializes (@ret W A a).
Proof.
  intros s. exists (Returned a), (world s), []. split; [|intros []].
  unfold ret. now rewrite after_nil.
Qed.

Lemma never_initializes_raise {A : Type} e : never_initializes (@raise W A e).
Proof.
  intros s. exists (Raised e), (world s), []. split; [|intros []].
  unfold raise. now rewrite after_nil.
Qed.

Lemma never_initializes_log (logger : logger_name) (level : log_level) (message : str) :
  never_initializes (@emit W (Logged logger level message)).
Proof.
  intros s. exists (Returned tt), (world s), [Logged logger level message].
  split; [reflexivity | intros []].
Qed.

Lemma never_initializes_await {A : Type} (c : call) (f : @action W A) :
  c <> connection_initialize -> never_initializes (await c f).
Proof.
  intros Hc s. unfold await.
  destruct (f (world s)) as [r w]. exists r, w, [Called c]. split; [reflexivity|].
  intros [H|[]]. now apply Hc.
Qed.

Lemma never_initializes_bind {A B : Type} (m : @M W A) (k : A -> M B) :
  never_initializes m -> (forall a, never_initializes (k a)) ->
  never_initializes (bind m k).
Proof.
  intros Hm Hk s. destruct (Hm s) as (r & w & events & Hrun & Hnone).
  unfold bind. rewrite Hrun. destruct r as [a|e].
  - destruct (Hk a (after s w events)) as (r' & w' & events' & Hrun' & Hnone').
    rewrite Hrun'. exists r', w', (events ++ events')%list. split.
    + unfold after. cbn [world journal]. now rewrite <- app_assoc.
    + rewrite calls_in_app. intros H. apply in_app_or in H as [H|H]; auto.
  - exists (Raised e), w, events. split; [reflexivity | assumption].
Qed.

Lemma never_initializes_try_except {A : Type} (body : @M W A)
    (caught : BaseException -> bool) (handler : BaseException -> M A) :
  never_initializes body -> (forall e, never_initializes (handler e)) ->
  never_initializes (try_except body caught handler).
Proof.
  intros Hbody Hhandler s. destruct (Hbody s) as (r & w & events & Hrun & Hnone).
  unfold try_except. rewrite Hrun. destruct r as [a|e].
  - exists (Returned a), w, events. split; [reflexivity | assumption].
  - destruct (caught e).
    + destruct (Hhandler e (after s w events)) as (r' & w' & events' & Hrun' & Hnone').
      rewrite Hrun'. exists r', w', (events ++ events')%list. split.
      * unfold after. cbn [world journal]. now rewrite <- app_assoc.
      * rewrite calls_in_app. intros H. apply in_app_or in H as [H|H]; auto.
    + exists (Raised e), w, events. split; [reflexivity | assumption].
Qed.

Lemma never_initializes_async_with (enter exit : call) (aenter : @action W unit)
    (aexit : option BaseException -> action bool) (body : M unit) :
  enter <> connection_initialize -> exit <> connection_initialize ->
  never_initializes body ->
  never_initializes (async_with enter exit aenter aexit body).
Proof.
  intros Henter Hexit Hbody. unfold async_with.
  apply never_initializes_bind; [now apply never_initializes_await|].
  intros _ s. destruct (Hbody s) as (r & w & events & Hrun & Hnone).
  rewrite Hrun. destruct r as [a|e].
  - destruct (never_initializes_bind (await exit (aexit None)) (fun _ => ret tt)
                (never_initializes_await exit (aexit None) Hexit)
                (fun _ => never_initializes_ret tt) (after s w events))
      as (r' & w' & events' & Hrun' & Hnone').
    rewrite Hrun'. exists r', w', (events ++ events')%list. split.
    + unfold after. cbn [world journal]. now rewrite <- app_assoc.
    + rewrite calls_in_app. intros H. apply in_app_or in H as [H|H]; auto.
  - destruct (never_initializes_bind (await exit (aexit (Some e)))
                (fun swallowed : bool => if swallowed then ret tt else raise e)
                (never_initializes_await exit (aexit (Some e)) Hexit)
                (fun b => match b with
                          | true => never_initializes_ret tt
                          | false => never_initializes_raise e
                          end) (after s w events))
      as (r' & w' & events' & Hrun' & Hnone').
    rewrite Hrun'. exists r', w', (events ++ events')%list. split.
    + unfold after. cbn [world journal]. now rewrite <- app_assoc.
    + rewrite calls_in_app. intros H. apply in_app_or in H as [H|H]; auto.
Qed.

Lemma never_initializes_log_members (members : list (str * str)) :
  forall i, never_initializes (@log_members W i members).
Proof.
  induction members as [|[name message] rest IH]; intros i.
  - apply never_initializes_ret.
  - cbn [log_members]. apply never_initializes_bind; [apply never_initializes_log|].
    intros _. apply IH.
Qed.

Lemma never_initializes_log_exception_group e :
  never_initializes (@log_exception_group W e).
Proof.
  unfold log_exception_group. destruct (exc_exceptions e) as [members|].
  - apply never_initializes_bind; [apply never_initializes_log|].
    intros _. apply never_initializes_log_members.
  - apply never_initializes_ret.
Qed.

(** Decompose a coroutine into its parts, none of which calls
    [initialize()]. *)
Ltac never_initializes_by_parts :=
  lazymatch goal with
  | |- never_initializes (emit _) => apply never_initializes_log
  | |- never_initializes (ret _) => apply never_initializes_ret
  | |- never_initializes (raise _) => apply never_initializes_raise
  | |- never_initializes (log_exception_group _) =>
      apply never_initializes_log_exception_group
  | |- never_initializes (await _ _) => apply never_initializes_await; discriminate
  | |- never_initializes (async_with _ _ _ _ _) =>
      apply never_initializes_async_with;
      [discriminate | discriminate | never_initializes_by_parts]
  | |- never_initializes (try_except _ _ _) =>
      apply never_initializes_try_except;
      [never_initializes_by_parts | intros ?; never_initializes_by_parts]
  | |- never_initializes (bind _ _) =>
      apply never_initializes_bind;
      [never_initializes_by_parts | intros ?; never_initializes_by_parts]
  end.

(** The server on the stdio streams never calls [initialize()]. *)
Lemma start_stdio_session_never_initializes self :
  never_initializes (start_stdio_session rt pkg self).
Proof.
  unfold start_stdio_session, self_logger_info, self_logger_error. cbv zeta.
  never_initializes_by_parts.
Qed.

Lemma start_stdio_eq self s :
  start_stdio rt pkg self s
  = try_except
      (bind (await connection_initialize (initialize (connection_manager self)))
         (fun _ =>
            bind (self_logger_info "Connection manager initialization completed")
              (fun _ =>
                 bind (self_logger_info "Creating stdio_server transport...")
                   (fun _ => start_stdio_session rt pkg self))))
      isinstance_Exception
      (fun e =>
         bind (self_logger_error ("stdio server startup failed: " ++ exc_str e))
           (fun _ =>
              bind (self_logger_error ("Error type: " ++ type_repr e))
                (fun _ => raise e)))
      (after s (world s)
         [Logged server_logger INFO "Starting Doris MCP Server (stdio mode)"]).
Proof. reflexivity. Qed.

(** What a run of [start_stdio] does. *)
Lemma start_stdio_run self s :
  exists r w events rest,
    start_stdio rt pkg self s = (r, after s w events)
    /\ calls_in events = connection_initialize :: rest
    /\ ~ In connection_initialize rest
    /\ (forall e w', initialize (connection_manager self) (world s) = (Raised e, w') ->
        r = Raised e /\ rest = []).
Proof.
  rewrite start_stdio_eq. unfold try_except.
  destruct (initialize (connection_manager self) (world s)) as [[[]|e0] w0] eqn:Hinit.
  - match goal with
    | |- context [bind (await connection_initialize ?f) ?k ?st] =>
        rewrite (bind_returned _ k st _ _ (await_run connection_initialize f st _ _ Hinit))
    end.
    unfold self_logger_info.
    rewrite (bind_returned _ _ _ _ _ (log_run _ _ _)).
    rewrite (bind_returned _ _ _ _ _ (log_run _ _ _)).
    rewrite !after_after.
    match goal with
    | |- context [start_stdio_session rt pkg self ?st] =>
        destruct (start_stdio_session_never_initializes self st)
          as (r & w & events & Hrun & Hnone)
    end.
    rewrite Hrun.
    destruct r as [[]|e]; [|destruct (isinstance_Exception e)]; run.
    all: eexists _, _, _, (calls_in events); split;
      [unfold after; cbn [journal world]; rewrite <- ?app_assoc; reflexivity|];
      split; [cbn [app calls_in]; rewrite ?calls_in_app; cbn [calls_in];
              rewrite ?app_nil_r; reflexivity|];
      split; [assumption|]; intros e1 w1 [=].
  - match goal with
    | |- context [bind (await connection_initialize ?f) ?k ?st] =>
        rewrite (bind_raised _ k st _ _ (await_run connection_initialize f st _ _ Hinit))
    end.
    destruct (isinstance_Exception e0); run.
    all: eexists _, _, _, []; split;
      [unfold after; cbn [journal world]; rewrite <- ?app_assoc; reflexivity|];
      split; [reflexivity|]; split; [intros []|];
      intros e1 w1 [= <- <-]; split; reflexivity.
Qed.

(** In every run of [start_stdio] the connection manager's
    [initialize()] is the first call and is made exactly once; when it
    raises, it is the only call and its exception comes out of
    [start_stdio]. *)
Theorem start_stdio_initializes_first self s :
  exists events rest,
    journal (snd (start_stdio rt pkg self s)) = (journal s ++ events)%list
    /\ calls_in events = connection_initialize :: rest
    /\ ~ In connection_initialize rest
    /\ (forall e w, initialize (connection_manager self) (world s) = (Raised e, w) ->
        fst (start_stdio rt pkg self s) = Raised e /\ rest = []).
Proof.
  destruct (start_stdio_run self s) as (r & w & events & rest & Hrun & Hcalls & Hnone & Hinit).
  exists events, rest. rewrite Hrun.
  split; [reflexivity|]. split; [exact Hcalls|]. split; [exact Hnone|].
  intros e w' Hraised. exact (Hinit e w' Hraised).
Qed.

End Stdio.

Lemma start_stdio_initializes_first_witness :
  fst (start_stdio sample_runtime
         (sample_package sample_default_config quiet_libraries) failing_server
         initial_state)
  = Raised boom.
Proof.
  destruct (start_stdio_initializes_first sample_runtime
              (sample_package sample_default_config quiet_libraries) failing_server
              initial_state) as (events & rest & _ & _ & _ & Hinit).
  exact (proj1 (Hinit boom tt eq_refl)).
Defined.

Section Shutdown.

Context {W Resource Tool Prompt : Type}.
Variable rt : Runtime.
Variable pkg : @Package W Resource Tool Prompt.
Implicit Types (self : @DorisServer W Resource Tool Prompt) (s : @state W).
Implicit Types (e : BaseException) (w : W).

Lemma shutdown_closed self s w :
  close (connection_manager self) (world s) = (Returned tt, w) ->
  shutdown self s
  = (Returned tt,
     after s w
       [Logged server_logger INFO "Shutting down Doris MCP Server";
        Called connection_close;
        Logged server_logger INFO "Doris MCP Server has been shut down"]).
Proof. intros Hclose. unfold shutdown. run. rewrite Hclose. journal_eq. Qed.

Lemma shutdown_close_raised self s e w :
  isinstance_Exception e = true ->
  close (connection_manager self) (world s) = (Raised e, w) ->
  shutdown self s
  = (Returned tt,
     after s w
       [Logged server_logger INFO "Shutting down Doris MCP Server";
        Called connection_close;
        Logged server_logger ERROR
          ("Error occurred while shutting down server: " ++ exc_str e)]).
Proof. intros He Hclose. unfold shutdown. run. rewrite Hclose, He. journal_eq. Qed.

(** [shutdown] under a connection manager that raises only instances
    of [Exception]: it returns, having called [close()] once. *)
Lemma shutdown_run self s :
  raises_only_Exception (close (connection_manager self)) ->
  exists w events,
    shutdown self s = (Returned tt, after s w events)
    /\ calls_in events = [connection_close].
Proof.
  intros Honly.
  destruct (close (connection_manager self) (world s)) as [[[]|e] w] eqn:Hclose.
  - eexists _, _. split; [apply (shutdown_closed _ _ _ Hclose) | reflexivity].
  - eexists _, _. split.
    + apply (shutdown_close_raised _ _ _ _ (Honly _ _ _ Hclose) Hclose).
    + reflexivity.
Qed.


(** C6.  [shutdown] does not propagate an exception: a failure of the
    connection manager's [close()] (an instance of [Exception]) is
    caught and logged, and [shutdown] returns; called a second time
    right after, it returns again. *)
Theorem shutdown_never_propagates self s :
  raises_only_Exception (close (connection_manager self)) ->
  fst (shutdown self s) = Returned tt
  /\ fst (bind (shutdown self) (fun _ => shutdown self) s) = Returned tt
  /\ (forall e w,
        close (connection_manager self) (world s) = (Raised e, w) ->
        shutdown self s
        = (Returned tt,
           after s w
             [Logged server_logger INFO "Shutting down Doris MCP Server";
              Called connection_close;
              Logged server_logger ERROR
                ("Error occurred while shutting down server: " ++ exc_str e)])).
Proof.
  intros Honly. split; [|split].
  - destruct (shutdown_run self s Honly) as (w & events & Hrun & _). now rewrite Hrun.
  - destruct (shutdown_run self s Honly) as (w & events & Hrun & _).
    unfold bind. rewrite Hrun.
    destruct (shutdown_run self (after s w events) Honly) as (w' & events' & Hrun' & _).
    now rewrite Hrun'.
  - intros e w Hclose.
    apply (shutdown_close_raised _ _ _ _ (Honly _ _ _ Hclose) Hclose).
Qed.

(** A failure of [close()] that is not an instance of [Exception] is
    not caught. *)
Lemma shutdown_lets_through self s e w :
  isinstance_Exception e = false ->
  close (connection_manager self) (world s) = (Raised e, w) ->
  fst (shutdown self s) = Raised e.
Proof. intros He Hclose. unfold shutdown. run. now rewrite Hclose, He. Qed.

End Shutdown.

Lemma raising_only_Exception (A : Type) : raises_only_Exception (@raising A).
Proof. intros w e w' [= <- _]. reflexivity. Qed.

Lemma shutdown_never_propagates_witness :
  fst (shutdown failing_server initial_state) = Returned tt
  /\ fst (bind (shutdown failing_server) (fun _ => shutdown failing_server)
            initial_state) = Returned tt
  /\ shutdown failing_server initial_state
     = (Returned tt,
        mkState tt
          [Logged server_logger INFO "Shutting down Doris MCP Server";
           Called connection_close;
           Logged server_logger ERROR
             "Error occurred while shutting down server: boom"]).
Proof.
  destruct (shutdown_never_propagates failing_server initial_state
              (raising_only_Exception unit)) as (H1 & H2 & H3).
  split; [exact H1|]. split; [exact H2|]. exact (H3 boom tt eq_refl).
Defined.

Section Main.

Context {W Resource Tool Prompt : Type}.
Variable rt : Runtime.
Variable pkg : @Package W Resource Tool Prompt.
Implicit Types (self : @DorisServer W Resource Tool Prompt) (s : @state W).
Implicit Types (e : BaseException) (w : W).

(** Parsing the command line touches neither the collaborators nor the
    journal. *)
Lemma parse_args_state parser cli s :
  @parse_args W rt parser cli s = (fst (parse_args rt parser cli s), s).
Proof.
  unfold parse_args, bind, lift, ret.
  repeat match goal with
         | |- context [match ?o with Returned _ => _ | Raised _ => _ end] =>
             destruct o
         end; reflexivity.
Qed.

Lemma main_eq cli s args :
  fst (parse_args rt (create_arg_parser rt pkg) cli s) = Returned args ->
  set_root_level rt (args_log_level args) = None ->
  main rt pkg cli s
  = serve_transport rt pkg
      (DorisServer_init pkg (override_config pkg args (from_env pkg))) args s.
Proof.
  intros Hparse Hlevel. unfold main, bind.
  rewrite parse_args_state, Hparse, Hlevel. reflexivity.
Qed.

(** The [if] statement inside the [try] of [main]. *)
Lemma serve_transport_eq self args s :
  serve_transport rt pkg self args s
  = bind
      (try_finally
         (try_except2
            match selected_start rt pkg self args with
            | Some start => bind start (fun _ => ret None)
            | None =>
                bind (logger_error
                        ("Unsupported transport protocol: " ++ args_transport args))
                  (fun _ => bind (shutdown self) (fun _ => ret (Some 1%Z)))
            end
            isinstance_KeyboardInterrupt
            (fun _ =>
               bind (logger_info "Received interrupt signal, shutting down server...")
                 (fun _ => ret None))
            isinstance_Exception
            (fun e =>
               bind (logger_error ("Server runtime error: " ++ exc_str e))
                 (fun _ => bind (guarded_shutdown self) (fun _ => ret (Some 1%Z)))))
         (guarded_shutdown self))
      (fun returned =>
         match returned with
         | Some code => ret code
         | None => ret 0%Z
         end) s.
Proof.
  unfold serve_transport, selected_start.
  destruct (String.eqb (args_transport args) "stdio"); [reflexivity|].
  destruct (String.eqb (args_transport args) "http"); reflexivity.
Qed.




End Main.



Section Configuration.

Context {W Resource Tool Prompt : Type}.
Variable rt : Runtime.
Variable pkg : @Package W Resource Tool Prompt.
Implicit Types (s : @state W).

(** What [args.db_host] is after parsing. *)
Lemma parse_args_db_host cli s args :
  fst (parse_args rt (create_arg_parser rt pkg) cli s) = Returned args ->
  args_db_host args
  = match cli_db_host cli with
    | Some v => v
    | None => getenv_or rt "DB_HOST" (host (database (_default_config pkg)))
    end.
Proof.
  unfold parse_args, bind, lift, ret. intros H.
  repeat match type of H with
         | context [match ?o with Returned _ => _ | Raised _ => _ end] =>
             let E := fresh "E" in destruct o eqn:E
         end;
    cbn [fst] in H; try discriminate.
  injection H as <-. cbn [args_db_host].
  match goal with
  | E : str_option (cli_db_host cli) None _ = Returned ?v |- _ =>
      unfold str_option in E; destruct (cli_db_host cli); now injection E as <-
  end.
Qed.

(** The database host the server is configured with: the value in
    [args] when it differs from the built-in default, and otherwise the
    value [from_env] loaded. *)
Lemma db_host_resolution cli s args :
  fst (parse_args rt (create_arg_parser rt pkg) cli s) = Returned args ->
  host (database (config (DorisServer_init pkg
                            (override_config pkg args (from_env pkg)))))
  = let given :=
      match cli_db_host cli with
      | Some v => v
      | None => getenv_or rt "DB_HOST" (host (database (_default_config pkg)))
      end in
    if String.eqb given (host (database (_default_config pkg)))
    then host (database (from_env pkg))
    else given.
Proof.
  intros Hparse. cbn [DorisServer_init config override_config database host].
  rewrite (parse_args_db_host _ _ _ Hparse). cbv zeta.
  now destruct (String.eqb _ (host (database (_default_config pkg)))).
Qed.

End Configuration.

Lemma db_host_resolution_witness :
  exists args,
    fst (parse_args production_runtime
           (create_arg_parser production_runtime production_package)
           localhost_command_line initial_state) = Returned args
    /\ host (database (config (DorisServer_init production_package
                                 (override_config production_package args
                                    (from_env production_package)))))
       = "prod-db".
Proof.
  eexists. split; [reflexivity|].
  exact (db_host_resolution production_runtime production_package
           localhost_command_line initial_state _ eq_refl).
Defined.

(** C5, on a command line that repeats the built-in default.  With the
    built-in default [localhost] and [prod-db] in the environment and
    the [.env] file, the command line [--db-host localhost] is parsed as
    given, and the server is configured with [prod-db]: a command-line
    value equal to the built-in default does not take precedence over
    the environment. *)
Theorem command_line_default_loses_to_environment :
  exists args,
    fst (parse_args production_runtime
           (create_arg_parser production_runtime production_package)
           localhost_command_line initial_state) = Returned args
    /\ cli_db_host localhost_command_line = Some "localhost"
    /\ args_db_host args = "localhost"
    /\ host (database (config (DorisServer_init production_package
                                 (override_config production_package args
                                    (from_env production_package)))))
       = "prod-db".
Proof. eexists. repeat split. Qed.

(** ** The operation dispatcher: calls and the text of an envelope *)

Lemma escape_char_plain (c : ascii) : plain c = true -> escape_char c = String c "".
Proof.
  unfold plain, escape_char. intros H.
  apply andb_true_iff in H as [H Hprint]. apply andb_true_iff in H as [Hq Hb].
  apply negb_true_iff in Hq, Hb. rewrite Hq, Hb.
  apply N.leb_le in Hprint.
  assert (Hcontrol : forall k : ascii, (octet k < 32)%N -> Ascii.eqb c k = false).
  { intros k Hk. apply Ascii.eqb_neq. intros ->. lia. }
  rewrite !Hcontrol by (vm_compute; reflexivity).
  replace (octet c <? 32)%N with false; [reflexivity|].
  symmetry. apply N.ltb_ge. exact Hprint.
Qed.

Lemma escape_plain (s : str) : all_plain s = true -> escape s = s.
Proof.
  induction s as [|c r IH]; intros H; [reflexivity|].
  cbn [all_plain] in H. apply andb_true_iff in H as [Hc Hr].
  cbn [escape]. rewrite (escape_char_plain c Hc), (IH Hr). reflexivity.
Qed.

Lemma all_plain_append (a b : str) :
  all_plain a = true -> all_plain b = true -> all_plain (a ++ b) = true.
Proof.
  induction a as [|c r IH]; intros Ha Hb; [exact Hb|].
  cbn [all_plain append] in Ha |- *. apply andb_true_iff in Ha as [Hc Hr].
  rewrite Hc. now apply IH.
Qed.

Lemma encode_basestring_plain (s : str) :
  all_plain s = true -> encode_basestring s = quoted s.
Proof. intros H. unfold encode_basestring, quoted. now rewrite (escape_plain s H). Qed.

Section Dispatch.

Context {W Resource Tool Prompt : Type}.
Implicit Types (self : @DorisServer W Resource Tool Prompt) (s : @state W).
Implicit Types (e : BaseException) (w : W).

(** Whatever its collaborator does (return, raise an instance of
    [Exception], raise anything else), each handler awaits it exactly
    once, calls nothing else, and leaves the outside world as the
    collaborator left it. *)
Theorem handlers_call_their_manager_once self s :
  calls_only resources_list_resources (list_resources (resources_manager self))
    (handle_list_resources self) s
  /\ (forall uri,
        calls_only (resources_read_resource uri)
          (read_resource (resources_manager self) uri)
          (handle_read_resource self uri) s)
  /\ calls_only tools_list_tools (list_tools (tools_manager self))
       (handle_list_tools self) s
  /\ (forall name arguments,
        calls_only (tools_call_tool name arguments)
          (call_tool (tools_manager self) name arguments)
          (handle_call_tool self name arguments) s)
  /\ calls_only prompts_list_prompts (list_prompts (prompts_manager self))
       (handle_list_prompts self) s
  /\ (forall name arguments,
        calls_only (prompts_get_prompt name arguments)
          (get_prompt (prompts_manager self) name arguments)
          (handle_get_prompt self name arguments) s).
Proof.
  repeat split; intros;
    unfold calls_only, handle_list_resources, handle_read_resource, handle_list_tools,
      handle_call_tool, handle_list_prompts, handle_get_prompt;
    run;
    match goal with
    | |- context [let (_, _) := ?call (world s) in _] =>
        destruct (call (world s)) as [[a|e] w]; [|destruct (isinstance_Exception e)]
    end;
    cbn [snd world journal];
    (eexists; split; [journal_eq | reflexivity]).
Qed.

(** The text of the envelope of a failed resource read, when neither
    the message of the exception nor the URI has a quote, a backslash or
    a control character: an object on four lines, indented by two
    spaces, in which both texts stand as they are, characters outside
    ASCII included. *)
Theorem read_resource_error_text self s e w uri :
  isinstance_Exception e = true ->
  read_resource (resources_manager self) uri (world s) = (Raised e, w) ->
  all_plain (exc_str e) = true ->
  all_plain uri = true ->
  fst (handle_read_resource self uri s)
  = Returned
      ("{" ++ String newline "  " ++ quoted "error" ++ ": "
       ++ quoted ("Failed to read resource: " ++ exc_str e) ++ ","
       ++ String newline "  " ++ quoted "uri" ++ ": " ++ quoted uri
       ++ String newline "}").
Proof.
  intros He Hcall Hmessage Huri.
  rewrite (handle_read_resource_raised _ _ _ _ _ He Hcall). cbn [fst]. f_equal.
  unfold dumps, read_resource_envelope. cbn [iterencode].
  rewrite (encode_basestring_plain "error" eq_refl).
  rewrite (encode_basestring_plain "uri" eq_refl).
  rewrite (encode_basestring_plain ("Failed to read resource: " ++ exc_str e)
             (all_plain_append "Failed to read resource: " _ eq_refl Hmessage)).
  rewrite (encode_basestring_plain uri Huri).
  change (newline_indent 1) with (String newline "  ").
  change (newline_indent 0) with (String newline "").
  rewrite !append_assoc. reflexivity.
Qed.

End Dispatch.

Lemma read_resource_error_text_witness :
  fst (handle_read_resource chinese_server "doris://tables" initial_state)
  = Returned
      ("{" ++ String newline "  " ++ quoted "error" ++ ": "
       ++ quoted ("Failed to read resource: " ++ exc_str chinese_failure) ++ ","
       ++ String newline "  " ++ quoted "uri" ++ ": " ++ quoted "doris://tables"
       ++ String newline "}").
Proof.
  exact (read_resource_error_text chinese_server initial_state chinese_failure tt
           "doris://tables" eq_refl eq_refl eq_refl eq_refl).
Defined.

(** ** The HTTP bridge: routing and header decoding *)

Lemma responses_in_app (a b : list event) :
  responses_in (a ++ b)%list = (responses_in a ++ responses_in b)%list.
Proof.
  induction a as [|[?|?|? ?] a IH]; simpl; [reflexivity | assumption | assumption |].
  now rewrite IH.
Qed.

(** Two well-formed UTF-8 texts put end to end are well formed. *)
Lemma utf8_valid_append (a b : bytes) :
  utf8_valid a = true -> utf8_valid b = true -> utf8_valid (a ++ b) = true.
Proof.
  intros Ha Hb.
  assert (H : forall n a, String.length a <= n ->
                          utf8_valid a = true -> utf8_valid (a ++ b) = true).
  { clear a Ha. induction n as [|n IH]; intros a Hlen Ha.
    - destruct a; [exact Hb | cbn [String.length] in Hlen; lia].
    - destruct a as [|c0 r0]; [exact Hb|].
      cbn [String.length] in Hlen.
      cbn [append utf8_valid] in Ha |- *.
      destruct (in_range 0 127 c0); [apply IH; [lia | exact Ha]|].
      destruct r0 as [|c1 r1]; [discriminate|].
      cbn [String.length] in Hlen.
      cbn [append utf8_valid] in Ha |- *.
      destruct (in_range 194 223 c0).
      { apply andb_true_iff in Ha as [H1 H2]. rewrite H1. apply IH; [lia | exact H2]. }
      destruct r1 as [|c2 r2]; [discriminate|].
      cbn [String.length] in Hlen.
      cbn [append utf8_valid] in Ha |- *.
      destruct (in_range 224 224 c0).
      { apply andb_true_iff in Ha as [H1 H2]. rewrite H1. apply IH; [lia | exact H2]. }
      destruct (in_range 225 236 c0 || in_range 238 239 c0).
      { apply andb_true_iff in Ha as [H1 H2]. rewrite H1. apply IH; [lia | exact H2]. }
      destruct (in_range 237 237 c0).
      { apply andb_true_iff in Ha as [H1 H2]. rewrite H1. apply IH; [lia | exact H2]. }
      destruct r2 as [|c3 r3]; [discriminate|].
      cbn [String.length] in Hlen.
      cbn [append utf8_valid] in Ha |- *.
      destruct (in_range 240 240 c0).
      { apply andb_true_iff in Ha as [H1 H2]. rewrite H1. apply IH; [lia | exact H2]. }
      destruct (in_range 241 243 c0).
      { apply andb_true_iff in Ha as [H1 H2]. rewrite H1. apply IH; [lia | exact H2]. }
      destruct (in_range 244 244 c0); [|discriminate].
      apply andb_true_iff in Ha as [H1 H2]. rewrite H1. apply IH; [lia | exact H2]. }
  exact (H (String.length a) a (le_n _) Ha).
Qed.


Section Routing.

Context {W Resource Tool Prompt : Type}.
Variable rt : Runtime.
Implicit Types (self : @DorisServer W Resource Tool Prompt) (s : @state W).
Implicit Types (e : BaseException) (w : W) (scope : Scope).
Implicit Types (headers : list (bytes * bytes)).

(** [mcp_app] on a request under [/mcp] whose scope was prepared: the
    session manager is called, and its outcome is returned, rendered as
    the response 500, or let through. *)
Lemma mcp_app_prepared self scope s scope' s1 :
  scope_type scope = "http" ->
  is_mcp_path (get (scope_path scope) "") = true ->
  forwarded_scope rt scope (mcp_request_logged s scope) = (Returned scope', s1) ->
  mcp_app rt self scope s
  = match handle_request (server self) scope' (world s1) with
    | (Returned _, w) =>
        (Returned tt, after s1 w [Called (session_manager_handle_request scope')])
    | (Raised e, w) =>
        if isinstance_Exception e
        then (Returned tt,
              after s1 w (Called (session_manager_handle_request scope')
                          :: rendered_500 rt scope e))
        else (Raised e, after s1 w [Called (session_manager_handle_request scope')])
    end.
Proof.
  intros Htype Hpath Hfwd.
  rewrite (mcp_app_http _ _ _ _ Htype). unfold try_except.
  rewrite (route_http_mcp_logged _ _ _ _ Hpath). unfold bind at 1. rewrite Hfwd.
  unfold await.
  destruct (handle_request (server self) scope' (world s1)) as [[[]|e] w].
  - reflexivity.
  - destruct (isinstance_Exception e); [|reflexivity].
    run. unfold rendered_500. journal_eq.
Qed.

(** [mcp_app] on a request under [/mcp] whose scope could not be
    prepared. *)
Lemma mcp_app_unprepared self scope s e s1 :
  scope_type scope = "http" ->
  is_mcp_path (get (scope_path scope) "") = true ->
  forwarded_scope rt scope (mcp_request_logged s scope) = (Raised e, s1) ->
  mcp_app rt self scope s
  = if isinstance_Exception e
    then (Returned tt, after s1 (world s1) (rendered_500 rt scope e))
    else (Raised e, s1).
Proof.
  intros Htype Hpath Hfwd.
  rewrite (mcp_app_http _ _ _ _ Htype). unfold try_except.
  rewrite (route_http_mcp_logged _ _ _ _ Hpath). unfold bind at 1. rewrite Hfwd.
  destruct (isinstance_Exception e); [|reflexivity].
  run. unfold rendered_500. journal_eq.
Qed.

Lemma method_is_get scope :
  String.eqb (get (scope_method scope) "UNKNOWN") "GET" = true ->
  scope_method scope = Some "GET".
Proof.
  destruct (scope_method scope) as [m|]; cbn [get]; intros H.
  - apply String.eqb_eq in H. now subst m.
  - discriminate.
Qed.

(** A request that is not a GET is prepared without decoding anything. *)
Lemma forwarded_scope_not_get scope s :
  String.eqb (get (scope_method scope) "UNKNOWN") "GET" = false ->
  forwarded_scope rt scope s
  = (Returned scope,
     after s (world s)
       [Logged server_logger INFO
          ("MCP Request - Method: " ++ get (scope_method scope) "UNKNOWN");
        Logged server_logger INFO
          ("MCP Request - Headers: " ++ repr_headers rt (get (scope_headers scope) []))]).
Proof. intros H. unfold forwarded_scope. rewrite H. run. journal_eq. Qed.

(** The loop stops at the first [accept] entry that is not UTF-8. *)
Lemma rewrite_accept_undecodable headers :
  accept_decodable headers = false ->
  forall new_headers new_value,
  exists value,
    rewrite_accept rt headers new_headers new_value
    = Raised (UnicodeDecodeError rt value).
Proof.
  induction headers as [|[name value] rest IH]; intros Hdec acc nv.
  - discriminate.
  - cbn [accept_decodable forallb fst snd] in Hdec. cbn [rewrite_accept].
    destruct (String.eqb name "accept") eqn:Hname; cbn [negb orb] in Hdec.
    + unfold decode_utf8. destruct (utf8_valid value) eqn:Hv.
      * cbn [andb] in Hdec. apply (IH Hdec).
      * now exists value.
    + cbn [andb] in Hdec. apply (IH Hdec).
Qed.

(** What preparing the scope of a GET request does: it logs, and it
    returns the scope, rewritten when the test holds, unless a value it
    decodes is not UTF-8. *)
Lemma forwarded_scope_get scope s :
  scope_method scope = Some "GET" ->
  exists r logs,
    forwarded_scope rt scope s = (r, after s (world s) logs)
    /\ calls_in logs = [] /\ responses_in logs = []
    /\ if headers_decode scope
       then r = Returned (if wants_rewrite (accept_of scope)
                          then rewritten scope else scope)
       else exists value, r = Raised (UnicodeDecodeError rt value).
Proof.
  intros Hmethod. unfold headers_decode.
  destruct (utf8_valid (accept_of scope)) eqn:Ha; cbn [andb].
  2:{ unfold forwarded_scope. rewrite Hmethod. cbn [get]. rewrite String.eqb_refl. run.
      unfold decode_utf8. fold (accept_of scope). rewrite Ha.
      eexists _, _. split; [journal_eq|]. split; [reflexivity|]. split; [reflexivity|].
      now eexists. }
  destruct (utf8_valid (user_agent_of scope)) eqn:Hu; cbn [andb].
  2:{ unfold forwarded_scope. rewrite Hmethod. cbn [get]. rewrite String.eqb_refl. run.
      unfold decode_utf8. fold (accept_of scope). fold (user_agent_of scope).
      rewrite Ha, Hu.
      eexists _, _. split; [journal_eq|]. split; [reflexivity|]. split; [reflexivity|].
      now eexists. }
  destruct (wants_rewrite (accept_of scope)) eqn:Hw; cbn [negb orb].
  2:{ rewrite (forwarded_scope_unchanged rt scope s Hmethod Ha Hu Hw).
      eexists _, _. split; [reflexivity|]. split; [reflexivity|]. now split. }
  destruct (accept_decodable (get (scope_headers scope) [])) eqn:Hd.
  - rewrite (forwarded_scope_rewritten rt scope s Hmethod Hd Hu Hw).
    eexists _, _. split; [reflexivity|]. split; [reflexivity|]. now split.
  - unfold forwarded_scope. rewrite Hmethod. cbn [get]. rewrite String.eqb_refl. run.
    unfold decode_utf8. fold (accept_of scope). fold (user_agent_of scope).
    rewrite Ha, Hu. fold (wants_rewrite (accept_of scope)). rewrite Hw.
    destruct (rewrite_accept_undecodable _ Hd [] None) as (value & Hloop).
    fold (get (scope_headers scope) []). rewrite Hloop.
    eexists _, _. split; [journal_eq|]. split; [reflexivity|]. split; [reflexivity|].
    now eexists.
Qed.

(** Preparing the scope of any request: only log records are written,
    and the scope returned is the one given or the rewritten one. *)
Lemma forwarded_scope_run scope s :
  exists r logs,
    forwarded_scope rt scope s = (r, after s (world s) logs)
    /\ calls_in logs = [] /\ responses_in logs = []
    /\ forall scope', r = Returned scope' -> scope' = scope \/ scope' = rewritten scope.
Proof.
  destruct (String.eqb (get (scope_method scope) "UNKNOWN") "GET") eqn:Hm.
  - destruct (forwarded_scope_get scope s (method_is_get _ Hm))
      as (r & logs & Hrun & Hc & Hr & Hout).
    exists r, logs. repeat (split; [assumption|]).
    intros scope' ->. destruct (headers_decode scope).
    + injection Hout as ->. destruct (wants_rewrite (accept_of scope)); auto.
    + destruct Hout as (value & [=]).
  - rewrite (forwarded_scope_not_get scope s Hm).
    eexists _, _. split; [reflexivity|]. split; [reflexivity|]. split; [reflexivity|].
    intros scope' [= <-]. now left.
Qed.

Lemma world_after s w (events : list event) : world (after s w events) = w.
Proof. reflexivity. Qed.

(** What [mcp_app] does with a request under [/mcp] once its scope is
    prepared, as a journal. *)
Lemma mcp_app_prepared_calls self scope s scope' logs :
  scope_type scope = "http" ->
  is_mcp_path (get (scope_path scope) "") = true ->
  forwarded_scope rt scope (mcp_request_logged s scope)
  = (Returned scope', after (mcp_request_logged s scope) (world s) logs) ->
  calls_in logs = [] -> responses_in logs = [] ->
  exists r w events,
    mcp_app rt self scope s = (r, after s w events)
    /\ calls_in events = [session_manager_handle_request scope']
    /\ (r = Returned tt /\ responses_in events = []
        \/ r = Returned tt /\ responses_in events = [(500%Z, "Internal Server Error")]
        \/ responses_in events = [] /\ exists e, r = Raised e /\ isinstance_Exception e = false)
    /\ (forall w', handle_request (server self) scope' (world s) = (Returned tt, w') ->
        r = Returned tt /\ responses_in events = []).
Proof.
  intros Htype Hpath Hfwd Hcalls Hresp.
  rewrite (mcp_app_prepared self scope s _ _ Htype Hpath Hfwd).
  unfold mcp_request_logged. rewrite !after_after, world_after.
  destruct (handle_request (server self) scope' (world s)) as [[[]|e] w];
    [|destruct (isinstance_Exception e) eqn:He]; rewrite after_after.
  - eexists _, w, _. split; [reflexivity|]. split; [|split].
    + rewrite !calls_in_app, Hcalls. reflexivity.
    + left. split; [reflexivity|]. rewrite !responses_in_app, Hresp. reflexivity.
    + intros w' _. split; [reflexivity|]. rewrite !responses_in_app, Hresp. reflexivity.
  - eexists _, w, _. split; [reflexivity|]. split; [|split].
    + rewrite !calls_in_app, Hcalls. reflexivity.
    + right. left. split; [reflexivity|]. rewrite !responses_in_app, Hresp. reflexivity.
    + intros w' [=].
  - eexists _, w, _. split; [reflexivity|]. split; [|split].
    + rewrite !calls_in_app, Hcalls. reflexivity.
    + right. right. split; [rewrite !responses_in_app, Hresp; reflexivity|].
      now exists e.
    + intros w' [=].
Qed.

(** A request under [/mcp] that is not a GET (or has no method at all)
    is handed to the session manager with the scope it came with: no
    header is decoded, so a header that is not UTF-8 does no harm. *)
Theorem non_get_forwarded_unchanged self scope s :
  scope_type scope = "http" ->
  is_mcp_path (get (scope_path scope) "") = true ->
  String.eqb (get (scope_method scope) "UNKNOWN") "GET" = false ->
  exists events,
    journal (snd (mcp_app rt self scope s)) = (journal s ++ events)%list
    /\ calls_in events = [session_manager_handle_request scope]
    /\ (forall w, handle_request (server self) scope (world s) = (Returned tt, w) ->
        fst (mcp_app rt self scope s) = Returned tt /\ responses_in events = []).
Proof.
  intros Htype Hpath Hmethod.
  destruct (mcp_app_prepared_calls self scope s scope _ Htype Hpath
              (forwarded_scope_not_get scope _ Hmethod) eq_refl eq_refl)
    as (r & w & events & Hrun & Hcalls & _ & Hret).
  exists events. rewrite Hrun. split; [reflexivity|]. split; [exact Hcalls|].
  exact Hret.
Qed.

(** A GET request under [/mcp] whose [Accept] value does not mention
    [text/event-stream] (or that has no [Accept] header) is handed to
    the session manager with the scope it came with, provided the two
    values looked up are UTF-8. *)
Theorem get_without_event_stream_unchanged self scope s :
  scope_type scope = "http" ->
  is_mcp_path (get (scope_path scope) "") = true ->
  scope_method scope = Some "GET" ->
  utf8_valid (accept_of scope) = true ->
  utf8_valid (user_agent_of scope) = true ->
  contains "text/event-stream" (accept_of scope) = false ->
  exists events,
    journal (snd (mcp_app rt self scope s)) = (journal s ++ events)%list
    /\ calls_in events = [session_manager_handle_request scope].
Proof.
  intros Htype Hpath Hmethod Ha Hu Hes.
  assert (Hw : wants_rewrite (accept_of scope) = false).
  { unfold wants_rewrite. now rewrite Hes. }
  destruct (mcp_app_prepared_calls self scope s scope _ Htype Hpath
              (forwarded_scope_unchanged rt scope _ Hmethod Ha Hu Hw) eq_refl eq_refl)
    as (r & w & events & Hrun & Hcalls & _).
  exists events. rewrite Hrun. split; [reflexivity | exact Hcalls].
Qed.







(** The rewrite touches the [accept] entries only: the lookup of any
    other name is not changed by it. *)
Lemma dict_get_add_json_other (key : bytes) headers (default : bytes) :
  String.eqb key "accept" = false ->
  dict_get key (map add_json headers) default = dict_get key headers default.
Proof.
  intros Hkey. revert default.
  induction headers as [|[name value] rest IH]; intros default.
  - reflexivity.
  - cbn [map dict_get]. unfold add_json at 1. cbn [fst snd].
    destruct (String.eqb name "accept") eqn:Hname; cbn [dict_get].
    + apply String.eqb_eq in Hname. subst name.
      rewrite String.eqb_sym, Hkey. apply IH.
    + apply IH.
Qed.

(** Preparing a scope that [mcp_app] has prepared changes nothing. *)
Lemma forwarded_scope_again scope s scope' s1 :
  forwarded_scope rt scope s = (Returned scope', s1) ->
  forall s2, exists logs,
    forwarded_scope rt scope' s2 = (Returned scope', after s2 (world s2) logs)
    /\ calls_in logs = [] /\ responses_in logs = [].
Proof.
  intros Hfwd s2.
  destruct (String.eqb (get (scope_method scope) "UNKNOWN") "GET") eqn:Hm.
  2:{ rewrite (forwarded_scope_not_get scope s Hm) in Hfwd.
      injection Hfwd as Heq _. subst scope'.
      rewrite (forwarded_scope_not_get scope s2 Hm). eexists. now split. }
  pose proof (method_is_get _ Hm) as Hmethod.
  destruct (forwarded_scope_get scope s Hmethod) as (r & logs & Hrun & _ & _ & Hout).
  rewrite Hrun in Hfwd. injection Hfwd as Heq _. subst r.
  unfold headers_decode in Hout.
  destruct (utf8_valid (accept_of scope)) eqn:Ha; cbn [andb] in Hout;
    [|destruct Hout as (? & [=])].
  destruct (utf8_valid (user_agent_of scope)) eqn:Hu; cbn [andb] in Hout;
    [|destruct Hout as (? & [=])].
  destruct (wants_rewrite (accept_of scope)) eqn:Hw; cbn [negb orb] in Hout.
  2:{ injection Hout as Heq. subst scope'.
      rewrite (forwarded_scope_unchanged rt scope s2 Hmethod Ha Hu Hw).
      eexists. now split. }
  destruct (accept_decodable (get (scope_headers scope) [])) eqn:Hd;
    [|destruct Hout as (? & [=])].
  injection Hout as Heq. subst scope'.
  assert (Haccept : accept_of (rewritten scope) = accept_of scope ++ ", application/json").
  { unfold accept_of at 1. cbn [rewritten set_headers scope_headers get].
    rewrite (dict_get_add_json _ _ ""), (wants_rewrite_has_accept _ Hw). reflexivity. }
  assert (Hagent : user_agent_of (rewritten scope) = user_agent_of scope).
  { unfold user_agent_of at 1. cbn [rewritten set_headers scope_headers get].
    now apply dict_get_add_json_other. }
  rewrite (forwarded_scope_unchanged rt (rewritten scope) s2).
  - eexists. now split.
  - exact Hmethod.
  - rewrite Haccept. now apply utf8_valid_append.
  - now rewrite Hagent.
  - unfold wants_rewrite. rewrite Haccept.
    rewrite (contains_append_r "application/json" (accept_of scope) ", application/json");
      [|reflexivity].
    now rewrite andb_false_r.
Qed.

(** The scope [mcp_app] hands to the session manager is a fixed point
    of the bridge: sent through [mcp_app] again, it is handed on as it
    is. *)
Theorem forwarded_scope_is_fixed_point self scope s scope' :
  scope_type scope = "http" ->
  is_mcp_path (get (scope_path scope) "") = true ->
  (exists events,
     journal (snd (mcp_app rt self scope s)) = (journal s ++ events)%list
     /\ In (session_manager_handle_request scope') (calls_in events)) ->
  forall s2, exists events2,
    journal (snd (mcp_app rt self scope' s2)) = (journal s2 ++ events2)%list
    /\ calls_in events2 = [session_manager_handle_request scope'].
Proof.
  intros Htype Hpath (events & Hjournal & Hin) s2.
  destruct (forwarded_scope_run scope (mcp_request_logged s scope))
    as (r0 & logs & Hfwd & Hcalls & Hresp & Hshape).
  change (world (mcp_request_logged s scope)) with (world s) in Hfwd.
  destruct r0 as [scope0|e0].
  - destruct (mcp_app_prepared_calls self scope s _ _ Htype Hpath Hfwd Hcalls Hresp)
      as (r & w & events' & Hrun & Hcalls' & _).
    rewrite Hrun in Hjournal. cbn [snd after journal] in Hjournal.
    apply app_inv_head in Hjournal. subst events'.
    rewrite Hcalls' in Hin. destruct Hin as [[= ->]|[]].
    assert (Htype' : scope_type scope' = "http").
    { destruct (Hshape _ eq_refl) as [->| ->]; exact Htype. }
    assert (Hpath' : is_mcp_path (get (scope_path scope') "") = true).
    { destruct (Hshape _ eq_refl) as [->| ->]; exact Hpath. }
    destruct (forwarded_scope_again _ _ _ _ Hfwd (mcp_request_logged s2 scope'))
      as (logs2 & Hfwd2 & Hcalls2 & Hresp2).
    change (world (mcp_request_logged s2 scope')) with (world s2) in Hfwd2.
    destruct (mcp_app_prepared_calls self scope' s2 _ _ Htype' Hpath' Hfwd2 Hcalls2 Hresp2)
      as (r2 & w2 & events2 & Hrun2 & Hcalls2' & _).
    exists events2. rewrite Hrun2. split; [reflexivity | exact Hcalls2'].
  - exfalso.
    rewrite (mcp_app_unprepared self scope s _ _ Htype Hpath Hfwd) in Hjournal.
    unfold mcp_request_logged in Hjournal. rewrite !after_after in Hjournal.
    destruct (isinstance_Exception e0); cbn [snd after journal] in Hjournal;
      apply app_inv_head in Hjournal; subst events;
      rewrite ?calls_in_app, Hcalls in Hin; exact Hin.
Qed.


(** [mcp_app] on a path that starts with [/health]. *)
Lemma mcp_app_health self scope s :
  scope_type scope = "http" ->
  startswith (get (scope_path scope) "") "/health" = true ->
  mcp_app rt self scope s
  = let received :=
      Logged server_logger INFO
        ("Received request for path: " ++ get (scope_path scope) "") in
    match starlette_app (server self) scope (world s) with
    | (Returned _, w) =>
        (Returned tt, after s w [received; Called (starlette_app_call scope)])
    | (Raised e, w) =>
        if isinstance_Exception e
        then (Returned tt,
              after s w (received :: Called (starlette_app_call scope)
                         :: rendered_500 rt scope e))
        else (Raised e, after s w [received; Called (starlette_app_call scope)])
    end.
Proof.
  intros Htype Hpath.
  rewrite (mcp_app_http _ _ _ _ Htype). unfold try_except, route_http.
  rewrite Hpath. unfold await. rewrite world_after. cbv zeta.
  destruct (starlette_app (server self) scope (world s)) as [[[]|e] w].
  - f_equal. journal_eq.
  - destruct (isinstance_Exception e).
    + run. unfold rendered_500. journal_eq.
    + f_equal. journal_eq.
Qed.

(** [mcp_app] on a path that is not registered. *)
Lemma mcp_app_unregistered self scope s :
  scope_type scope = "http" ->
  startswith (get (scope_path scope) "") "/health" = false ->
  is_mcp_path (get (scope_path scope) "") = false ->
  mcp_app rt self scope s
  = (Returned tt,
     after s (world s)
       [Logged server_logger INFO
          ("Received request for path: " ++ get (scope_path scope) "");
        Logged server_logger INFO ("Path not found: " ++ get (scope_path scope) "");
        Responded 404 "Not Found"]).
Proof.
  intros Htype Hhealth Hmcp.
  rewrite (mcp_app_http _ _ _ _ Htype). unfold route_http.
  rewrite Hhealth. unfold is_mcp_path in Hmcp. rewrite Hmcp.
  run. journal_eq.
Qed.


(** In one invocation [mcp_app] makes at most one call (the Starlette
    application, or the session manager with the scope or the rewritten
    scope) and renders at most one response of its own, which is the
    404 or the 500. *)
Theorem mcp_app_one_call_one_response self scope s :
  exists r w events,
    mcp_app rt self scope s = (r, after s w events)
    /\ List.length (calls_in events) <= 1
    /\ List.length (responses_in events) <= 1
    /\ (forall c, In c (calls_in events) ->
          c = starlette_app_call scope
          \/ c = session_manager_handle_request scope
          \/ c = session_manager_handle_request (rewritten scope))
    /\ (forall response, In response (responses_in events) ->
          response = (404%Z, "Not Found")
          \/ response = (500%Z, "Internal Server Error")).
Proof.
  destruct (String.eqb (scope_type scope) "lifespan") eqn:Hlife.
  { unfold mcp_app. rewrite Hlife. unfold await.
    destruct (starlette_app (server self) scope (world s)) as [r w].
    exists r, w, [Called (starlette_app_call scope)].
    split; [reflexivity|]. split; [cbn; lia|]. split; [cbn; lia|].
    split; [intros c [<-|[]]; now left | intros response []]. }
  destruct (String.eqb (scope_type scope) "http") eqn:Hhttp.
  2:{ unfold mcp_app. rewrite Hlife, Hhttp.
      exists (Returned tt), (world s),
        [Logged server_logger WARNING ("Unsupported scope type: " ++ scope_type scope)].
      split; [reflexivity|]. split; [cbn; lia|]. split; [cbn; lia|].
      split; [intros c [] | intros response []]. }
  apply String.eqb_eq in Hhttp.
  destruct (startswith (get (scope_path scope) "") "/health") eqn:Hhealth.
  { rewrite (mcp_app_health self scope s Hhttp Hhealth). cbv zeta.
    destruct (starlette_app (server self) scope (world s)) as [[[]|e] w];
      [|destruct (isinstance_Exception e)];
      (eexists _, w, _; split; [reflexivity|]; split; [cbn; lia|]; split; [cbn; lia|];
       split; [intros c [<-|[]]; now left|]).
    - intros response [].
    - intros response [<-|[]]. now right.
    - intros response []. }
  destruct (is_mcp_path (get (scope_path scope) "")) eqn:Hmcp.
  2:{ rewrite (mcp_app_unregistered self scope s Hhttp Hhealth Hmcp).
      eexists _, _, _. split; [reflexivity|]. split; [cbn; lia|]. split; [cbn; lia|].
      split; [intros c [] | intros response [<-|[]]; now left]. }
  destruct (forwarded_scope_run scope (mcp_request_logged s scope))
    as (r0 & logs & Hfwd & Hcalls & Hresp & Hshape).
  change (world (mcp_request_logged s scope)) with (world s) in Hfwd.
  destruct r0 as [scope'|e0].
  - destruct (mcp_app_prepared_calls self scope s _ _ Hhttp Hmcp Hfwd Hcalls Hresp)
      as (r & w & events & Hrun & Hcalls' & Hcases & _).
    exists r, w, events. split; [exact Hrun|]. rewrite Hcalls'.
    split; [cbn; lia|]. split; [|split].
    + destruct Hcases as [[_ ->]|[[_ ->]|[-> _]]]; cbn; lia.
    + intros c [<-|[]]. right. destruct (Hshape _ eq_refl) as [->| ->]; auto.
    + intros response Hin.
      destruct Hcases as [[_ H]|[[_ H]|[H _]]]; rewrite H in Hin;
        (destruct Hin as [<-|[]] || destruct Hin). now right.
  - rewrite (mcp_app_unprepared self scope s _ _ Hhttp Hmcp Hfwd).
    unfold mcp_request_logged. rewrite !after_after.
    destruct (isinstance_Exception e0).
    + eexists _, _, _. split; [reflexivity|].
      rewrite !calls_in_app, !responses_in_app, Hcalls, Hresp.
      split; [cbn; lia|]. split; [cbn; lia|].
      split; [intros c [] | intros response [<-|[]]; now right].
    + eexists _, _, _. split; [reflexivity|].
      rewrite !calls_in_app, !responses_in_app, Hcalls, Hresp.
      split; [cbn; lia|]. split; [cbn; lia|].
      split; [intros c [] | intros response []].
Qed.





End Routing.


Lemma non_get_forwarded_unchanged_witness :
  exists events,
    journal (snd (mcp_app sample_runtime quiet_server latin1_post_scope initial_state))
    = (journal initial_state ++ events)%list
    /\ calls_in events = [session_manager_handle_request latin1_post_scope]
    /\ responses_in events = [].
Proof.
  destruct (non_get_forwarded_unchanged sample_runtime quiet_server latin1_post_scope
              initial_state eq_refl eq_refl eq_refl) as (events & Hjournal & Hcalls & Hret).
  exists events. split; [exact Hjournal|]. split; [exact Hcalls|].
  exact (proj2 (Hret tt eq_refl)).
Defined.

Lemma get_without_event_stream_unchanged_witness :
  exists events,
    journal (snd (mcp_app sample_runtime quiet_server bare_get_scope initial_state))
    = (journal initial_state ++ events)%list
    /\ calls_in events = [session_manager_handle_request bare_get_scope].
Proof.
  exact (get_without_event_stream_unchanged sample_runtime quiet_server bare_get_scope
           initial_state eq_refl eq_refl eq_refl eq_refl eq_refl eq_refl).
Defined.


Lemma forwarded_scope_is_fixed_point_witness :
  exists events,
    journal (snd (mcp_app sample_runtime quiet_server (rewritten event_stream_scope)
                    initial_state))
    = (journal initial_state ++ events)%list
    /\ calls_in events = [session_manager_handle_request (rewritten event_stream_scope)].
Proof.
  apply (forwarded_scope_is_fixed_point sample_runtime quiet_server event_stream_scope
           initial_state (rewritten event_stream_scope) eq_refl eq_refl).
  eexists. split; [reflexivity|]. cbn. now left.
Defined.




(** ** The two transports: scopes and failures *)

Section Transports.

Context {W Resource Tool Prompt : Type}.
Variable rt : Runtime.
Variable pkg : @Package W Resource Tool Prompt.
Implicit Types (self : @DorisServer W Resource Tool Prompt) (s : @state W).
Implicit Types (e : BaseException) (w : W).

(** A [try] statement whose [except] clause logs and raises the
    exception again ends as its body does. *)
Lemma try_except_reraise {A : Type} (body : @M W A) (caught : BaseException -> bool)
    (handler : BaseException -> M A) s r s1 :
  body s = (r, s1) ->
  (forall e s', exists logs,
     handler e s' = (Raised e, after s' (world s') logs) /\ calls_in logs = []) ->
  exists logs,
    try_except body caught handler s = (r, after s1 (world s1) logs)
    /\ calls_in logs = [].
Proof.
  intros Hbody Hhandler. unfold try_except. rewrite Hbody.
  destruct r as [a|e].
  - exists []. now rewrite after_nil.
  - destruct (caught e).
    + apply Hhandler.
    + exists []. now rewrite after_nil.
Qed.

(** The inner [except] clause of [start_stdio]. *)
Lemma start_stdio_inner_handler_run inner_e s :
  exists logs,
    bind (self_logger_error ("stdio_server internal error: " ++ exc_str inner_e))
      (fun _ =>
         bind (self_logger_error ("Error type: " ++ type_repr inner_e))
           (fun _ =>
              bind (self_logger_error "Complete error stack:")
                (fun _ =>
                   bind (self_logger_error (format_exc rt inner_e))
                     (fun _ => bind (log_exception_group inner_e)
                                 (fun _ => raise inner_e))))) s
    = (@Raised unit inner_e, after s (world s) logs)
    /\ calls_in logs = [].
Proof.
  unfold self_logger_error.
  rewrite (bind_returned _ _ _ _ _ (log_run _ _ _)).
  rewrite (bind_returned _ _ _ _ _ (log_run _ _ _)).
  rewrite (bind_returned _ _ _ _ _ (log_run _ _ _)).
  rewrite (bind_returned _ _ _ _ _ (log_run _ _ _)).
  rewrite !after_after.
  match goal with
  | |- context [bind (log_exception_group inner_e) _ ?st] =>
      destruct (log_exception_group_run inner_e st) as (logs & Hrun & Hlogs)
  end.
  rewrite (bind_returned _ _ _ _ _ Hrun). unfold raise.
  rewrite world_after, after_after.
  eexists. split; [reflexivity|]. rewrite calls_in_app, Hlogs. reflexivity.
Qed.

(** The outer [except] clause of [start_stdio]. *)
Lemma start_stdio_outer_handler_run e s :
  exists logs,
    bind (self_logger_error ("stdio server startup failed: " ++ exc_str e))
      (fun _ =>
         bind (self_logger_error ("Error type: " ++ type_repr e))
           (fun _ => raise e)) s
    = (@Raised unit e, after s (world s) logs)
    /\ calls_in logs = [].
Proof.
  unfold self_logger_error.
  rewrite (bind_returned _ _ _ _ _ (log_run _ _ _)).
  rewrite (bind_returned _ _ _ _ _ (log_run _ _ _)).
  rewrite !after_after. unfold raise.
  eexists. split; [reflexivity|]. reflexivity.
Qed.

(** [start_http] runs the body of its [try] statement; its [except]
    clause adds log records only. *)
Lemma start_http_run self host port s :
  exists logs,
    start_http rt self host port s
    = (fst (start_http_body self host port (http_starting s host port)),
       after (snd (start_http_body self host port (http_starting s host port)))
         (world (snd (start_http_body self host port (http_starting s host port))))
         logs)
    /\ calls_in logs = [].
Proof.
  rewrite start_http_eq. fold (http_starting s host port).
  apply try_except_reraise.
  - now destruct (start_http_body self host port (http_starting s host port)).
  - intros e s'. apply start_http_handler_run.
Qed.

(** [start_http] ends as the body of its [try] statement does: it
    returns when the body returns and raises what the body raises, with
    the collaborators in the state the body left them in and no call
    beyond those of the body. *)
Theorem start_http_reraises self host port s :
  fst (start_http rt self host port s)
  = fst (start_http_body self host port (http_starting s host port))
  /\ world (snd (start_http rt self host port s))
     = world (snd (start_http_body self host port (http_starting s host port)))
  /\ calls_in (journal (snd (start_http rt self host port s)))
     = calls_in (journal (snd (start_http_body self host port
                                 (http_starting s host port)))).
Proof.
  destruct (start_http_run self host port s) as (logs & Hrun & Hlogs).
  rewrite Hrun. cbn [fst snd after world journal].
  split; [reflexivity|]. split; [reflexivity|].
  now rewrite calls_in_app, Hlogs, app_nil_r.
Qed.

(** The body of [start_http] once the connection manager is initialized
    and the [run()] scope of the session manager entered: the listener
    is served and the scope is left, whatever the listener does. *)
Lemma start_http_body_entered self host port s w1 w2 :
  initialize (connection_manager self) (world s) = (Returned tt, w1) ->
  session_run_aenter (server self) w1 = (Returned tt, w2) ->
  exists r w events,
    start_http_body self host port s = (r, after s w events)
    /\ calls_in events = http_calls host port.
Proof.
  intros Hinit Henter. unfold start_http_body. run.
  rewrite Hinit. cbn [world journal]. rewrite Henter. cbn [world journal].
  destruct (serve (server self) w2) as [[[]|e2] w3]; cbn [world journal].
  - destruct (session_run_aexit (server self) None w3) as [[b|e3] w4];
      cbn [world journal];
      (eexists _, w4, _; split; [journal_eq | reflexivity]).
  - destruct (session_run_aexit (server self) (Some e2) w3) as [[[|]|e3] w4];
      cbn [world journal];
      (eexists _, w4, _; split; [journal_eq | reflexivity]).
Qed.

(** [start_http] once the connection manager is initialized and the
    [run()] scope entered. *)
Lemma start_http_entered self host port s w1 w2 :
  initialize (connection_manager self) (world s) = (Returned tt, w1) ->
  session_run_aenter (server self) w1 = (Returned tt, w2) ->
  exists r s1 events,
    start_http rt self host port s = (r, s1)
    /\ journal s1 = (journal s ++ events)%list
    /\ calls_in events = http_calls host port.
Proof.
  intros Hinit Henter.
  destruct (start_http_body_entered self host port (http_starting s host port) w1 w2
              Hinit Henter) as (r & w & events & Hbody & Hcalls).
  destruct (start_http_run self host port s) as (logs & Hrun & Hlogs).
  rewrite Hrun, Hbody. cbn [fst snd]. rewrite world_after.
  unfold http_starting. rewrite !after_after.
  eexists _, _, _. split; [reflexivity|]. split; [reflexivity|].
  cbn [app calls_in]. rewrite !calls_in_app, Hlogs, Hcalls, app_nil_r. reflexivity.
Qed.

(** Once [start_http] has entered the [run()] scope of the session
    manager it leaves it: its calls are those of a complete run, whether
    the listener returns or raises. *)
Theorem run_scope_always_left self host port s w1 w2 :
  initialize (connection_manager self) (world s) = (Returned tt, w1) ->
  session_run_aenter (server self) w1 = (Returned tt, w2) ->
  exists events,
    journal (snd (start_http rt self host port s)) = (journal s ++ events)%list
    /\ calls_in events = http_calls host port.
Proof.
  intros Hinit Henter.
  destruct (start_http_entered self host port s w1 w2 Hinit Henter)
    as (r & s1 & events & Hrun & Hjournal & Hcalls).
  exists events. rewrite Hrun. split; [exact Hjournal | exact Hcalls].
Qed.

(** The inner [try] statement of [start_stdio] once the streams of
    [stdio_server()] are open: the streams are closed again, whether the
    server ran, failed, or never started. *)
Lemma start_stdio_session_entered self s w2 :
  stdio_server_aenter (server self) (world s) = (Returned tt, w2) ->
  exists r w events,
    start_stdio_session rt pkg self s = (r, after s w events)
    /\ (calls_in events
        = [stdio_server_enter; server_get_capabilities true true true;
           server_run "doris-mcp-server"
             (getenv_or rt "SERVER_VERSION" (server_version (_default_config pkg)));
           stdio_server_exit]
        \/ calls_in events
           = [stdio_server_enter; server_get_capabilities true true true;
              stdio_server_exit])
    /\ (forall w3, get_capabilities (server self) w2 = (Returned tt, w3) ->
        calls_in events
        = [stdio_server_enter; server_get_capabilities true true true;
           server_run "doris-mcp-server"
             (getenv_or rt "SERVER_VERSION" (server_version (_default_config pkg)));
           stdio_server_exit]).
Proof.
  intros Henter. unfold start_stdio_session. cbv zeta.
  match goal with
  | |- context [try_except ?body ?caught ?handler s] =>
      assert (Hbody : exists r w events,
                 body s = (r, after s w events)
                 /\ (calls_in events
                     = [stdio_server_enter; server_get_capabilities true true true;
                        server_run "doris-mcp-server"
                          (getenv_or rt "SERVER_VERSION"
                             (server_version (_default_config pkg)));
                        stdio_server_exit]
                     \/ calls_in events
                        = [stdio_server_enter; server_get_capabilities true true true;
                           stdio_server_exit])
                 /\ (forall w3, get_capabilities (server self) w2 = (Returned tt, w3) ->
                     calls_in events
                     = [stdio_server_enter; server_get_capabilities true true true;
                        server_run "doris-mcp-server"
                          (getenv_or rt "SERVER_VERSION"
                             (server_version (_default_config pkg)));
                        stdio_server_exit]));
      [|destruct Hbody as (r & w & events & Hbody & Hcalls & Hcaps);
        destruct (try_except_reraise body caught handler s r _ Hbody
                    (start_stdio_inner_handler_run)) as (logs & Hrun & Hlogs);
        rewrite Hrun, world_after, after_after;
        exists r, w, (events ++ logs)%list; split; [reflexivity|];
        rewrite calls_in_app, Hlogs, app_nil_r; split; assumption]
  end.
  run. rewrite Henter. cbn [world journal].
  destruct (get_capabilities (server self) w2) as [[[]|e1] w3]; cbn [world journal].
  - destruct (run (server self) w3) as [[[]|e2] w4]; cbn [world journal].
    + destruct (stdio_server_aexit (server self) None w4) as [[b|e3] w5];
        cbn [world journal];
        (eexists _, w5, _; split; [journal_eq|]; split; [now left | reflexivity]).
    + destruct (stdio_server_aexit (server self) (Some e2) w4) as [[[|]|e3] w5];
        cbn [world journal];
        (eexists _, w5, _; split; [journal_eq|]; split; [now left | reflexivity]).
  - destruct (stdio_server_aexit (server self) (Some e1) w3) as [[[|]|e3] w5];
      cbn [world journal];
      (eexists _, w5, _; split; [journal_eq|]; split; [now right | intros ? [=]]).
Qed.

(** The body of the outer [try] statement of [start_stdio] once the
    connection manager is initialized and the streams are open. *)
Lemma start_stdio_body_entered self s w1 w2 :
  initialize (connection_manager self) (world s) = (Returned tt, w1) ->
  stdio_server_aenter (server self) w1 = (Returned tt, w2) ->
  exists r w events,
    bind (await connection_initialize (initialize (connection_manager self)))
      (fun _ =>
         bind (self_logger_info "Connection manager initialization completed")
           (fun _ =>
              bind (self_logger_info "Creating stdio_server transport...")
                (fun _ => start_stdio_session rt pkg self))) s
    = (r, after s w events)
    /\ (calls_in events
        = stdio_calls (getenv_or rt "SERVER_VERSION"
                         (server_version (_default_config pkg)))
        \/ calls_in events = stdio_calls_without_run)
    /\ (forall w3, get_capabilities (server self) w2 = (Returned tt, w3) ->
        calls_in events
        = stdio_calls (getenv_or rt "SERVER_VERSION"
                         (server_version (_default_config pkg)))).
Proof.
  intros Hinit Henter.
  rewrite (bind_returned _ _ s _ _
             (await_run connection_initialize _ s _ _ Hinit)).
  unfold self_logger_info.
  rewrite (bind_returned _ _ _ _ _ (log_run _ _ _)).
  rewrite (bind_returned _ _ _ _ _ (log_run _ _ _)).
  rewrite !world_after, !after_after.
  match goal with
  | |- context [start_stdio_session rt pkg self ?st] =>
      destruct (start_stdio_session_entered self st w2 Henter)
        as (r & w & events & Hrun & Hcalls & Hcaps)
  end.
  rewrite Hrun, after_after.
  exists r, w. eexists. split; [reflexivity|].
  rewrite calls_in_app. cbn [app calls_in].
  unfold stdio_calls, stdio_calls_without_run.
  split.
  - destruct Hcalls as [-> | ->]; [now left | now right].
  - intros w3 H3. now rewrite (Hcaps w3 H3).
Qed.

(** Once [start_stdio] has opened the streams of [stdio_server()] it
    closes them: after [initialize()], the calls are the opening of the
    streams, [get_capabilities], the run of the server under the name
    [doris-mcp-server] and the version in [SERVER_VERSION] (or else the
    built-in one), and the closing of the streams; only the run is
    missing when [get_capabilities] raises. *)
Theorem stdio_streams_always_closed self s w1 w2 :
  initialize (connection_manager self) (world s) = (Returned tt, w1) ->
  stdio_server_aenter (server self) w1 = (Returned tt, w2) ->
  exists events,
    journal (snd (start_stdio rt pkg self s)) = (journal s ++ events)%list
    /\ (calls_in events
        = stdio_calls (getenv_or rt "SERVER_VERSION"
                         (server_version (_default_config pkg)))
        \/ calls_in events = stdio_calls_without_run)
    /\ (forall w3, get_capabilities (server self) w2 = (Returned tt, w3) ->
        calls_in events
        = stdio_calls (getenv_or rt "SERVER_VERSION"
                         (server_version (_default_config pkg)))).
Proof.
  intros Hinit Henter. rewrite start_stdio_eq.
  match goal with
  | |- context [try_except ?body ?caught ?handler ?st] =>
      destruct (start_stdio_body_entered self st w1 w2 Hinit Henter)
        as (r & w & events & Hbody & Hcalls & Hcaps);
      destruct (try_except_reraise body caught handler st r _ Hbody
                  (start_stdio_outer_handler_run)) as (logs & Hrun & Hlogs);
      rewrite Hrun
  end.
  rewrite world_after, !after_after.
  eexists. split; [reflexivity|].
  cbn [app calls_in]. rewrite calls_in_app, Hlogs, app_nil_r.
  split; assumption.
Qed.

End Transports.

Lemma run_scope_always_left_witness :
  fst (start_http sample_runtime crashing_server "0.0.0.0" 3000 initial_state)
  = Raised boom
  /\ exists events,
       journal (snd (start_http sample_runtime crashing_server "0.0.0.0" 3000
                       initial_state))
       = (journal initial_state ++ events)%list
       /\ calls_in events = http_calls "0.0.0.0" 3000.
Proof.
  split; [reflexivity|].
  exact (run_scope_always_left sample_runtime crashing_server "0.0.0.0" 3000
           initial_state tt tt eq_refl eq_refl).
Defined.

Lemma stdio_streams_always_closed_witness :
  fst (start_stdio sample_runtime
         (sample_package sample_default_config crashing_libraries) crashing_server
         initial_state)
  = Raised boom
  /\ exists events,
       journal (snd (start_stdio sample_runtime
                       (sample_package sample_default_config crashing_libraries)
                       crashing_server initial_state))
       = (journal initial_state ++ events)%list
       /\ calls_in events = stdio_calls "0.3.0".
Proof.
  split; [reflexivity|].
  destruct (stdio_streams_always_closed sample_runtime
              (sample_package sample_default_config crashing_libraries) crashing_server
              initial_state tt tt eq_refl eq_refl) as (events & Hjournal & _ & Hcaps).
  exists events. split; [exact Hjournal|]. exact (Hcaps tt eq_refl).
Defined.

(** ** The entry point: exit statuses, shutdown and configuration *)

Section EntryPoint.

Context {W Resource Tool Prompt : Type}.
Variable rt : Runtime.
Variable pkg : @Package W Resource Tool Prompt.
Implicit Types (self : @DorisServer W Resource Tool Prompt) (s : @state W).
Implicit Types (e : BaseException) (w : W).

(** An option of [type=str] without [choices] is never refused. *)
Lemma str_option_free (given : option str) (default : str) :
  str_option given None default
  = Returned match given with
             | Some v => v
             | None => default
             end.
Proof. now destruct given. Qed.

(** Every way [parse_args] ends: with the namespace of the values given
    and the defaults, or with the exit of [argparse]. *)
Lemma parse_args_outcome cli s :
  if command_line_refused rt cli
  then fst (parse_args rt (create_arg_parser rt pkg) cli s) = Raised (argparse_error "2")
  else exists args,
         fst (parse_args rt (create_arg_parser rt pkg) cli s) = Returned args.
Proof.
  unfold command_line_refused, refuses_choice, refuses_default, parse_args,
    create_arg_parser.
  cbn [default_transport default_host default_port default_db_host default_db_port
       default_db_user default_db_password default_db_database default_log_level].
  rewrite !str_option_free.
  unfold str_option, int_option, getenv_or_int, bind, lift, ret.
  destruct (cli_transport cli) as [v|]; [destruct (mem v ["stdio"; "http"])|].
  all: cbn [negb orb]; try reflexivity.
  all: destruct (cli_port cli);
    [|destruct (getenv rt "SERVER_PORT") as [text|]; [destruct (int_of_str rt text)|]].
  all: cbn [negb orb]; try reflexivity.
  all: destruct (cli_db_port cli);
    [|destruct (getenv rt "DB_PORT") as [text'|]; [destruct (int_of_str rt text')|]].
  all: cbn [negb orb]; try reflexivity.
  all: destruct (cli_log_level cli) as [l|];
    [destruct (mem l ["DEBUG"; "INFO"; "WARNING"; "ERROR"])|].
  all: cbn [negb orb fst]; try reflexivity; eexists; reflexivity.
Qed.

(** The namespace [parse_args] returns: each attribute is the value
    given, or else the default of its option. *)
Lemma parse_args_fields cli s args :
  fst (parse_args rt (create_arg_parser rt pkg) cli s) = Returned args ->
  args_transport args
  = get (cli_transport cli) (getenv_or rt "TRANSPORT" (transport (_default_config pkg)))
  /\ args_host args
     = get (cli_host cli)
         (getenv_or rt "SERVER_HOST" (host (database (_default_config pkg))))
  /\ int_option rt (cli_port cli)
       (getenv_or_int rt "SERVER_PORT" (server_port (_default_config pkg)))
     = Returned (args_port args)
  /\ args_db_host args
     = get (cli_db_host cli)
         (getenv_or rt "DB_HOST" (host (database (_default_config pkg))))
  /\ int_option rt (cli_db_port cli)
       (getenv_or_int rt "DB_PORT" (port (database (_default_config pkg))))
     = Returned (args_db_port args)
  /\ args_db_user args
     = get (cli_db_user cli)
         (getenv_or rt "DB_USER" (user (database (_default_config pkg))))
  /\ args_db_password args = get (cli_db_password cli) ""
  /\ args_db_database args
     = get (cli_db_database cli)
         (getenv_or rt "DB_DATABASE" (database_name (database (_default_config pkg))))
  /\ args_log_level args
     = get (cli_log_level cli)
         (getenv_or rt "LOG_LEVEL" (level (logging (_default_config pkg)))).
Proof.
  unfold parse_args, create_arg_parser.
  cbn [default_transport default_host default_port default_db_host default_db_port
       default_db_user default_db_password default_db_database default_log_level].
  rewrite !str_option_free.
  unfold bind, lift, ret.
  destruct (str_option (cli_transport cli) (Some ["stdio"; "http"])
              (getenv_or rt "TRANSPORT" (transport (_default_config pkg))))
    as [a_transport|] eqn:Htransport; [|discriminate].
  destruct (int_option rt (cli_port cli)
              (getenv_or_int rt "SERVER_PORT" (server_port (_default_config pkg))))
    as [a_port|]; [|discriminate].
  destruct (int_option rt (cli_db_port cli)
              (getenv_or_int rt "DB_PORT" (port (database (_default_config pkg)))))
    as [a_db_port|]; [|discriminate].
  destruct (str_option (cli_log_level cli) (Some ["DEBUG"; "INFO"; "WARNING"; "ERROR"])
              (getenv_or rt "LOG_LEVEL" (level (logging (_default_config pkg)))))
    as [a_log_level|] eqn:Hlevel; [|discriminate].
  cbn [fst]. intros [= <-].
  cbn [args_transport args_host args_port args_db_host args_db_port args_db_user
       args_db_password args_db_database args_log_level].
  unfold str_option in Htransport, Hlevel.
  repeat split; try (now destruct (cli_host cli) || now destruct (cli_db_host cli)
                     || now destruct (cli_db_user cli)
                     || now destruct (cli_db_password cli)
                     || now destruct (cli_db_database cli)).
  - destruct (cli_transport cli) as [v|]; [destruct (mem v _)|];
      now (injection Htransport as <- || discriminate).
  - destruct (cli_log_level cli) as [v|]; [destruct (mem v _)|];
      now (injection Hlevel as <- || discriminate).
Qed.

(** What [parse_args] raises is the exit of [argparse]. *)
Lemma parse_args_raised cli s e :
  fst (parse_args rt (create_arg_parser rt pkg) cli s) = Raised e ->
  e = argparse_error "2".
Proof.
  intros H. pose proof (parse_args_outcome cli s) as Hout.
  destruct (command_line_refused rt cli).
  - rewrite Hout in H. now injection H as <-.
  - destruct Hout as (args & Hargs). rewrite Hargs in H. discriminate.
Qed.

(** A command line that [argparse] refuses ends the process at once,
    with the exit of [argparse] and before anything is logged, created
    or called; any other command line is parsed.  What is refused: a
    [--transport] or [--log-level] given outside its choices, and a
    [SERVER_PORT] or [DB_PORT] of the environment that is not an integer
    when the option is not given.  (A [TRANSPORT] or [LOG_LEVEL] of the
    environment is not checked against the choices.) *)
Theorem refused_command_line_exits_early cli s :
  if command_line_refused rt cli
  then main_sync rt pkg cli s = (Uncaught (argparse_error "2"), s)
  else exists args,
         fst (parse_args rt (create_arg_parser rt pkg) cli s) = Returned args.
Proof.
  pose proof (parse_args_outcome cli s) as Hout.
  destruct (command_line_refused rt cli); [|exact Hout].
  unfold main_sync, main, bind. rewrite parse_args_state, Hout. reflexivity.
Qed.

(** [guarded_shutdown] raises nothing that [Exception] covers. *)
Lemma guarded_shutdown_raised self s e s' :
  guarded_shutdown self s = (Raised e, s') -> isinstance_Exception e = false.
Proof.
  unfold guarded_shutdown, try_except.
  destruct (shutdown self s) as [[[]|e0] s0].
  - intros [=].
  - destruct (isinstance_Exception e0) eqn:He0.
    + run. intros [=].
    + intros [= <- _]. exact He0.
Qed.

(** The [try] statement of [main] over any body whose [return]
    statements return 1: it ends with 0 or 1, or with an exception that
    [Exception] does not cover. *)
Lemma try_statement_outcomes (body : @M W (option Z)) self s :
  (forall code s1, body s = (Returned (Some code), s1) -> code = 1%Z) ->
  match
    bind
      (try_finally
         (try_except2 body
            isinstance_KeyboardInterrupt
            (fun _ =>
               bind (logger_info "Received interrupt signal, shutting down server...")
                 (fun _ => ret None))
            isinstance_Exception
            (fun e =>
               bind (logger_error ("Server runtime error: " ++ exc_str e))
                 (fun _ => bind (guarded_shutdown self) (fun _ => ret (Some 1%Z)))))
         (guarded_shutdown self))
      (fun returned =>
         match returned with
         | Some code => ret code
         | None => ret 0%Z
         end) s
  with
  | (Returned code, _) => code = 0%Z \/ code = 1%Z
  | (Raised e, _) => isinstance_Exception e = false
  end.
Proof.
  intros Hbody. rewrite bind_eq. unfold try_finally, try_except2.
  destruct (body s) as [[[code|]|e] s1] eqn:Hrun.
  - rewrite (Hbody code s1 eq_refl).
    destruct (guarded_shutdown self s1) as [[[]|e2] s2] eqn:Hfinal.
    + now right.
    + exact (guarded_shutdown_raised _ _ _ _ Hfinal).
  - destruct (guarded_shutdown self s1) as [[[]|e2] s2] eqn:Hfinal.
    + now left.
    + exact (guarded_shutdown_raised _ _ _ _ Hfinal).
  - destruct (isinstance_KeyboardInterrupt e).
    + unfold logger_info. rewrite bind_eq. unfold emit, ret.
      match goal with
      | |- context [guarded_shutdown self ?st] =>
          destruct (guarded_shutdown self st) as [[[]|e2] s2] eqn:Hfinal
      end.
      * now left.
      * exact (guarded_shutdown_raised _ _ _ _ Hfinal).
    + destruct (isinstance_Exception e) eqn:He.
      * unfold logger_error. rewrite bind_eq. unfold emit at 1.
        rewrite bind_eq.
        match goal with
        | |- context [guarded_shutdown self ?st] =>
            destruct (guarded_shutdown self st) as [[[]|e1] s2] eqn:Hhandler
        end.
        -- unfold ret at 1.
           destruct (guarded_shutdown self s2) as [[[]|e2] s3] eqn:Hfinal.
           ++ now right.
           ++ exact (guarded_shutdown_raised _ _ _ _ Hfinal).
        -- destruct (guarded_shutdown self s2) as [[[]|e2] s3] eqn:Hfinal.
           ++ exact (guarded_shutdown_raised _ _ _ _ Hhandler).
           ++ exact (guarded_shutdown_raised _ _ _ _ Hfinal).
      * destruct (guarded_shutdown self s1) as [[[]|e2] s2] eqn:Hfinal.
        -- exact He.
        -- exact (guarded_shutdown_raised _ _ _ _ Hfinal).
Qed.

(** However the collaborators behave, the process ends with exit
    status 0 or 1, or with an exception.  An exception that [Exception]
    covers can only come from setting the log level, before the server
    exists: from then on [main] lets through only what [Exception] does
    not cover. *)
Theorem exit_status_is_0_or_1 cli s :
  match main_sync rt pkg cli s with
  | (Exit code, _) => code = 0%Z \/ code = 1%Z
  | (Uncaught e, s') =>
      isinstance_Exception e = false
      \/ (s' = s
          /\ exists args,
               fst (parse_args rt (create_arg_parser rt pkg) cli s) = Returned args
               /\ set_root_level rt (args_log_level args) = Some e)
  end.
Proof.
  unfold main_sync.
  destruct (fst (parse_args rt (create_arg_parser rt pkg) cli s)) as [args|e] eqn:Hparse.
  2:{ unfold main, bind. rewrite parse_args_state, Hparse.
      left. now rewrite (parse_args_raised _ _ _ Hparse). }
  destruct (set_root_level rt (args_log_level args)) as [e|] eqn:Hlevel.
  { unfold main, bind. rewrite parse_args_state, Hparse, Hlevel.
    right. split; [reflexivity|]. now exists args. }
  rewrite (main_eq rt pkg cli s args Hparse Hlevel), serve_transport_eq.
  match goal with
  | |- context [try_except2 ?body] =>
      pose proof (try_statement_outcomes body
                    (DorisServer_init pkg (override_config pkg args (from_env pkg))) s)
        as Hout
  end.
  match type of Hout with
  | ?P -> _ => assert (Hbody : P)
  end.
  { intros code s1.
    destruct (selected_start rt pkg _ args) as [start|].
    - rewrite bind_eq. destruct (start s) as [[[]|e] s2]; intros [=].
    - unfold logger_error. rewrite bind_eq. unfold emit. rewrite bind_eq.
      match goal with
      | |- context [shutdown ?self ?st] => destruct (shutdown self st) as [[[]|e] s2]
      end; intros [=]; now subst. }
  specialize (Hout Hbody).
  match type of Hout with
  | match ?m with _ => _ end =>
      destruct m as [[code|e] s']
  end; [exact Hout | now left].
Qed.

(** Every call of [shutdown] awaits [close()] once; what [shutdown]
    raises is not covered by [Exception]. *)
Lemma shutdown_extends self s :
  exists r w events,
    shutdown self s = (r, after s w events)
    /\ calls_in events = [connection_close]
    /\ forall e, r = Raised e -> isinstance_Exception e = false.
Proof.
  unfold shutdown. unfold self_logger_info at 1. rewrite bind_eq. unfold emit at 1.
  unfold try_except. rewrite bind_eq. unfold await. cbn [world journal].
  destruct (close (connection_manager self) (world s)) as [[[]|e] w].
  - run. eexists _, w, _. split; [journal_eq|]. split; [reflexivity|]. intros e [=].
  - destruct (isinstance_Exception e) eqn:He.
    + run. eexists _, w, _. split; [journal_eq|]. split; [reflexivity|]. intros e' [=].
    + eexists _, w, _. split; [journal_eq|]. split; [reflexivity|].
      intros e' [= <-]. exact He.
Qed.

Lemma guarded_shutdown_extends self s :
  exists r w events,
    guarded_shutdown self s = (r, after s w events)
    /\ calls_in events = [connection_close].
Proof.
  destruct (shutdown_extends self s) as (r & w & events & Hrun & Hcalls & _).
  unfold guarded_shutdown, try_except. rewrite Hrun.
  destruct r as [[]|e].
  - now exists (Returned tt), w, events.
  - destruct (isinstance_Exception e).
    + run. eexists _, w, _. split; [journal_eq|].
      rewrite calls_in_app, Hcalls. reflexivity.
    + now exists (Raised e), w, events.
Qed.

Ltac count_calls :=
  repeat first [rewrite calls_in_app | progress cbn [app calls_in]].

(** How often the [try] statement of [main] closes the connection
    manager after the transport ended. *)
Lemma serve_transport_closes self args s :
  (selected_start rt pkg self args = None ->
   closes 2 s (serve_transport rt pkg self args s))
  /\ (forall start,
        selected_start rt pkg self args = Some start ->
        (forall s1, start s = (Returned tt, s1) ->
                    closes 1 s1 (serve_transport rt pkg self args s))
        /\ (forall e s1,
              start s = (Raised e, s1) -> isinstance_KeyboardInterrupt e = true ->
              closes 1 s1 (serve_transport rt pkg self args s))
        /\ (forall e s1,
              start s = (Raised e, s1) -> isinstance_Exception e = true ->
              closes 2 s1 (serve_transport rt pkg self args s))).
Proof.
  rewrite serve_transport_eq, bind_eq. unfold try_finally, try_except2. cbv beta.
  split; [|intros start Hstart; split; [|split]].
  - intros Hnone. rewrite Hnone.
    unfold logger_error at 1. rewrite bind_eq. unfold emit at 1. rewrite bind_eq.
    match goal with
    | |- context [shutdown self ?st] =>
        destruct (shutdown_extends self st) as (r1 & w1 & ev1 & Hrun1 & Hcalls1 & Hraised1)
    end.
    rewrite Hrun1.
    destruct r1 as [[]|e1].
    + unfold ret at 1.
      match goal with
      | |- context [guarded_shutdown self ?st] =>
          destruct (guarded_shutdown_extends self st) as (r2 & w2 & ev2 & Hrun2 & Hcalls2)
      end.
      rewrite Hrun2. eexists. split.
      * destruct r2 as [[]|e2]; cbn [snd ret]; unfold after; cbn [journal];
          rewrite <- ?app_assoc; reflexivity.
      * count_calls. rewrite ?Hcalls1, ?Hcalls2. reflexivity.
    + rewrite (Hraised1 e1 eq_refl).
      destruct (isinstance_KeyboardInterrupt e1).
      * unfold logger_info. rewrite bind_eq. unfold emit at 1, ret at 1.
        match goal with
        | |- context [guarded_shutdown self ?st] =>
            destruct (guarded_shutdown_extends self st)
              as (r2 & w2 & ev2 & Hrun2 & Hcalls2)
        end.
        rewrite Hrun2. eexists. split.
        -- destruct r2 as [[]|e2]; cbn [snd ret]; unfold after; cbn [journal];
             rewrite <- ?app_assoc; reflexivity.
        -- count_calls. rewrite ?Hcalls1, ?Hcalls2. reflexivity.
      * match goal with
        | |- context [guarded_shutdown self ?st] =>
            destruct (guarded_shutdown_extends self st)
              as (r2 & w2 & ev2 & Hrun2 & Hcalls2)
        end.
        rewrite Hrun2. eexists. split.
        -- destruct r2 as [[]|e2]; cbn [snd ret]; unfold after; cbn [journal];
             rewrite <- ?app_assoc; reflexivity.
        -- count_calls. rewrite ?Hcalls1, ?Hcalls2. reflexivity.
  - intros s1 Hret. rewrite Hstart. cbv beta iota.
    rewrite (bind_returned _ _ _ _ _ Hret). unfold ret at 1.
    destruct (guarded_shutdown_extends self s1) as (r2 & w2 & ev2 & Hrun2 & Hcalls2).
    rewrite Hrun2. exists ev2. split; [|exact Hcalls2].
    destruct r2 as [[]|e2]; reflexivity.
  - intros e s1 Hraise Hki. rewrite Hstart. cbv beta iota.
    rewrite (bind_raised _ _ _ _ _ Hraise), Hki.
    unfold logger_info. rewrite bind_eq. unfold emit at 1, ret at 1.
    match goal with
    | |- context [guarded_shutdown self ?st] =>
        destruct (guarded_shutdown_extends self st) as (r2 & w2 & ev2 & Hrun2 & Hcalls2)
    end.
    rewrite Hrun2. eexists. split.
    + destruct r2 as [[]|e2]; cbn [snd ret]; unfold after; cbn [journal];
        rewrite <- ?app_assoc; reflexivity.
    + count_calls. exact Hcalls2.
  - intros e s1 Hraise He. rewrite Hstart. cbv beta iota.
    rewrite (bind_raised _ _ _ _ _ Hraise), He.
    assert (Hki : isinstance_KeyboardInterrupt e = false).
    { unfold isinstance_Exception in He. unfold isinstance_KeyboardInterrupt.
      destruct (exc_type e); (discriminate || reflexivity). }
    rewrite Hki.
    unfold logger_error. rewrite bind_eq. unfold emit at 1. rewrite bind_eq.
    match goal with
    | |- context [guarded_shutdown self ?st] =>
        destruct (guarded_shutdown_extends self st) as (r1 & w1 & ev1 & Hrun1 & Hcalls1)
    end.
    rewrite Hrun1.
    destruct r1 as [[]|e1].
    + unfold ret at 1.
      match goal with
      | |- context [guarded_shutdown self ?st] =>
          destruct (guarded_shutdown_extends self st) as (r2 & w2 & ev2 & Hrun2 & Hcalls2)
      end.
      rewrite Hrun2. eexists. split.
      * destruct r2 as [[]|e2]; cbn [snd ret]; unfold after; cbn [journal];
          rewrite <- ?app_assoc; reflexivity.
      * count_calls. rewrite ?Hcalls1, ?Hcalls2. reflexivity.
    + match goal with
      | |- context [guarded_shutdown self ?st] =>
          destruct (guarded_shutdown_extends self st) as (r2 & w2 & ev2 & Hrun2 & Hcalls2)
      end.
      rewrite Hrun2. eexists. split.
      * destruct r2 as [[]|e2]; cbn [snd ret]; unfold after; cbn [journal];
          rewrite <- ?app_assoc; reflexivity.
      * count_calls. rewrite ?Hcalls1, ?Hcalls2. reflexivity.
Qed.

(** After the transport has ended, [main] closes the connection manager
    once when the transport returned or was interrupted from the
    keyboard, and twice when it raised an exception (an instance of
    [Exception]) or is not supported: there the [except] clause, or the
    [else] branch, and the [finally] clause each call [shutdown].  This
    holds whatever [close()] does. *)
Theorem failure_closes_twice cli s args :
  fst (parse_args rt (create_arg_parser rt pkg) cli s) = Returned args ->
  set_root_level rt (args_log_level args) = None ->
  (selected_start rt pkg
     (DorisServer_init pkg (override_config pkg args (from_env pkg))) args = None ->
   closes 2 s (main_sync rt pkg cli s))
  /\ (forall start,
        selected_start rt pkg
          (DorisServer_init pkg (override_config pkg args (from_env pkg))) args
        = Some start ->
        (forall s1, start s = (Returned tt, s1) ->
                    closes 1 s1 (main_sync rt pkg cli s))
        /\ (forall e s1,
              start s = (Raised e, s1) -> isinstance_KeyboardInterrupt e = true ->
              closes 1 s1 (main_sync rt pkg cli s))
        /\ (forall e s1,
              start s = (Raised e, s1) -> isinstance_Exception e = true ->
              closes 2 s1 (main_sync rt pkg cli s))).
Proof.
  intros Hparse Hlevel.
  assert (Hsync : forall n from,
             closes n from
               (serve_transport rt pkg
                  (DorisServer_init pkg (override_config pkg args (from_env pkg))) args s)
             -> closes n from (main_sync rt pkg cli s)).
  { intros n from. unfold closes, main_sync.
    rewrite (main_eq rt pkg cli s args Hparse Hlevel).
    now destruct (serve_transport rt pkg _ args s) as [[code|e] s']. }
  destruct (serve_transport_closes
              (DorisServer_init pkg (override_config pkg args (from_env pkg))) args s)
    as [Hnone Hsome].
  split.
  - intros H. apply Hsync, Hnone, H.
  - intros start Hstart. destruct (Hsome start Hstart) as (H1 & H2 & H3).
    split; [|split].
    + intros s1 H. apply Hsync, (H1 s1 H).
    + intros e s1 H Hki. apply Hsync, (H2 e s1 H Hki).
    + intros e s1 H He. apply Hsync, (H3 e s1 H He).
Qed.

(** Started with no database or log-level option, in an environment
    that sets none of [DB_HOST], [DB_PORT], [DB_USER], [DB_DATABASE] and
    [LOG_LEVEL], the server gets the configuration [from_env] loaded,
    unchanged. *)
Theorem untouched_settings_come_from_env cli s args :
  fst (parse_args rt (create_arg_parser rt pkg) cli s) = Returned args ->
  cli_db_host cli = None -> cli_db_port cli = None -> cli_db_user cli = None ->
  cli_db_password cli = None -> cli_db_database cli = None ->
  cli_log_level cli = None ->
  getenv rt "DB_HOST" = None -> getenv rt "DB_PORT" = None ->
  getenv rt "DB_USER" = None -> getenv rt "DB_DATABASE" = None ->
  getenv rt "LOG_LEVEL" = None ->
  config (DorisServer_init pkg (override_config pkg args (from_env pkg)))
  = from_env pkg.
Proof.
  intros Hparse Hhost Hport Huser Hpassword Hdatabase Hlevel
    Ehost Eport Euser Edatabase Elevel.
  destruct (parse_args_fields cli s args Hparse)
    as (_ & _ & _ & Ah & Ap & Au & Aw & Ad & Al).
  rewrite Hhost in Ah. rewrite Hport in Ap. rewrite Huser in Au.
  rewrite Hpassword in Aw. rewrite Hdatabase in Ad. rewrite Hlevel in Al.
  unfold getenv_or in Ah, Au, Ad, Al. unfold getenv_or_int, int_option in Ap.
  rewrite Ehost in Ah. rewrite Eport in Ap. rewrite Euser in Au.
  rewrite Edatabase in Ad. rewrite Elevel in Al.
  cbn [get] in Ah, Au, Aw, Ad, Al. injection Ap as Ap.
  cbn [DorisServer_init config]. unfold override_config.
  rewrite Ah, <- Ap, Au, Aw, Ad, Al.
  rewrite !String.eqb_refl, Z.eqb_refl. cbn [negb].
  destruct (from_env pkg) as [[] [] ? ? ?]. reflexivity.
Qed.

(** A value given on the command line that differs from the built-in
    default (for the password: that is not empty) is the value the
    server is configured with, whatever the environment says; and no
    option changes the transport, the server port or the server version
    of the configuration. *)
Theorem explicit_values_win cli s args :
  fst (parse_args rt (create_arg_parser rt pkg) cli s) = Returned args ->
  let configured :=
    config (DorisServer_init pkg (override_config pkg args (from_env pkg))) in
  (forall v, cli_db_host cli = Some v -> v <> host (database (_default_config pkg)) ->
             host (database configured) = v)
  /\ (forall n, cli_db_port cli = Some n -> n <> port (database (_default_config pkg)) ->
                port (database configured) = n)
  /\ (forall v, cli_db_user cli = Some v -> v <> user (database (_default_config pkg)) ->
                user (database configured) = v)
  /\ (forall v, cli_db_password cli = Some v -> v <> "" ->
                password (database configured) = v)
  /\ (forall v, cli_db_database cli = Some v ->
                v <> database_name (database (_default_config pkg)) ->
                database_name (database configured) = v)
  /\ (forall v, cli_log_level cli = Some v -> v <> level (logging (_default_config pkg)) ->
                level (logging configured) = v)
  /\ transport configured = transport (from_env pkg)
  /\ server_port configured = server_port (from_env pkg)
  /\ server_version configured = server_version (from_env pkg).
Proof.
  intros Hparse configured. subst configured.
  destruct (parse_args_fields cli s args Hparse)
    as (_ & _ & _ & Ah & Ap & Au & Aw & Ad & Al).
  cbn [DorisServer_init config]. unfold override_config.
  cbn [database logging host port user password database_name level transport
       server_port server_version].
  repeat split.
  - intros v Hv Hne. rewrite Hv in Ah. cbn [get] in Ah. rewrite Ah.
    apply String.eqb_neq in Hne. now rewrite Hne.
  - intros n Hn Hne. rewrite Hn in Ap. cbn [int_option] in Ap. injection Ap as <-.
    apply Z.eqb_neq in Hne. now rewrite Hne.
  - intros v Hv Hne. rewrite Hv in Au. cbn [get] in Au. rewrite Au.
    apply String.eqb_neq in Hne. now rewrite Hne.
  - intros v Hv Hne. rewrite Hv in Aw. cbn [get] in Aw. rewrite Aw.
    apply String.eqb_neq in Hne. now rewrite Hne.
  - intros v Hv Hne. rewrite Hv in Ad. cbn [get] in Ad. rewrite Ad.
    apply String.eqb_neq in Hne. now rewrite Hne.
  - intros v Hv Hne. rewrite Hv in Al. cbn [get] in Al. rewrite Al.
    apply String.eqb_neq in Hne. now rewrite Hne.
Qed.

(** With the transport [http], once the connection manager is
    initialized and the session manager runs, the listener is served on
    the host given by [--host], or else by [SERVER_HOST], or else on the
    built-in default of the database host, and on the port given by
    [--port], or else by [SERVER_PORT] read as an integer, or else on
    the built-in server port. *)
Theorem http_listen_address cli s args w1 w2 :
  fst (parse_args rt (create_arg_parser rt pkg) cli s) = Returned args ->
  set_root_level rt (args_log_level args) = None ->
  args_transport args = "http" ->
  initialize
    (connection_manager (DorisServer_init pkg (override_config pkg args (from_env pkg))))
    (world s) = (Returned tt, w1) ->
  session_run_aenter (libraries pkg) w1 = (Returned tt, w2) ->
  exists events listen_port,
    journal (snd (main_sync rt pkg cli s)) = (journal s ++ events)%list
    /\ In (uvicorn_serve
             (get (cli_host cli)
                (getenv_or rt "SERVER_HOST" (host (database (_default_config pkg)))))
             listen_port)
          (calls_in events)
    /\ int_option rt (cli_port cli)
         (getenv_or_int rt "SERVER_PORT" (server_port (_default_config pkg)))
       = Returned listen_port.
Proof.
  intros Hparse Hlevel Htransport Hinit Henter.
  destruct (parse_args_fields cli s args Hparse) as (_ & Ahost & Aport & _).
  set (self := DorisServer_init pkg (override_config pkg args (from_env pkg))) in *.
  destruct (start_http_entered rt self (args_host args) (args_port args) s w1 w2
              Hinit Henter) as (r & s1 & events & Hstart & Hjournal & Hcalls).
  assert (Hselected : selected_start rt pkg self args
                      = Some (start_http rt self (args_host args) (args_port args))).
  { unfold selected_start. now rewrite Htransport. }
  assert (Hextends : exists more,
             journal (snd (serve_transport rt pkg self args s))
             = (journal s1 ++ more)%list).
  { rewrite serve_transport_eq, bind_eq, Hselected.
    unfold try_finally, try_except2. rewrite bind_eq, Hstart.
    destruct r as [[]|e].
    - unfold ret at 1.
      destruct (guarded_shutdown_extends self s1) as (r2 & w & ev & Hrun & _).
      rewrite Hrun. exists ev. now destruct r2.
    - destruct (isinstance_KeyboardInterrupt e);
        [|destruct (isinstance_Exception e)].
      + unfold logger_info. rewrite bind_eq. unfold emit at 1, ret at 1.
        match goal with
        | |- context [guarded_shutdown self ?st] =>
            destruct (guarded_shutdown_extends self st) as (r2 & w & ev & Hrun & _)
        end.
        rewrite Hrun. eexists.
        destruct r2; cbn [snd ret]; unfold after; cbn [journal];
          rewrite <- ?app_assoc; reflexivity.
      + unfold logger_error. rewrite bind_eq. unfold emit at 1. rewrite bind_eq.
        match goal with
        | |- context [guarded_shutdown self ?st] =>
            destruct (guarded_shutdown_extends self st) as (r1 & w & ev & Hrun & _)
        end.
        rewrite Hrun.
        destruct r1 as [[]|e1]; [unfold ret at 1|];
          match goal with
          | |- context [guarded_shutdown self ?st] =>
              destruct (guarded_shutdown_extends self st) as (r2 & w' & ev' & Hrun' & _)
          end;
          rewrite Hrun'; eexists;
          destruct r2; cbn [snd ret]; unfold after; cbn [journal];
            rewrite <- ?app_assoc; reflexivity.
      + destruct (guarded_shutdown_extends self s1) as (r2 & w & ev & Hrun & _).
        rewrite Hrun. exists ev. now destruct r2. }
  destruct Hextends as (more & Hmore).
  exists (events ++ more)%list, (args_port args).
  split; [|split].
  - unfold main_sync. rewrite (main_eq rt pkg cli s args Hparse Hlevel).
    fold self.
    destruct (serve_transport rt pkg self args s) as [[code|e] s'];
      cbn [snd] in Hmore |- *; rewrite Hmore, Hjournal, <- app_assoc; reflexivity.
  - rewrite calls_in_app, Hcalls, <- Ahost. apply in_or_app. left.
    unfold http_calls. cbn. auto.
  - exact Aport.
Qed.

End EntryPoint.

Lemma refused_command_line_exits_early_witness :
  main_sync sample_runtime (sample_package sample_default_config quiet_libraries)
    sse_command_line initial_state
  = (Uncaught (argparse_error "2"), initial_state).
Proof.
  exact (refused_command_line_exits_early sample_runtime
           (sample_package sample_default_config quiet_libraries)
           sse_command_line initial_state).
Defined.

Lemma failure_closes_twice_witness :
  closes 2 initial_state
    (main_sync sse_runtime (sample_package sample_default_config quiet_libraries)
       empty_command_line initial_state).
Proof.
  refine (proj1 (failure_closes_twice sse_runtime
                   (sample_package sample_default_config quiet_libraries)
                   empty_command_line initial_state _ eq_refl eq_refl) eq_refl).
Defined.

Lemma untouched_settings_come_from_env_witness :
  exists args,
    fst (parse_args sample_runtime (create_arg_parser sample_runtime production_package)
           http_command_line initial_state) = Returned args
    /\ config (DorisServer_init production_package
                 (override_config production_package args (from_env production_package)))
       = production_config.
Proof.
  eexists. split; [reflexivity|].
  exact (untouched_settings_come_from_env sample_runtime production_package
           http_command_line initial_state _ eq_refl eq_refl eq_refl eq_refl eq_refl
           eq_refl eq_refl eq_refl eq_refl eq_refl eq_refl eq_refl).
Defined.

Lemma explicit_values_win_witness :
  exists args,
    fst (parse_args production_runtime
           (create_arg_parser production_runtime production_package)
           override_command_line initial_state) = Returned args
    /\ port (database (config (DorisServer_init production_package
                                 (override_config production_package args
                                    (from_env production_package))))) = 9031%Z
    /\ password (database (config (DorisServer_init production_package
                                     (override_config production_package args
                                        (from_env production_package))))) = "secret".
Proof.
  eexists. split; [reflexivity|].
  pose proof (explicit_values_win production_runtime production_package
                override_command_line initial_state _ eq_refl)
    as (_ & Hport & _ & Hpassword & _).
  split.
  - apply Hport; [reflexivity | discriminate].
  - apply Hpassword; [reflexivity | discriminate].
Defined.

Lemma http_listen_address_witness :
  exists events,
    journal (snd (main_sync sample_runtime
                    (sample_package sample_default_config quiet_libraries)
                    http_command_line initial_state))
    = (journal initial_state ++ events)%list
    /\ In (uvicorn_serve "localhost" 3000) (calls_in events).
Proof.
  destruct (http_listen_address sample_runtime
              (sample_package sample_default_config quiet_libraries)
              http_command_line initial_state _ tt tt eq_refl eq_refl eq_refl eq_refl
              eq_refl) as (events & listen_port & Hjournal & Hin & Hport).
  exists events. split; [exact Hjournal|].
  injection Hport as <-. exact Hin.
Defined.

(** ** Failures that are let through *)

Section StdioFailure.

Context {W Resource Tool Prompt : Type}.
Variable rt : Runtime.
Variable pkg : @Package W Resource Tool Prompt.
Implicit Types (self : @DorisServer W Resource Tool Prompt) (s : @state W).
Implicit Types (e : BaseException) (w : W).

(** The inner [try] statement of [start_stdio] when the run of the
    server raises and [stdio_server()] does not swallow the exception. *)
Lemma start_stdio_session_failed self s e w2 w3 w4 w5 :
  stdio_server_aenter (server self) (world s) = (Returned tt, w2) ->
  get_capabilities (server self) w2 = (Returned tt, w3) ->
  run (server self) w3 = (Raised e, w4) ->
  stdio_server_aexit (server self) (Some e) w4 = (Returned false, w5) ->
  exists events,
    start_stdio_session rt pkg self s = (Raised e, after s w5 events).
Proof.
  intros Henter Hcaps Hrun Hexit. unfold start_stdio_session. cbv zeta.
  match goal with
  | |- context [try_except ?body ?caught ?handler s] =>
      assert (Hbody : exists events, body s = (Raised e, after s w5 events));
      [|destruct Hbody as (events & Hbody);
        destruct (try_except_reraise body caught handler s _ _ Hbody
                    (start_stdio_inner_handler_run rt)) as (logs & Htry & _);
        rewrite Htry, world_after, after_after; now eexists]
  end.
  run. rewrite Henter. cbn [world journal]. rewrite Hcaps. cbn [world journal].
  rewrite Hrun. cbn [world journal]. rewrite Hexit. cbn [world journal].
  eexists. journal_eq.
Qed.

(** A failure of the run of the server on the stdio streams comes out
    of [start_stdio] as it is, whether [Exception] covers it or not,
    unless [stdio_server()] swallows it on the way out: neither
    [except] clause of [start_stdio] replaces or drops it. *)
Theorem stdio_run_failure_propagates self s e w1 w2 w3 w4 w5 :
  initialize (connection_manager self) (world s) = (Returned tt, w1) ->
  stdio_server_aenter (server self) w1 = (Returned tt, w2) ->
  get_capabilities (server self) w2 = (Returned tt, w3) ->
  run (server self) w3 = (Raised e, w4) ->
  stdio_server_aexit (server self) (Some e) w4 = (Returned false, w5) ->
  fst (start_stdio rt pkg self s) = Raised e
  /\ world (snd (start_stdio rt pkg self s)) = w5.
Proof.
  intros Hinit Henter Hcaps Hrun Hexit. rewrite start_stdio_eq.
  match goal with
  | |- context [try_except ?body ?caught ?handler ?st] =>
      assert (Hbody : exists events, body st = (Raised e, after st w5 events));
      [|destruct Hbody as (events & Hbody);
        destruct (try_except_reraise body caught handler st _ _ Hbody
                    (start_stdio_outer_handler_run)) as (logs & Htry & _);
        rewrite Htry; now split]
  end.
  match goal with
  | |- context [bind (await connection_initialize ?f) ?k ?st] =>
      rewrite (bind_returned _ k st _ _
                 (await_run connection_initialize f st _ _ Hinit))
  end.
  unfold self_logger_info.
  rewrite (bind_returned _ _ _ _ _ (log_run _ _ _)).
  rewrite (bind_returned _ _ _ _ _ (log_run _ _ _)).
  rewrite !world_after, !after_after.
  match goal with
  | |- context [start_stdio_session rt pkg self ?st] =>
      destruct (start_stdio_session_failed self st e w2 w3 w4 w5
                  Henter Hcaps Hrun Hexit) as (events & Hsession)
  end.
  rewrite Hsession. eexists. journal_eq.
Qed.

End StdioFailure.

Lemma stdio_run_failure_propagates_witness :
  fst (start_stdio sample_runtime
         (sample_package sample_default_config crashing_libraries) crashing_server
         initial_state)
  = Raised boom
  /\ world (snd (start_stdio sample_runtime
                   (sample_package sample_default_config crashing_libraries)
                   crashing_server initial_state)) = tt.
Proof.
  exact (stdio_run_failure_propagates sample_runtime
           (sample_package sample_default_config crashing_libraries) crashing_server
           initial_state boom tt tt tt tt tt eq_refl eq_refl eq_refl eq_refl eq_refl).
Defined.

Section Cleanup.

Context {W Resource Tool Prompt : Type}.
Variable rt : Runtime.
Variable pkg : @Package W Resource Tool Prompt.
Implicit Types (self : @DorisServer W Resource Tool Prompt) (s : @state W).
Implicit Types (e : BaseException) (w : W).

(** Neither [shutdown] nor the [try] statement around it catches a
    failure of [close()] that [Exception] does not cover. *)
Lemma guarded_shutdown_lets_through self s e w :
  isinstance_Exception e = false ->
  close (connection_manager self) (world s) = (Raised e, w) ->
  fst (guarded_shutdown self s) = Raised e.
Proof.
  intros He Hclose. unfold guarded_shutdown, try_except.
  pose proof (shutdown_lets_through self s e w He Hclose) as Hshutdown.
  destruct (shutdown self s) as [r s1]. cbn [fst] in Hshutdown. subst r.
  now rewrite He.
Qed.

(** When the transport has returned and [close()] then fails with an
    exception that [Exception] does not cover (an interrupt from the
    keyboard, a cancellation), the exit status 0 is lost: the exception
    raised in the [finally] clause comes out of [main]. *)
Theorem interrupted_cleanup_escapes cli s args start s1 e w :
  fst (parse_args rt (create_arg_parser rt pkg) cli s) = Returned args ->
  set_root_level rt (args_log_level args) = None ->
  selected_start rt pkg
    (DorisServer_init pkg (override_config pkg args (from_env pkg))) args
  = Some start ->
  start s = (Returned tt, s1) ->
  close (connection_manager
           (DorisServer_init pkg (override_config pkg args (from_env pkg))))
    (world s1) = (Raised e, w) ->
  isinstance_Exception e = false ->
  fst (main_sync rt pkg cli s) = Uncaught e.
Proof.
  intros Hparse Hlevel Hstart Hret Hclose He.
  unfold main_sync. rewrite (main_eq rt pkg cli s args Hparse Hlevel).
  rewrite serve_transport_eq, bind_eq, Hstart. unfold try_finally, try_except2.
  rewrite (bind_returned _ _ _ _ _ Hret). unfold ret at 1.
  pose proof (guarded_shutdown_lets_through _ s1 e w He Hclose) as Hfinal.
  destruct (guarded_shutdown _ s1) as [r s2]. cbn [fst] in Hfinal. subst r.
  reflexivity.
Qed.

End Cleanup.

Lemma interrupted_cleanup_escapes_witness :
  fst (main_sync sample_runtime interrupted_close_package http_command_line
         initial_state)
  = Uncaught keyboard_interrupt.
Proof.
  eapply (interrupted_cleanup_escapes sample_runtime interrupted_close_package
            http_command_line initial_state _ _
            (snd (start_http sample_runtime
                    (DorisServer_init interrupted_close_package sample_default_config)
                    "localhost" 3000 initial_state))
            keyboard_interrupt tt); reflexivity.
Defined.
